(** * im2latex: the attention decoder of [model/decoder.py]

    [Decoder.__call__] builds a TensorFlow 1 graph: it creates the embedding
    table and the start token, builds an attention cell for the training
    unroll and one for the decode unroll under the variable scope
    ["attn_cell"], wraps the second into a decoder cell selected by
    [config.decoding] and unrolls it with [dynamic_decode].

    The method executes no tensor computation; it only constructs objects.
    It is embedded here as a program in a small state-and-exception monad
    whose state is the TensorFlow variable store, the stack of variable
    scopes and the list of objects constructed so far.  Tensors are graph
    nodes (an inductive type); their run-time meaning is given separately by
    an evaluator over shaped arrays. *)

From Stdlib Require Import ZArith QArith List String Lia Reals Lra.
From stdpp Require Import base option list gmap strings.

Set Warnings "-register-all,-clear-no-such-hyp".
Local Open Scope string_scope.
Local Open Scope Z_scope.
Local Open Scope list_scope.

(** ** Python values and exceptions *)

(** Values found in the configuration and in the module namespace. *)
Inductive PyVal :=
| VNone
| VInt (z : Z)
| VStr (s : string)
| VGlobal (qualname : string).   (* a module, class or function bound at module level *)

(** The exceptions the method can raise while it constructs the graph. *)
Inductive Exception :=
| NameError (name : string)          (* name '...' is not defined *)
| UnboundLocalError (name : string)  (* local variable '...' referenced before assignment *)
| KeyError (key : string)            (* dict subscript on a missing key *)
| TypeError (msg : string)           (* raised by TensorFlow on an object it cannot convert *)
| ValueError (msg : string).         (* raised by TensorFlow's shapes and variable store *)

Inductive Result (A : Type) :=
| Return (a : A)
| Raise (e : Exception).
Arguments Return {A} a.
Arguments Raise {A} e.

(** An error about the configuration itself: a missing key or a value that
    TensorFlow rejects.  Errors of Python's name resolution are not. *)
Definition is_configuration_error (e : Exception) : bool :=
  match e with
  | KeyError _ | TypeError _ | ValueError _ => true
  | NameError _ | UnboundLocalError _ => false
  end.

(** [d.get(k)] and [d[k]] on a dict with string keys. *)
Definition dict_get (d : gmap string PyVal) (k : string) : PyVal :=
  default VNone (d !! k).

Definition dict_getitem (d : gmap string PyVal) (k : string) : Result PyVal :=
  match d !! k with
  | Some v => Return v
  | None => Raise (KeyError k)
  end.

(** ** The configuration object *)

Record Config := {
  decoding : string;
  beam_size : Z;
  div_gamma : Q;
  div_prob : Q;
  max_length_formula : Z;
  beam_search_optimization : bool;
  attn_cell_config : gmap string PyVal
}.

(** ** Graph nodes *)

(** The value a new variable starts from, as the nodes its initializer adds
    to the graph. *)
Inductive InitialValue :=
| RandomUniform (shape : list Z) (minval maxval : Z)  (* tf.random_uniform *)
| L2Normalize (x : InitialValue) (axis : Z).          (* tf.nn.l2_normalize *)

(** A TensorFlow variable is identified by its full name in the store. *)
Record TFVariable := {
  var_name : string;
  var_shape : list Z;
  var_initial_value : option InitialValue
    (* [None]: created without an initializer of this file *)
}.

(** One index of a subscript [t[a, b, c]]: [:], [:stop] or [start:]. *)
Inductive Slice :=
| SliceAll
| SliceTo (stop : Z)
| SliceFrom (start : Z).

Inductive Tensor :=
| Placeholder (name : string)
| TVar (v : TFVariable)
| Const (z : Z)
| Shape0 (t : Tensor)                          (* tf.shape(t)[0] *)
| EmbeddingLookup (params ids : Tensor)        (* tf.nn.embedding_lookup *)
| Reshape (t : Tensor) (shape : list Z)        (* tf.reshape *)
| Tile (t : Tensor) (multiples : list Tensor)  (* tf.tile *)
| Concat (values : list Tensor) (axis : Z)     (* tf.concat *)
| GetItem (t : Tensor) (idx : list Slice).     (* t[...] *)

(** ** The components the decoder wires together

    Their classes live in [components/]; an instance is recorded with the
    arguments its constructor received. *)

Record AttentionMechanism := {
  am_img : Tensor;
  am_dim_e : PyVal;
  am_tiles : option Z          (* [None]: the argument was not passed *)
}.

Inductive RecuCell :=
| GRUCell (num_units : PyVal) (reuse : option bool)
| LSTMCell (num_units : PyVal) (reuse : option bool).

Record AttentionCell := {
  ac_cell : RecuCell;
  ac_attn : AttentionMechanism;
  ac_dropout : Tensor;
  ac_config : gmap string PyVal;
  ac_n_tok : Z;
  ac_params : list TFVariable  (* the variables the cell reads its weights from *)
}.

Inductive DecoderCell :=
| GreedyDecoderCell (E : Tensor) (attn_cell : AttentionCell)
    (batch_size start_token : Tensor) (id_end : PyVal)
| BeamSearchDecoderCell (E : Tensor) (attn_cell : AttentionCell)
    (batch_size start_token : Tensor) (id_end : PyVal)
    (beam : Z) (gamma prob : Q).

Record BSOCell := {
  bso_decoder_cell : DecoderCell;
  bso_loss : PyVal
}.

(** The values stored in [decoder_output]: the first component of what the
    three unroll drivers return. *)
Inductive Output :=
| TrainOutputs (cell : AttentionCell) (inputs : Tensor)   (* tf.nn.dynamic_rnn *)
| BsoOutputs (cell : BSOCell) (formula embeddings : Tensor) (* dynamic_rnn over get_inputs *)
| PredOutputs (cell : DecoderCell) (maximum_iterations : Z). (* dynamic_decode *)

(** What has been constructed, in order of construction. *)
Inductive Built :=
| BAttentionMechanism (a : AttentionMechanism)
| BRecuCell (c : RecuCell)
| BAttentionCell (c : AttentionCell)
| BDecoderCell (d : DecoderCell)
| BBSOCell (b : BSOCell)
| BUnroll (o : Output).

(** ** Graph-construction state *)

Record BuildState := {
  st_scopes : list (string * bool);      (* entered variable scopes, innermost first,
                                            each with its [reuse] argument *)
  st_store : gmap string TFVariable;     (* full name -> variable *)
  st_built : list (option (string * bool) * Built)
                                         (* objects built, each with the innermost
                                            scope it was built in *)
}.

Definition Py (A : Type) : Type := BuildState → BuildState * Result A.

#[global] Instance Py_ret : MRet Py := λ A a st, (st, Return a).
#[global] Instance Py_bind : MBind Py := λ A B f m st,
  match m st with
  | (st', Return a) => f a st'
  | (st', Raise e) => (st', Raise e)
  end.

Definition raise {A} (e : Exception) : Py A := λ st, (st, Raise e).

Definition lift {A} (r : Result A) : Py A := λ st, (st, r).

(** Append to the construction log and give the object back. *)
Definition built {A} (tag : A → Built) (a : A) : Py A := λ st,
  ({| st_scopes := st_scopes st; st_store := st_store st;
      st_built := st_built st ++ [(head (st_scopes st), tag a)] |}, Return a).

(** ** Python name resolution *)

(** The names bound at module level once [decoder.py] is imported. *)
Definition module_globals : list string :=
  [ "np"; "tf"; "nest"; "layers"; "GRUCell"; "LSTMCell";
    "dynamic_decode"; "AttentionMechanism"; "AttentionCell";
    "GreedyDecoderCell"; "BeamSearchDecoderCell";
    "BSOCell"; "get_inputs"; "bso_cross_entropy"; "dynamic_rnn";
    "Decoder"; "get_embeddings"; "embedding_initializer" ].

(** The functions and constants of the [builtins] module. *)
Definition builtins : list string :=
  [ "abs"; "all"; "any"; "ascii"; "bin"; "bool"; "bytearray"; "bytes";
    "callable"; "chr"; "classmethod"; "compile"; "complex"; "delattr";
    "dict"; "dir"; "divmod"; "enumerate"; "eval"; "exec"; "filter";
    "float"; "format"; "frozenset"; "getattr"; "globals"; "hasattr";
    "hash"; "help"; "hex"; "id"; "input"; "int"; "isinstance";
    "issubclass"; "iter"; "len"; "list"; "locals"; "map"; "max";
    "memoryview"; "min"; "next"; "object"; "oct"; "open"; "ord"; "pow";
    "print"; "property"; "range"; "repr"; "reversed"; "round"; "set";
    "setattr"; "slice"; "sorted"; "staticmethod"; "str"; "sum"; "super";
    "tuple"; "type"; "vars"; "zip"; "__import__";
    "None"; "True"; "False"; "Ellipsis"; "NotImplemented" ].

(** A name that is not assigned in the function body is looked up in the
    module namespace, then in the builtins. *)
Definition load_global (name : string) : Py PyVal :=
  if bool_decide (name ∈ (module_globals ++ builtins)%list)
  then mret (VGlobal name)
  else raise (NameError name).

(** A local variable that may not have been assigned yet. *)
Definition load_fast {A} (name : string) (v : option A) : Py A :=
  match v with
  | Some a => mret a
  | None => raise (UnboundLocalError name)
  end.

(** ** TensorFlow's variable store and variable scopes *)

(** [tf.variable_scope(name, reuse)]: the body runs with the scope pushed;
    the scope is left again whether the body returns or raises. *)
Definition variable_scope {A} (name : string) (reuse : bool) (body : Py A) : Py A :=
  λ st,
    let '(st', r) :=
      body {| st_scopes := (name, reuse) :: st_scopes st;
              st_store := st_store st; st_built := st_built st |} in
    ({| st_scopes := st_scopes st; st_store := st_store st';
        st_built := st_built st' |}, r).

(** Reuse is inherited: a scope reuses variables as soon as it or one of
    the scopes around it was entered with [reuse=True]. *)
Definition scope_reuse (scopes : list (string * bool)) : bool :=
  existsb snd scopes.

(** The prefix of variable names: ["outer/inner/"]. *)
Definition scope_prefix (scopes : list (string * bool)) : string :=
  fold_right (λ s acc, acc +:+ fst s +:+ "/") "" scopes.

(** [tensor_shape.as_shape]: each entry becomes a known or unknown dimension. *)
Definition as_dimension (v : PyVal) : Result (option Z) :=
  match v with
  | VNone => Return None
  | VInt z => if z <? 0 then Raise (ValueError "Dimension must be >= 0")
              else Return (Some z)
  | VStr _ => Raise (ValueError "invalid literal for int()")
  | VGlobal _ => Raise (TypeError "int() argument must be a string or a number")
  end.

Fixpoint as_shape (shape : list PyVal) : Result (list (option Z)) :=
  match shape with
  | [] => Return []
  | v :: vs =>
      match as_dimension v with
      | Raise e => Raise e
      | Return d =>
          match as_shape vs with
          | Raise e => Raise e
          | Return ds => Return (d :: ds)
          end
      end
  end.

Fixpoint is_compatible_with (requested : list (option Z)) (found : list Z) : bool :=
  match requested, found with
  | [], [] => true
  | None :: rs, _ :: fs => is_compatible_with rs fs
  | Some d :: rs, f :: fs => (d =? f) && is_compatible_with rs fs
  | _, _ => false
  end.

Fixpoint fully_defined (requested : list (option Z)) : option (list Z) :=
  match requested with
  | [] => Some []
  | None :: _ => None
  | Some d :: rs => cons d <$> fully_defined rs
  end.

Definition num_elements (shape : list Z) : Z := fold_right Z.mul 1 shape.

(** Sizes are 64-bit signed integers: a tensor is refused when one of its
    dimensions or its number of elements exceeds [2^63 - 1]. *)
Definition max_elements : Z := 2 ^ 63 - 1.

Definition shape_fits (shape : list Z) : bool :=
  forallb (λ z, z <=? max_elements) shape && (num_elements shape <=? max_elements).

(** [tf.get_variable(name, shape=shape, initializer=initializer)], after
    [_VariableStore._get_single_variable].  A variable of the store is given
    back as it is, and the initializer is not looked at; a new variable is
    created from the value that [initializer(shape)] adds to the graph. *)
Definition tf_get_variable (name : string) (shape : list PyVal)
    (initializer : option (list Z → InitialValue)) : Py TFVariable :=
  λ st,
    match as_shape shape with
    | Raise e => (st, Raise e)
    | Return requested =>
        let full := scope_prefix (st_scopes st) +:+ name in
        match st_store st !! full with
        | Some found =>
            if scope_reuse (st_scopes st) then
              if is_compatible_with requested (var_shape found)
              then (st, Return found)
              else (st, Raise (ValueError "Trying to share variable, but specified shape differs"))
            else (st, Raise (ValueError "Variable already exists, disallowed"))
        | None =>
            if scope_reuse (st_scopes st) then
              (st, Raise (ValueError "Variable does not exist"))
            else
              match fully_defined requested with
              | None => (st, Raise (ValueError "Shape of a new variable must be fully defined"))
              | Some sh =>
                  if shape_fits sh then
                    let v := {| var_name := full; var_shape := sh;
                                var_initial_value :=
                                  (λ init, init sh) <$> initializer |} in
                    ({| st_scopes := st_scopes st;
                        st_store := <[full := v]> (st_store st);
                        st_built := st_built st |}, Return v)
                  else (st, Raise (ValueError "Shape is too large (more than 2**63 - 1 entries)"))
              end
        end
    end.

(** Variables declared by relative name and shape, obtained in order.  Their
    initializers are not in this file. *)
Fixpoint get_variables (decls : list (string * list Z)) : Py (list TFVariable) :=
  match decls with
  | [] => mret []
  | d :: ds =>
      v ← tf_get_variable (fst d) (VInt <$> snd d) None;
      vs ← get_variables ds;
      mret (v :: vs)
  end.

(** [tf.reshape(t, shape)] with a Python list as shape: every entry must be
    an integer; when the input is a variable and no dimension is left to
    infer, the element counts must agree. *)
Fixpoint int_list (shape : list PyVal) : option (list Z) :=
  match shape with
  | [] => Some []
  | VInt z :: vs => cons z <$> int_list vs
  | _ :: _ => None
  end.

Definition tf_reshape (t : Tensor) (shape : list PyVal) : Py Tensor :=
  match int_list shape with
  | None => raise (TypeError "Failed to convert object of type list to Tensor")
  | Some sh =>
      match t with
      | TVar v =>
          if forallb (Z.leb 0) sh && negb (num_elements (var_shape v) =? num_elements sh)
          then raise (ValueError "Cannot reshape a tensor to the requested shape")
          else mret (Reshape t sh)
      | _ => mret (Reshape t sh)
      end
  end.

(** ** [model/decoder.py] *)

(** [_initializer(shape, dtype, partition_info=None)], the function that
    [embedding_initializer()] returns: the two nodes it adds to the graph. *)
Definition _initializer (shape : list Z) : InitialValue :=
  let E := RandomUniform shape (-1) 1 in
  let E := L2Normalize E (-1) in
  E.

(** [get_embeddings(formula, E, dim, start_token, batch_size)] *)
Definition get_embeddings (formula E : Tensor) (dim : PyVal)
    (start_token batch_size : Tensor) : Py Tensor :=
  _ ← load_global "tf";
  let formula_ := EmbeddingLookup E formula in
  start_token_ ← tf_reshape start_token [VInt 1; VInt 1; dim];
  let start_tokens := Tile start_token_ [batch_size; Const 1; Const 1] in
  let embeddings :=
    Concat [start_tokens; GetItem formula_ [SliceAll; SliceAll; SliceAll]] 1 in
  mret embeddings.

Record Decoder := {
  _config : Config;
  _n_tok : Z;
  _id_end : Z;
  _tiles : Z
}.

(** [Decoder.__init__(self, config, n_tok, id_end)] *)
Definition __init__ (config : Config) (n_tok id_end : Z) : Decoder :=
  {| _config := config;
     _n_tok := n_tok;
     _id_end := id_end;
     _tiles := if String.eqb (decoding config) "greedy" then 1
               else beam_size config |}.

Section Decoder.

(** Modelled from the spec: [components/attention_cell.py] and
    [components/attention_mechanism.py] are not part of the sources.  The
    learned parameters of an attention cell (the attention projections and
    scoring vector of section 4.1, the weights of the base recurrent cell and
    the two output projections of section 4.2) are TensorFlow variables; the
    cell obtains each of them with [tf.get_variable] under the variable scope
    in force where it is built.  Their names and shapes are the parameter
    [attn_cell_weights]. *)
Variable attn_cell_weights : list (string * list Z).

Definition AttentionCell_new (recu_cell : RecuCell) (attn_meca : AttentionMechanism)
    (dropout : Tensor) (attn_cell_config : gmap string PyVal) (n_tok : Z)
    : Py AttentionCell :=
  params ← get_variables attn_cell_weights;
  built BAttentionCell
    {| ac_cell := recu_cell; ac_attn := attn_meca; ac_dropout := dropout;
       ac_config := attn_cell_config; ac_n_tok := n_tok; ac_params := params |}.

(** Lines 53-64, the block under [tf.variable_scope("attn_cell", reuse=False)]:
    gives [embeddings] and the [decoder_output] dict with its ["train"] entry. *)
Definition training_block (self : Decoder) (img formula dropout : Tensor)
    (E start_token : TFVariable) (dim_embeddings : PyVal) (batch_size : Tensor)
    (decoder_output : gmap string Output) : Py (Tensor * gmap string Output) :=
  let cfg := attn_cell_config (_config self) in
  variable_scope "attn_cell" false (
    _ ← load_global "get_embeddings";
    embeddings ← get_embeddings formula (TVar E) dim_embeddings
                   (TVar start_token) batch_size;
    _ ← load_global "AttentionMechanism";
    dim_e ← lift (dict_getitem cfg "dim_e");
    attn_meca ← built BAttentionMechanism
                  {| am_img := img; am_dim_e := dim_e; am_tiles := None |};
    _ ← load_global "LSTMCell";
    num_units ← lift (dict_getitem cfg "num_units");
    recu_cell ← built BRecuCell (LSTMCell num_units None);
    _ ← load_global "AttentionCell";
    attn_cell ← AttentionCell_new recu_cell attn_meca dropout cfg (_n_tok self);
    _ ← load_global "tf";
    train_outputs ← built BUnroll
      (TrainOutputs attn_cell
         (GetItem embeddings [SliceAll; SliceTo (-1); SliceAll]));
    mret (embeddings, <["train" := train_outputs]> decoder_output)).

(** Lines 75-87: the choice of the decoder cell.  [decoder_cell] stays
    unassigned when neither test holds. *)
Definition decoder_cell_block (self : Decoder) (formula : Tensor)
    (E start_token : TFVariable) (batch_size embeddings : Tensor)
    (attn_cell : AttentionCell) (decoder_output : gmap string Output)
    : Py (option DecoderCell * gmap string Output) :=
  let config := _config self in
  if String.eqb (decoding config) "greedy" then
    _ ← load_global "GreedyDecoderCell";
    id_end ← load_global "id_end";
    decoder_cell ← built BDecoderCell
      (GreedyDecoderCell (TVar E) attn_cell batch_size (TVar start_token) id_end);
    mret (Some decoder_cell, decoder_output)
  else if String.eqb (decoding config) "beam_search" then
    _ ← load_global "BeamSearchDecoderCell";
    decoder_cell ← built BDecoderCell
      (BeamSearchDecoderCell (TVar E) attn_cell batch_size (TVar start_token)
         (VInt (_id_end self)) (beam_size config)
         (div_gamma config) (div_prob config));
    if beam_search_optimization config then
      _ ← load_global "BSOCell";
      bso_cross_entropy ← load_global "bso_cross_entropy";
      bso_cell ← built BBSOCell
        {| bso_decoder_cell := decoder_cell; bso_loss := bso_cross_entropy |};
      _ ← load_global "get_inputs";
      _ ← load_global "dynamic_rnn";
      bso_outputs ← built BUnroll
        (BsoOutputs bso_cell formula
           (GetItem embeddings [SliceAll; SliceFrom 1; SliceAll]));
      mret (Some decoder_cell, <["bso" := bso_outputs]> decoder_output)
    else mret (Some decoder_cell, decoder_output)
  else mret (None, decoder_output).

(** Lines 67-91, the block under [tf.variable_scope("attn_cell", reuse=True)]. *)
Definition decoding_block (self : Decoder) (img formula dropout : Tensor)
    (E start_token : TFVariable) (batch_size embeddings : Tensor)
    (decoder_output : gmap string Output) : Py (gmap string Output) :=
  let cfg := attn_cell_config (_config self) in
  variable_scope "attn_cell" true (
    _ ← load_global "AttentionMechanism";
    dim_e ← lift (dict_getitem cfg "dim_e");
    attn_meca ← built BAttentionMechanism
                  {| am_img := img; am_dim_e := dim_e;
                     am_tiles := Some (_tiles self) |};
    _ ← load_global "LSTMCell";
    num_units ← lift (dict_getitem cfg "num_units");
    recu_cell ← built BRecuCell (LSTMCell num_units (Some true));
    _ ← load_global "AttentionCell";
    attn_cell ← AttentionCell_new recu_cell attn_meca dropout cfg (_n_tok self);
    '(decoder_cell, decoder_output) ←
      decoder_cell_block self formula E start_token batch_size embeddings
        attn_cell decoder_output;
    _ ← load_global "dynamic_decode";
    decoder_cell ← load_fast "decoder_cell" decoder_cell;
    test_outputs ← built BUnroll
      (PredOutputs decoder_cell (max_length_formula (_config self) + 1));
    mret (<["pred" := test_outputs]> decoder_output)).

(** [Decoder.__call__(self, training, img, formula, dropout)] *)
Definition __call__ (self : Decoder) (training img formula dropout : Tensor)
    : Py (gmap string Output) :=
  let dim_embeddings := dict_get (attn_cell_config (_config self)) "dim_embeddings" in
  _ ← load_global "tf";
  _ ← load_global "embedding_initializer";
  E ← tf_get_variable "E" [VInt (_n_tok self); dim_embeddings]
        (Some _initializer);
  _ ← load_global "tf";
  _ ← load_global "embedding_initializer";
  start_token ← tf_get_variable "start_token" [dim_embeddings]
                  (Some _initializer);
  let batch_size := Shape0 img in
  let decoder_output : gmap string Output := ∅ in
  '(embeddings, decoder_output) ←
    training_block self img formula dropout E start_token dim_embeddings
      batch_size decoder_output;
  decoder_output ←
    decoding_block self img formula dropout E start_token batch_size
      embeddings decoder_output;
  mret decoder_output.

(** A call made with an empty construction log, in the variable scopes
    [scopes] and on the variable store [store]. *)
Definition run_call (self : Decoder) (training img formula dropout : Tensor)
    (scopes : list (string * bool)) (store : gmap string TFVariable)
    : BuildState * Result (gmap string Output) :=
  __call__ self training img formula dropout
    {| st_scopes := scopes; st_store := store; st_built := [] |}.

End Decoder.

(** ** The initial value of the embeddings

    The nodes of [_initializer] draw a tensor of the requested shape
    uniformly from [-1, 1) and normalize it along its last axis.  What they
    compute is a function of the drawn tensor.  It is given twice: in the
    arithmetic of the real numbers, and in an arithmetic that rounds the
    result of every operation, as float32 does. *)

Section EmbeddingInitializer.

Local Open Scope R_scope.

Definition sum_squares (x : list R) : R :=
  fold_right (λ xi acc, xi * xi + acc) 0 x.

Definition l2_norm (x : list R) : R := sqrt (sum_squares x).

(** The default [epsilon] of [tf.nn.l2_normalize]. *)
Definition l2_epsilon : R := / 10 ^ 12.

(** [tf.nn.l2_normalize(x, -1)] on one vector along the last axis:
    [x * rsqrt(max(sum(x ** 2), epsilon))]. *)
Definition l2_scale (x : list R) : R := / sqrt (Rmax (sum_squares x) l2_epsilon).

Definition l2_normalize (x : list R) : list R :=
  List.map (λ xi, xi * l2_scale x) x.

(** A tensor of rank 1 (the start token) or of rank 2 (the table). *)
Inductive RTensor :=
| RVector (x : list R)
| RMatrix (rows : list (list R)).

(** The vectors along the last axis. *)
Definition last_axis (E : RTensor) : list (list R) :=
  match E with
  | RVector x => [x]
  | RMatrix rows => rows
  end.

(** [tf.nn.l2_normalize(E, -1)] on a tensor. *)
Definition tf_nn_l2_normalize (E : RTensor) : RTensor :=
  match E with
  | RVector x => RVector (l2_normalize x)
  | RMatrix rows => RMatrix (List.map l2_normalize rows)
  end.

(** What the initializer returned by [embedding_initializer()] computes when
    [tf.random_uniform(shape, minval=-1.0, maxval=1.0)] draws [E]. *)
Definition embedding_initializer (E : RTensor) : RTensor := tf_nn_l2_normalize E.

(** The value of an initial-value node for a given draw; the normalization
    is modelled along the last axis only. *)
Fixpoint initial_value (v : InitialValue) (draw : RTensor) : option RTensor :=
  match v with
  | RandomUniform _ _ _ => Some draw
  | L2Normalize x axis =>
      if (axis =? -1)%Z then tf_nn_l2_normalize <$> initial_value x draw
      else None
  end.

(** *** Arithmetic that rounds

    A float32 operation returns the rounding of its exact result.  The
    rounding function [rnd], the kernel [rsqrt32] of [tf.rsqrt], the float32
    value [epsilon32] of the default [epsilon] and the order in which
    [tf.reduce_sum] adds the terms of a vector are parameters. *)

(** An order of addition: the terms, and which sums are formed. *)
Inductive Reduction :=
| Term (x : R)
| Plus (l r : Reduction).

Fixpoint terms (t : Reduction) : list R :=
  match t with
  | Term x => [x]
  | Plus l r => (terms l ++ terms r)%list
  end.

Section Float32.

Variable rnd : R → R.
Variable rsqrt32 : R → R.
Variable epsilon32 : R.
Variable order : list R → Reduction.

Fixpoint reduce32 (t : Reduction) : R :=
  match t with
  | Term x => x
  | Plus l r => rnd (reduce32 l + reduce32 r)
  end.

(** [tf.reduce_sum] of a vector. *)
Definition reduce_sum32 (x : list R) : R :=
  match x with
  | [] => 0
  | _ => reduce32 (order x)
  end.

(** [reduce_sum(square(x))] *)
Definition sum_squares32 (x : list R) : R :=
  reduce_sum32 (List.map (λ xi, rnd (xi * xi)) x).

(** [rsqrt(maximum(square_sum, epsilon))] *)
Definition l2_scale32 (x : list R) : R :=
  rsqrt32 (Rmax (sum_squares32 x) epsilon32).

(** [multiply(x, x_inv_norm)] *)
Definition l2_normalize32 (x : list R) : list R :=
  List.map (λ xi, rnd (xi * l2_scale32 x)) x.

Definition tf_nn_l2_normalize32 (E : RTensor) : RTensor :=
  match E with
  | RVector x => RVector (l2_normalize32 x)
  | RMatrix rows => RMatrix (List.map l2_normalize32 rows)
  end.

Fixpoint initial_value32 (v : InitialValue) (draw : RTensor) : option RTensor :=
  match v with
  | RandomUniform _ _ _ => Some draw
  | L2Normalize x axis =>
      if (axis =? -1)%Z then tf_nn_l2_normalize32 <$> initial_value32 x draw
      else None
  end.

End Float32.

(** Adding the terms one after the other. *)
Fixpoint sequential (x : list R) : Reduction :=
  match x with
  | [] => Term 0
  | [a] => Term a
  | a :: rest => Plus (Term a) (sequential rest)
  end.

(** The interval around 1 in which the squared norm of a normalized vector
    of [n] entries lies, when every operation has a relative error of at most
    [u] and [rsqrt] one of at most [ur]. *)
Definition norm_low (u ur : R) (n : nat) : R :=
  ((1 - u) * (1 - ur)) ^ 2 / (1 + u) ^ (n + 1).

Definition norm_high (u ur : R) (n : nat) : R :=
  ((1 + u) * (1 + ur)) ^ 2 / (1 - u) ^ (n + 1).

End EmbeddingInitializer.

(** * The meaning of the graph nodes

    A run of the graph feeds the placeholders and reads the variables; a
    node then denotes a shaped array.  An array is its shape together with
    its elements as a function of the indices. *)

Section Semantics.

Variable F : Type.   (* the elements of a float32 tensor *)
Variable zero : F.

Inductive Value :=
| Scalar (z : Z)
| Ids (n t : nat) (ids : nat → nat → Z)
| Rank1 (d : nat) (x : nat → F)
| Rank2 (r c : nat) (x : nat → nat → F)
| Rank3 (n t d : nat) (x : nat → nat → nat → F)
| Rank4 (n h w c : nat) (x : nat → nat → nat → nat → F).

Definition value_shape (v : Value) : list Z :=
  match v with
  | Scalar _ => []
  | Ids n t _ => [Z.of_nat n; Z.of_nat t]
  | Rank1 d _ => [Z.of_nat d]
  | Rank2 r c _ => [Z.of_nat r; Z.of_nat c]
  | Rank3 n t d _ => [Z.of_nat n; Z.of_nat t; Z.of_nat d]
  | Rank4 n h w c _ => [Z.of_nat n; Z.of_nat h; Z.of_nat w; Z.of_nat c]
  end.

Record Feed := {
  feed_dict : gmap string Value;    (* placeholder name -> value *)
  var_values : gmap string Value    (* variable name -> value *)
}.

(** [tf.nn.embedding_lookup(params, ids)]: a gather of rows; an id outside
    the table is an error of the run. *)
Definition ids_in_range (r n t : nat) (ids : nat → nat → Z) : bool :=
  forallb (λ b, forallb (λ i, (0 <=? ids b i) && (ids b i <? Z.of_nat r))
                  (seq 0 t)) (seq 0 n).

Definition embedding_lookup (params ids : Value) : option Value :=
  match params, ids with
  | Rank2 r c x, Ids n t i =>
      if ids_in_range r n t i
      then Some (Rank3 n t c (λ b j k, x (Z.to_nat (i b j)) k))
      else None
  | _, _ => None
  end.

(** [tf.reshape] of a vector to three dimensions, row-major. *)
Definition reshape (v : Value) (shape : list Z) : option Value :=
  match v, shape with
  | Rank1 d x, [a; b; c] =>
      if (0 <=? a) && (0 <=? b) && (0 <=? c) && (a * b * c =? Z.of_nat d) then
        let b' := Z.to_nat b in
        let c' := Z.to_nat c in
        Some (Rank3 (Z.to_nat a) b' c'
                (λ i j k, x (i * (b' * c') + j * c' + k)%nat))
      else None
  | _, _ => None
  end.

(** [tf.tile] of a rank-3 tensor: the input is repeated along every axis. *)
Definition tile (v : Value) (multiples : list (option Value)) : option Value :=
  match v, multiples with
  | Rank3 n t d x, [Some (Scalar m0); Some (Scalar m1); Some (Scalar m2)] =>
      if (0 <=? m0) && (0 <=? m1) && (0 <=? m2) then
        Some (Rank3 (Z.to_nat m0 * n) (Z.to_nat m1 * t) (Z.to_nat m2 * d)
                (λ b i k, x (b mod n) (i mod t) (k mod d))%nat)
      else None
  | _, _ => None
  end.

(** [tf.concat] of two rank-3 tensors along axis 1: the other two
    dimensions must agree. *)
Definition concat (values : list (option Value)) (axis : Z) : option Value :=
  match values, axis with
  | [Some (Rank3 n1 t1 d1 x1); Some (Rank3 n2 t2 d2 x2)], 1 =>
      if (n1 =? n2)%nat && (d1 =? d2)%nat then
        Some (Rank3 n1 (t1 + t2) d1
                (λ b i k, if (i <? t1)%nat then x1 b i k
                          else x2 b (i - t1)%nat k))
      else None
  | _, _ => None
  end.

(** One index of a Python subscript on an axis of length [len]: where the
    slice starts and how many elements it keeps.  A negative bound counts
    from the end; bounds are clipped to the axis. *)
Definition slice_bounds (len : nat) (s : Slice) : nat * nat :=
  let clip (i : Z) : nat :=
    Z.to_nat (Z.min (Z.max (if i <? 0 then i + Z.of_nat len else i) 0)
                (Z.of_nat len)) in
  match s with
  | SliceAll => (0%nat, len)
  | SliceTo stop => (0%nat, clip stop)
  | SliceFrom start => (clip start, (len - clip start)%nat)
  end.

Definition getitem (v : Value) (idx : list Slice) : option Value :=
  match v, idx with
  | Rank3 n t d x, [s0; s1; s2] =>
      let '(o0, l0) := slice_bounds n s0 in
      let '(o1, l1) := slice_bounds t s1 in
      let '(o2, l2) := slice_bounds d s2 in
      Some (Rank3 l0 l1 l2 (λ b i k, x (o0 + b) (o1 + i) (o2 + k))%nat)
  | _, _ => None
  end.

Fixpoint eval (feed : Feed) (t : Tensor) : option Value :=
  match t with
  | Placeholder name => feed_dict feed !! name
  | TVar v =>
      match var_values feed !! var_name v with
      | Some val =>
          if bool_decide (value_shape val = var_shape v) then Some val else None
      | None => None
      end
  | Const z => Some (Scalar z)
  | Shape0 t =>
      match eval feed t with
      | Some v =>
          match value_shape v with
          | n :: _ => Some (Scalar n)
          | [] => None
          end
      | None => None
      end
  | EmbeddingLookup params ids =>
      match eval feed params, eval feed ids with
      | Some p, Some i => embedding_lookup p i
      | _, _ => None
      end
  | Reshape t shape =>
      match eval feed t with
      | Some v => reshape v shape
      | None => None
      end
  | Tile t multiples =>
      match eval feed t with
      | Some v => tile v (List.map (eval feed) multiples)
      | None => None
      end
  | Concat values axis => concat (List.map (eval feed) values) axis
  | GetItem t idx =>
      match eval feed t with
      | Some v => getitem v idx
      | None => None
      end
  end.

(** ** The training unroll *)

(** The slice of a batch of sequences at one time step. *)
Definition time_steps (t : nat) (x : nat → nat → nat → F)
    : list (nat → nat → F) :=
  List.map (λ i, λ b k, x b i k) (seq 0 t).

(** Modelled from the spec: [components/attention_cell.py] is not part of
    the sources.  An attention cell has an initial state and a step from a
    batch of inputs ([n] rows of width [d]) and a state to a batch of outputs
    and a state; its outputs are logits over the [n_tok] classes (section
    4.2, step 4), which is the cell's [output_size]. *)
Record CellSemantics := {
  CState : Type;
  c_initial_state : AttentionCell → CState;
  c_call : AttentionCell → nat → nat → (nat → nat → F) → CState
           → (nat → nat → F) * CState
}.

Definition output_size (cell : AttentionCell) : nat := Z.to_nat (ac_n_tok cell).

(** The cell applied to the inputs in order, threading the state. *)
Fixpoint rnn_unroll {S : Type} (step : (nat → nat → F) → S → (nat → nat → F) * S)
    (inputs : list (nat → nat → F)) (state : S)
    : list ((nat → nat → F) * (nat → nat → F)) * S :=
  match inputs with
  | [] => ([], state)
  | x :: xs =>
      let '(y, state') := step x state in
      let '(rest, final) := rnn_unroll step xs state' in
      ((x, y) :: rest, final)
  end.

(** [tf.nn.dynamic_rnn(cell, inputs, initial_state=cell.initial_state())]
    on batch-major inputs: the applications of the cell, as pairs of input
    and output, and the stacked outputs.  Over no time step at all nothing
    can be stacked (the outputs have no static shape to fall back on, the
    batch size being known at run time only) and the run fails. *)
Definition tf_nn_dynamic_rnn (sem : CellSemantics) (cell : AttentionCell)
    (inputs : Value)
    : option (list ((nat → nat → F) * (nat → nat → F)) * Value) :=
  match inputs with
  | Rank3 n t d x =>
      if (t =? 0)%nat then None
      else
        let '(calls, _) :=
          rnn_unroll (c_call sem cell n d) (time_steps t x)
            (c_initial_state sem cell) in
        Some (calls,
              Rank3 n t (output_size cell)
                (λ b i k, snd (nth i calls (λ _ _, zero, λ _ _, zero)) b k))
  | _ => None
  end.

Definition run_train (sem : CellSemantics) (feed : Feed) (o : Output)
    : option (list ((nat → nat → F) * (nat → nat → F)) * Value) :=
  match o with
  | TrainOutputs cell inputs =>
      match eval feed inputs with
      | Some v => tf_nn_dynamic_rnn sem cell v
      | None => None
      end
  | _ => None
  end.

End Semantics.

Arguments Scalar {F} z.
Arguments Ids {F} n t ids.
Arguments Rank1 {F} d x.
Arguments Rank2 {F} r c x.
Arguments Rank3 {F} n t d x.
Arguments Rank4 {F} n h w c x.
Arguments eval {F} feed t.
Arguments embedding_lookup {F} params ids.
Arguments reshape {F} v shape.
Arguments tile {F} v multiples.
Arguments concat {F} values axis.
Arguments getitem {F} v idx.
Arguments value_shape {F} v.
Arguments time_steps {F} t x.
Arguments rnn_unroll {F S} step inputs state.
Arguments tf_nn_dynamic_rnn {F} zero sem cell inputs.
Arguments run_train {F} zero sem feed o.
Arguments CState {F} c.
Arguments c_initial_state {F} c cell.
Arguments c_call {F} c cell n d x state.
Arguments feed_dict {F} f.
Arguments var_values {F} f.

(** ** The decode unroll *)

(** Modelled from the spec: [components/dynamic_decode.py] is not part of the
    sources.  Section 4.6 describes the adaptive driver: it "applies the cell
    repeatedly until either every sample's done flag is set or a hard step
    cap is reached, accumulating per-step outputs".  A decoder cell gives its
    initial state, inputs and done flags, and a step from (time, state,
    inputs, done flags) to (output, state, inputs, done flags). *)
Record DecoderStep := {
  DState : Type;
  DInputs : Type;
  DOutput : Type;
  d_initialize : DState * DInputs * list bool;
  d_step : nat → DState → DInputs → list bool
           → DOutput * DState * DInputs * list bool
}.

(** [remaining] counts the iterations left before the cap. *)
Fixpoint decode_loop (cell : DecoderStep) (remaining time : nat)
    (state : DState cell) (inputs : DInputs cell) (finished : list bool)
    : list (DOutput cell) :=
  match remaining with
  | O => []
  | S remaining' =>
      if forallb (λ done, done) finished then []
      else
        let '(output, state', inputs', finished') :=
          d_step cell time state inputs finished in
        output :: decode_loop cell remaining' (S time) state' inputs' finished'
  end.

Definition dynamic_decode (cell : DecoderStep) (maximum_iterations : Z)
    : list (DOutput cell) :=
  let '(state, inputs, finished) := d_initialize cell in
  decode_loop cell (Z.to_nat maximum_iterations) 0 state inputs finished.

(** ** The step of an attention cell *)

Inductive RecuKind := GRU | LSTM.

Definition recu_kind (c : RecuCell) : RecuKind * PyVal :=
  match c with
  | GRUCell num_units _ => (GRU, num_units)
  | LSTMCell num_units _ => (LSTM, num_units)
  end.

(** Modelled from the spec: the step of an attention cell is defined in
    [components/attention_cell.py], which is not part of the sources.
    Sections 4.1 and 4.2 describe it as a function of the cell's learned
    parameters and of its configuration (kind and size of the base cell,
    [dim_e], the cell configuration, [n_tok], the dropout switch) that maps
    the feature grid, the previous embedding and the recurrent state to
    logits and a new state.  The feature grid (tiled for the decode unroll)
    is an input of the step, not part of the function. *)
Record StepSemantics := {
  Features : Type;
  Embedding : Type;
  RecurrentState : Type;
  Logits : Type;
  step_of :
    list TFVariable → RecuKind * PyVal → PyVal → gmap string PyVal → Z → Tensor →
    Features → Embedding → RecurrentState → Logits * RecurrentState
}.

Definition step_function (sem : StepSemantics) (c : AttentionCell)
    : Features sem → Embedding sem → RecurrentState sem
      → Logits sem * RecurrentState sem :=
  step_of sem (ac_params c) (recu_kind (ac_cell c)) (am_dim_e (ac_attn c))
    (ac_config c) (ac_n_tok c) (ac_dropout c).

(** * The vocabulary of the statements

    Auxiliary definitions: states, the objects a call is expected to build,
    readers of the construction log, and sample inputs. *)

Definition with_store (st : BuildState) (store : gmap string TFVariable) : BuildState :=
  {| st_scopes := st_scopes st; st_store := store; st_built := st_built st |}.

Definition entered (st : BuildState) (name : string) (reuse : bool) : BuildState :=
  {| st_scopes := (name, reuse) :: st_scopes st;
     st_store := st_store st; st_built := st_built st |}.

(** [declared store p d v]: the store holds [v] under the name of the
    declaration [d] in the scope with prefix [p], with a shape that the
    declaration accepts. *)
Definition declared (store : gmap string TFVariable) (p : string)
    (d : string * list Z) (v : TFVariable) : Prop :=
  ∃ requested,
    as_shape (VInt <$> snd d) = Return requested ∧
    is_compatible_with requested (var_shape v) = true ∧
    store !! (p +:+ fst d) = Some v.

(** The full names of a list of declarations in the scope with prefix [p]. *)
Definition scoped_names (p : string) (ds : list (string * list Z)) : gset string :=
  list_to_set ((λ d, p +:+ fst d) <$> ds).

(** ** What a call constructs

    The objects a call can build are determined by its arguments, by the two
    variables and by three values read from the configuration. *)

Section Outcomes.

Variable ws : list (string * list Z).
Variable self : Decoder.
Variables img formula dropout : Tensor.

Let cfg := attn_cell_config (_config self).

Definition train_scope : option (string * bool) := Some ("attn_cell", false).
Definition decode_scope : option (string * bool) := Some ("attn_cell", true).

Section Objects.

Variables E start_token : TFVariable.
Variable d : Z.
Variables dim_e nu : PyVal.
Variable params : list TFVariable.

Definition embeddings_node : Tensor :=
  Concat [ Tile (Reshape (TVar start_token) [1; 1; d])
             [Shape0 img; Const 1; Const 1];
           GetItem (EmbeddingLookup (TVar E) formula)
             [SliceAll; SliceAll; SliceAll] ] 1.

Definition train_meca : AttentionMechanism :=
  {| am_img := img; am_dim_e := dim_e; am_tiles := None |}.

Definition decode_meca : AttentionMechanism :=
  {| am_img := img; am_dim_e := dim_e; am_tiles := Some (_tiles self) |}.

Definition train_cell : AttentionCell :=
  {| ac_cell := LSTMCell nu None; ac_attn := train_meca; ac_dropout := dropout;
     ac_config := cfg; ac_n_tok := _n_tok self; ac_params := params |}.

Definition decode_cell : AttentionCell :=
  {| ac_cell := LSTMCell nu (Some true); ac_attn := decode_meca;
     ac_dropout := dropout; ac_config := cfg; ac_n_tok := _n_tok self;
     ac_params := params |}.

Definition train_outputs_node : Output :=
  TrainOutputs train_cell
    (GetItem embeddings_node [SliceAll; SliceTo (-1); SliceAll]).

Definition beam_cell : DecoderCell :=
  BeamSearchDecoderCell (TVar E) decode_cell (Shape0 img) (TVar start_token)
    (VInt (_id_end self)) (beam_size (_config self))
    (div_gamma (_config self)) (div_prob (_config self)).

Definition bso_cell_node : BSOCell :=
  {| bso_decoder_cell := beam_cell; bso_loss := VGlobal "bso_cross_entropy" |}.

Definition bso_outputs_node : Output :=
  BsoOutputs bso_cell_node formula
    (GetItem embeddings_node [SliceAll; SliceFrom 1; SliceAll]).

Definition pred_outputs_node : Output :=
  PredOutputs beam_cell (max_length_formula (_config self) + 1).

Definition train_log : list (option (string * bool) * Built) :=
  [ (train_scope, BAttentionMechanism train_meca);
    (train_scope, BRecuCell (LSTMCell nu None));
    (train_scope, BAttentionCell train_cell);
    (train_scope, BUnroll train_outputs_node) ].

Definition decode_cell_log : list (option (string * bool) * Built) :=
  [ (decode_scope, BAttentionMechanism decode_meca);
    (decode_scope, BRecuCell (LSTMCell nu (Some true)));
    (decode_scope, BAttentionCell decode_cell) ].

Definition beam_log : list (option (string * bool) * Built) :=
  (decode_scope, BDecoderCell beam_cell) ::
  (if beam_search_optimization (_config self)
   then [ (decode_scope, BBSOCell bso_cell_node);
          (decode_scope, BUnroll bso_outputs_node) ]
   else []) ++
  [ (decode_scope, BUnroll pred_outputs_node) ].

Definition beam_output : gmap string Output :=
  <["pred" := pred_outputs_node]>
    (if beam_search_optimization (_config self)
     then <["bso" := bso_outputs_node]> (<["train" := train_outputs_node]> ∅)
     else <["train" := train_outputs_node]> ∅).

(** The log of a call that stops inside the training block. *)
Definition early_log (log : list (option (string * bool) * Built)) : Prop :=
  log = [] ∨
  (cfg !! "dim_e" = Some dim_e ∧
   (log = [ (train_scope, BAttentionMechanism train_meca) ] ∨
    (cfg !! "num_units" = Some nu ∧
     log = [ (train_scope, BAttentionMechanism train_meca);
             (train_scope, BRecuCell (LSTMCell nu None)) ]))).

End Objects.

(** What the training block leaves behind. *)
Definition training_post (E start_token : TFVariable) (dim : PyVal)
    (out : gmap string Output) (st st' : BuildState)
    (r : Result (Tensor * gmap string Output)) : Prop :=
  ∃ (d : Z) (dim_e nu : PyVal) (params : list TFVariable)
    (log : list (option (string * bool) * Built)),
    st_scopes st' = st_scopes st ∧
    st_built st' = st_built st ++ log ∧
    st_store st ⊆ st_store st' ∧
    dom (st_store st') ⊆
      dom (st_store st)
      ∪ scoped_names (scope_prefix (st_scopes st) +:+ "attn_cell" +:+ "/") ws ∧
    ((∃ e, r = Raise e ∧ is_configuration_error e = true ∧
           early_log dim_e nu log) ∨
     (r = Return (embeddings_node E start_token d,
                  <["train" := train_outputs_node E start_token d dim_e nu params]> out) ∧
      log = train_log E start_token d dim_e nu params ∧
      dim = VInt d ∧
      cfg !! "dim_e" = Some dim_e ∧ cfg !! "num_units" = Some nu ∧
      Forall2 (declared (st_store st')
                 (scope_prefix (st_scopes st) +:+ "attn_cell" +:+ "/"))
        ws params)).

(** What the decoding block adds once the decode attention cell exists,
    and how it ends: by mode. *)
Definition decoding_end (E start_token : TFVariable) (d : Z) (dim_e nu : PyVal)
    (params : list TFVariable) (out : gmap string Output)
    : list (option (string * bool) * Built) * Result (gmap string Output) :=
  if String.eqb (decoding (_config self)) "greedy" then
    ([], Raise (NameError "id_end"))
  else if String.eqb (decoding (_config self)) "beam_search" then
    (beam_log E start_token d dim_e nu params,
     Return (<["pred" := pred_outputs_node E start_token dim_e nu params]>
               (if beam_search_optimization (_config self)
                then <["bso" := bso_outputs_node E start_token d dim_e nu params]> out
                else out)))
  else ([], Raise (UnboundLocalError "decoder_cell")).

(** Lines 49-93: the call once it has its two variables. *)
Definition call_blocks (E start_token : TFVariable) (dim_embeddings : PyVal)
    : Py (gmap string Output) :=
  x ← training_block ws self img formula dropout E start_token dim_embeddings
        (Shape0 img) ∅;
  decoder_output ←
    decoding_block ws self img formula dropout E start_token (Shape0 img)
      x.1 x.2;
  mret decoder_output.

(** How a call ends: either on a configuration error while the training
    cell is being built, or after both attention cells exist, in the way the
    decoding mode decides. *)
Definition call_post (scopes : list (string * bool))
    (store : gmap string TFVariable) (st' : BuildState)
    (r : Result (gmap string Output)) : Prop :=
  let p := scope_prefix scopes in
  st_scopes st' = scopes ∧
  store ⊆ st_store st' ∧
  dom (st_store st') ⊆
    dom store ∪ {[ p +:+ "E"; p +:+ "start_token" ]}
    ∪ scoped_names (p +:+ "attn_cell" +:+ "/") ws ∧
  ∃ (E start_token : TFVariable) (d : Z) (dim_e nu : PyVal)
    (params : list TFVariable),
    (∃ e, r = Raise e ∧ is_configuration_error e = true ∧
          early_log dim_e nu (st_built st')) ∨
    (dict_get cfg "dim_embeddings" = VInt d ∧
     cfg !! "dim_e" = Some dim_e ∧ cfg !! "num_units" = Some nu ∧
     st_store st' !! (p +:+ "E") = Some E ∧
     st_store st' !! (p +:+ "start_token") = Some start_token ∧
     Forall2 (declared (st_store st') (p +:+ "attn_cell" +:+ "/")) ws params ∧
     let out := <["train" := train_outputs_node E start_token d dim_e nu params]> ∅ in
     st_built st' =
       train_log E start_token d dim_e nu params
       ++ decode_cell_log dim_e nu params
       ++ fst (decoding_end E start_token d dim_e nu params out) ∧
     r = snd (decoding_end E start_token d dim_e nu params out)).

End Outcomes.

(** ** Reading the construction log *)

Definition built_log (r : BuildState * Result (gmap string Output))
    : list (option (string * bool) * Built) :=
  st_built (fst r).

Definition recu_cells (log : list (option (string * bool) * Built)) : list RecuCell :=
  omap (λ entry, match snd entry with BRecuCell c => Some c | _ => None end) log.

Definition decoder_cells (log : list (option (string * bool) * Built))
    : list DecoderCell :=
  omap (λ entry, match snd entry with BDecoderCell c => Some c | _ => None end) log.

(** The embedding table and start token a decoder cell was given. *)
Definition decoder_cell_embeddings (c : DecoderCell) : Tensor * Tensor :=
  match c with
  | GreedyDecoderCell E _ _ start_token _ => (E, start_token)
  | BeamSearchDecoderCell E _ _ start_token _ _ _ _ => (E, start_token)
  end.

Definition decoder_cell_attn (c : DecoderCell) : AttentionCell :=
  match c with
  | GreedyDecoderCell _ attn_cell _ _ _ => attn_cell
  | BeamSearchDecoderCell _ attn_cell _ _ _ _ _ _ => attn_cell
  end.

Definition set_bso (b : bool) (c : Config) : Config :=
  {| decoding := decoding c; beam_size := beam_size c;
     div_gamma := div_gamma c; div_prob := div_prob c;
     max_length_formula := max_length_formula c;
     beam_search_optimization := b;
     attn_cell_config := attn_cell_config c |}.

Definition is_bso_output (o : Output) : bool :=
  match o with BsoOutputs _ _ _ => true | _ => false end.

(** ** The run of the training inputs *)

Section TrainingFeed.

Context {F : Type}.

Variables (n t n_tok dim h w c : nat).
Variable ids : nat → nat → Z.                 (* the formula, n x t *)
Variable e : nat → nat → F.                   (* the table, n_tok x dim *)
Variable s : nat → F.                         (* the start token, dim *)
Variable pixels : nat → nat → nat → nat → F.  (* the image, n x h x w x c *)
Variables E start_token : TFVariable.

Definition training_feed : Feed F :=
  {| feed_dict := <["img" := Rank4 n h w c pixels]>
                    (<["formula" := Ids n t ids]> ∅);
     var_values := <[var_name E := Rank2 n_tok dim e]>
                     (<[var_name start_token := Rank1 dim s]> ∅) |}.

Definition embeddings : Tensor :=
  embeddings_node (Placeholder "img") (Placeholder "formula") E start_token
    (Z.of_nat dim).

End TrainingFeed.

(** ** A sample configuration *)

Definition sample_attn_cell_config (cell_type : string) : gmap string PyVal :=
  <["cell_type" := VStr cell_type]>
    (<["num_units" := VInt 512]>
       (<["dim_e" := VInt 512]>
          (<["dim_o" := VInt 512]>
             (<["dim_embeddings" := VInt 80]> ∅)))).

Definition sample_config (mode cell_type : string) (bso : bool) : Config :=
  {| decoding := mode; beam_size := 5; div_gamma := 1 # 10; div_prob := 0;
     max_length_formula := 150; beam_search_optimization := bso;
     attn_cell_config := sample_attn_cell_config cell_type |}.

Definition sample_weights : list (string * list Z) :=
  [ ("att_img/kernel", [512; 512]); ("att_h/kernel", [512; 512]);
    ("att_beta", [512; 1]);
    ("lstm_cell/kernel", [1104; 2048]); ("lstm_cell/bias", [2048]);
    ("W_o", [1024; 512]); ("W_y", [512; 500]) ].

(** A call on the sample configuration, from the root scope and an empty
    variable store. *)
Definition sample_call (mode cell_type : string) (bso : bool)
    : BuildState * Result (gmap string Output) :=
  run_call sample_weights (__init__ (sample_config mode cell_type bso) 500 499)
    (Placeholder "training") (Placeholder "img") (Placeholder "formula")
    (Placeholder "dropout") [] ∅.

(** A decoder cell that emits the time step and never finishes. *)
Definition endless_cell : DecoderStep :=
  {| DState := unit; DInputs := unit; DOutput := nat;
     d_initialize := (tt, tt, [false]);
     d_step := λ time _ _ _, (time, tt, tt, [false]) |}.

(** A formula of two tokens over a table of three rows of width two, and a
    cell that counts its applications. *)
Definition sample_ids (b i : nat) : Z := match i with O => 2 | _ => 1 end.
Definition sample_table (r k : nat) : Z := Z.of_nat (10 * r + k).
Definition sample_start (k : nat) : Z := 100 + Z.of_nat k.
Definition sample_E : TFVariable :=
  {| var_name := "E"; var_shape := [3; 2];
     var_initial_value := Some (_initializer [3; 2]) |}.
Definition sample_start_token : TFVariable :=
  {| var_name := "start_token"; var_shape := [2];
     var_initial_value := Some (_initializer [2]) |}.
Definition counting_cell : CellSemantics Z :=
  {| CState := nat;
     c_initial_state := λ _, O;
     c_call := λ _ _ _ _ count, (λ _ _, Z.of_nat count, S count) |}.
Definition sample_cell : AttentionCell :=
  {| ac_cell := LSTMCell (VInt 4) None;
     ac_attn := {| am_img := Placeholder "img"; am_dim_e := VInt 4;
                   am_tiles := None |};
     ac_dropout := Placeholder "dropout"; ac_config := ∅; ac_n_tok := 3;
     ac_params := [] |}.

(** ** Graphs in which the decoder can be built *)

(** The variable that the declaration [d] creates in the scope with prefix
    [p]: without an initializer of this file, as the weights of the attention
    cell are, or with [_initializer], as the two embedding variables are. *)
Definition declared_variable (p : string) (d : string * list Z) : TFVariable :=
  {| var_name := p +:+ fst d; var_shape := snd d; var_initial_value := None |}.

Definition embedding_variable (p : string) (d : string * list Z) : TFVariable :=
  {| var_name := p +:+ fst d; var_shape := snd d;
     var_initial_value := Some (_initializer (snd d)) |}.

(** A sample arithmetic: every result is rounded up by one unit roundoff of
    float32, and [rsqrt] is exact. *)
Definition unit_roundoff : R := (/ 2 ^ 24)%R.
Definition round_up (x : R) : R := (x * (1 + unit_roundoff))%R.
Definition exact_rsqrt (m : R) : R := (/ sqrt m)%R.

(** The two variables that the sample call creates, and a feed for them: one
    image, a formula of [t] tokens, the sample table and start token. *)
Definition sample_call_E : TFVariable :=
  embedding_variable "" ("E", [500; 80]).
Definition sample_call_start_token : TFVariable :=
  embedding_variable "" ("start_token", [80]).
Definition sample_call_feed (t : nat) : Feed Z :=
  training_feed 1 t 500 80 1 1 1 sample_ids sample_table sample_start
    (λ _ _ _ _, 0) sample_call_E sample_call_start_token.

(** The scopes do not reuse, the store holds none of the names the call
    creates, and the weight declarations have distinct names and shapes
    without negative dimensions and of a size that fits. *)
Definition can_create (ws : list (string * list Z))
    (scopes : list (string * bool)) (store : gmap string TFVariable) : Prop :=
  let p := scope_prefix scopes in
  scope_reuse scopes = false ∧
  store !! (p +:+ "E") = None ∧
  store !! (p +:+ "start_token") = None ∧
  (∀ d, d ∈ ws → store !! ((p +:+ "attn_cell" +:+ "/") +:+ fst d) = None) ∧
  NoDup (fst <$> ws) ∧
  Forall (λ d, Forall (Z.le 0) (snd d)) ws ∧
  Forall (λ d, shape_fits (snd d) = true) ws.

(** A configuration of the kind the decoder is written for: the sizes are
    not negative and the table fits, the beam is not empty, and the three
    entries the call reads from [attn_cell_config] are there, "dim_embeddings"
    as an integer and the two sizes given to the constructors of the
    components as positive integers. *)
Definition well_formed (self : Decoder) (d : Z) (dim_e nu : PyVal) : Prop :=
  0 ≤ _n_tok self ∧ 0 ≤ d ∧
  shape_fits [_n_tok self; d] = true ∧
  (decoding (_config self) = "beam_search" → 1 ≤ beam_size (_config self)) ∧
  attn_cell_config (_config self) !! "dim_embeddings" = Some (VInt d) ∧
  attn_cell_config (_config self) !! "dim_e" = Some dim_e ∧
  (∃ z, dim_e = VInt z ∧ 0 < z) ∧
  attn_cell_config (_config self) !! "num_units" = Some nu ∧
  (∃ z, nu = VInt z ∧ 0 < z).

(** A construction program that, in a reusing scope, leaves the variable
    store and the scopes as they are. *)
Definition reads_only {A} (m : Py A) : Prop :=
  ∀ st, scope_reuse (st_scopes st) = true →
        st_store (fst (m st)) = st_store st ∧
        st_scopes (fst (m st)) = st_scopes st.

(** The sample configuration without one key of the attention cell's. *)
Definition sample_config_without (key : string) : Config :=
  {| decoding := "beam_search"; beam_size := 5; div_gamma := 1 # 10;
     div_prob := 0; max_length_formula := 150;
     beam_search_optimization := false;
     attn_cell_config := delete key (sample_attn_cell_config "lstm") |}.

(** ** Feeds with two batch sizes *)

(** A feed in which the image holds [m] samples and the formula [n]. *)
Definition batch_feed {F : Type} (m n t n_tok dim h w c : nat)
    (ids : nat → nat → Z) (e : nat → nat → F) (s : nat → F)
    (pixels : nat → nat → nat → nat → F) (E start_token : TFVariable) : Feed F :=
  {| feed_dict := <["img" := Rank4 m h w c pixels]>
                    (<["formula" := Ids n t ids]> ∅);
     var_values := <[var_name E := Rank2 n_tok dim e]>
                     (<[var_name start_token := Rank1 dim s]> ∅) |}.

(** * Reasoning about construction programs *)

Lemma run_bind {A B} (m : Py A) (f : A → Py B) st :
  (m ≫= f) st =
  match m st with
  | (st', Return a) => f a st'
  | (st', Raise e) => (st', Raise e)
  end.
Proof. reflexivity. Qed.

Lemma run_bind_mret {A} (m : Py A) st : (m ≫= λ a, mret a) st = m st.
Proof. rewrite run_bind. by destruct (m st) as [st' [a|e]]. Qed.

Lemma run_ret {A} (a : A) st : (mret a : Py A) st = (st, Return a).
Proof. reflexivity. Qed.

Lemma run_raise {A} e st : (raise e : Py A) st = (st, Raise e).
Proof. reflexivity. Qed.

Lemma run_lift {A} (r : Result A) st : lift r st = (st, r).
Proof. reflexivity. Qed.

Lemma run_built {A} (tag : A → Built) (a : A) st :
  built tag a st =
  ({| st_scopes := st_scopes st; st_store := st_store st;
      st_built := st_built st ++ [(head (st_scopes st), tag a)] |}, Return a).
Proof. reflexivity. Qed.

Lemma run_load_global name st :
  bool_decide (name ∈ (module_globals ++ builtins)%list) = true →
  load_global name st = (st, Return (VGlobal name)).
Proof. intros H. unfold load_global. rewrite H. reflexivity. Qed.

Lemma run_load_global_unbound name st :
  bool_decide (name ∈ (module_globals ++ builtins)%list) = false →
  load_global name st = (st, Raise (NameError name)).
Proof. intros H. unfold load_global. rewrite H. reflexivity. Qed.

Lemma run_variable_scope {A} name reuse (body : Py A) st :
  variable_scope name reuse body st =
  ({| st_scopes := st_scopes st;
      st_store := st_store (fst (body (entered st name reuse)));
      st_built := st_built (fst (body (entered st name reuse))) |},
   snd (body (entered st name reuse))).
Proof.
  unfold variable_scope, entered.
  destruct (body _) as [st' r]. reflexivity.
Qed.

(** The name [id_end] is bound neither in the module nor in the builtins. *)
Lemma id_end_unbound :
  bool_decide ("id_end" ∈ (module_globals ++ builtins)%list) = false.
Proof. vm_compute. reflexivity. Qed.

(** *** The variable store *)

Lemma is_compatible_with_fully_defined requested sh :
  fully_defined requested = Some sh → is_compatible_with requested sh = true.
Proof.
  revert sh. induction requested as [|[d|] rs IH]; intros sh H; simpl in H.
  - by inversion H.
  - destruct (fully_defined rs) as [sh'|] eqn:E; [|done].
    inversion H; subst. simpl. rewrite Z.eqb_refl. by apply IH.
  - done.
Qed.

Lemma as_shape_error shape e :
  as_shape shape = Raise e → is_configuration_error e = true.
Proof.
  induction shape as [|v vs IH]; simpl; [done|].
  destruct v as [|z|s|g]; simpl.
  - destruct (as_shape vs); [done|]. intros [= <-]. by apply IH.
  - destruct (z <? 0); [by intros [= <-]|].
    destruct (as_shape vs); [done|]. intros [= <-]. by apply IH.
  - by intros [= <-].
  - by intros [= <-].
Qed.

(** What [tf.get_variable] can do to a state: raise and leave it alone, or
    return a variable that the store holds afterwards under the scoped name;
    the store only grows, and not at all when the scope reuses. *)
Lemma tf_get_variable_outcome name shape init st :
  (∃ e, tf_get_variable name shape init st = (st, Raise e) ∧
        is_configuration_error e = true) ∨
  (∃ v store requested,
      tf_get_variable name shape init st = (with_store st store, Return v) ∧
      as_shape shape = Return requested ∧
      is_compatible_with requested (var_shape v) = true ∧
      store !! (scope_prefix (st_scopes st) +:+ name) = Some v ∧
      st_store st ⊆ store ∧
      dom store ⊆ dom (st_store st) ∪ {[ scope_prefix (st_scopes st) +:+ name ]} ∧
      (scope_reuse (st_scopes st) = true → store = st_store st)).
Proof.
  unfold tf_get_variable. destruct st as [sc S B]; simpl.
  destruct (as_shape shape) as [requested|e] eqn:Has;
    [|left; eauto using as_shape_error].
  destruct (S !! _) as [found|] eqn:Hfound.
  - destruct (scope_reuse sc); [|left; eauto].
    destruct (is_compatible_with requested (var_shape found)) eqn:Hc; [|left; eauto].
    right. exists found, S, requested. unfold with_store; simpl.
    split_and!; [done..|set_solver|done].
  - destruct (scope_reuse sc) eqn:Hr; [left; eauto|].
    destruct (fully_defined requested) as [sh|] eqn:Hfd; [|left; eauto].
    destruct (shape_fits sh); [|left; eauto].
    right. eexists _, _, requested. unfold with_store; simpl.
    split_and!; [reflexivity|reflexivity| |by rewrite lookup_insert_eq| | |done].
    + simpl. by apply is_compatible_with_fully_defined.
    + by apply insert_subseteq.
    + rewrite dom_insert. set_solver.
Qed.

Lemma tf_reshape_outcome t shape st :
  (∃ e, tf_reshape t shape st = (st, Raise e) ∧
        is_configuration_error e = true) ∨
  (∃ sh, int_list shape = Some sh ∧
         tf_reshape t shape st = (st, Return (Reshape t sh))).
Proof.
  unfold tf_reshape. destruct (int_list shape) as [sh|]; [|left; eauto].
  destruct t; try (right; by eauto).
  destruct (_ && _); [left; eauto|right; eauto].
Qed.

Lemma scoped_names_cons p d ds :
  scoped_names p (d :: ds) = {[ p +:+ fst d ]} ∪ scoped_names p ds.
Proof. unfold scoped_names. by rewrite fmap_cons, list_to_set_cons. Qed.

Lemma declared_mono store store' p d v :
  store ⊆ store' → declared store p d v → declared store' p d v.
Proof.
  intros Hsub (requested & H1 & H2 & H3). exists requested.
  split_and!; [done|done|]. by eapply lookup_weaken.
Qed.

Lemma with_store_id st : with_store st (st_store st) = st.
Proof. by destruct st. Qed.

Lemma with_store_twice st s1 s2 : with_store (with_store st s1) s2 = with_store st s2.
Proof. reflexivity. Qed.

(** Obtaining a list of declared variables changes nothing but the store,
    which only grows; on success every variable is held by the final store. *)
Lemma get_variables_outcome ds st :
  ∃ store r,
    get_variables ds st = (with_store st store, r) ∧
    st_store st ⊆ store ∧
    dom store ⊆ dom (st_store st) ∪ scoped_names (scope_prefix (st_scopes st)) ds ∧
    (scope_reuse (st_scopes st) = true → store = st_store st) ∧
    (∀ e, r = Raise e → is_configuration_error e = true) ∧
    (∀ vs, r = Return vs →
       Forall2 (declared store (scope_prefix (st_scopes st))) ds vs).
Proof.
  revert st. induction ds as [|d ds IH]; intros st.
  - exists (st_store st), (Return []). rewrite with_store_id.
    split_and!; [done|done|set_solver|done|done|]. intros vs [= <-]. constructor.
  - cbn [get_variables]. rewrite run_bind.
    destruct (tf_get_variable_outcome (fst d) (VInt <$> snd d) None st)
      as [(e & He & Hce)|(v & s1 & requested & Hv & Has & Hc & Hl & Hsub & Hdom & Hre)].
    + rewrite He. exists (st_store st), (Raise e). rewrite with_store_id.
      split_and!; [done|done|set_solver|done| |done]. by intros ? [= <-].
    + rewrite Hv, run_bind.
      destruct (IH (with_store st s1))
        as (s2 & r & Hrun & Hsub2 & Hdom2 & Hre2 & He2 & Hd).
      rewrite Hrun, with_store_twice. simpl in Hsub2, Hdom2, Hre2, Hd.
      assert (dom s2 ⊆ dom (st_store st)
                ∪ scoped_names (scope_prefix (st_scopes st)) (d :: ds)) as Hdom3.
      { rewrite scoped_names_cons. intros x Hx.
        apply Hdom2, elem_of_union in Hx as [Hx|Hx].
        - apply Hdom, elem_of_union in Hx as [Hx|Hx].
          + by apply elem_of_union_l.
          + by apply elem_of_union_r, elem_of_union_l.
        - by apply elem_of_union_r, elem_of_union_r. }
      destruct r as [vs|e].
      * rewrite run_ret. exists s2, (Return (v :: vs)).
        split_and!; [done|by etrans|done| |done|].
        -- intros Hr. rewrite (Hre2 Hr). by apply Hre.
        -- intros ? [= <-]. constructor; [|by apply Hd].
           eapply declared_mono; [exact Hsub2|]. by exists requested.
      * exists s2, (Raise e). split_and!; [done|by etrans|done| | |done].
        -- intros Hr. rewrite (Hre2 Hr). by apply Hre.
        -- intros ? [= <-]. by apply He2.
Qed.

(** Under a reusing scope, asking again for variables the store holds gives
    the very same variables and leaves the state as it is. *)
Lemma get_variables_reuse ds vs st :
  scope_reuse (st_scopes st) = true →
  Forall2 (declared (st_store st) (scope_prefix (st_scopes st))) ds vs →
  get_variables ds st = (st, Return vs).
Proof.
  intros Hr H. induction H as [|d v ds vs (requested & Has & Hc & Hl) _ IH].
  - reflexivity.
  - cbn [get_variables]. rewrite run_bind.
    assert (tf_get_variable (fst d) (VInt <$> snd d) None st = (st, Return v)) as ->.
    { unfold tf_get_variable. by rewrite Has, Hl, Hr, Hc. }
    by rewrite run_bind, IH, run_ret.
Qed.

(** ** Tactics for running a construction program *)

Tactic Notation "norm" :=
  cbn [st_scopes st_store st_built entered with_store head fst snd].
Tactic Notation "norm" "in" hyp(H) :=
  cbn [st_scopes st_store st_built entered with_store head fst snd] in H.

(** Running a bound global. *)
Ltac run_global :=
  rewrite ?run_bind; rewrite run_load_global by (vm_compute; reflexivity);
  cbn beta iota.

(** Running every step whose outcome is known. *)
Ltac run :=
  repeat first
    [ progress (rewrite ?run_bind, ?run_ret, ?run_built, ?run_lift, ?run_raise;
                cbn beta iota; norm)
    | rewrite run_load_global by (vm_compute; reflexivity) ].

(** Case analysis on the membership of an entry in an explicit log. *)
Ltac in_log H :=
  repeat first
    [ apply elem_of_app in H as [H|H]
    | apply elem_of_cons in H as [H|H]
    | apply elem_of_nil in H; destruct H ];
  try discriminate H.

(** Finding an entry in an explicit log. *)
Ltac find_in_log :=
  repeat first
    [ apply elem_of_cons; left; reflexivity
    | apply elem_of_cons; right
    | apply elem_of_app; left; apply elem_of_cons; left; reflexivity
    | apply elem_of_app; right ].

(** * The construction trace of a call

    The lemmas below describe the construction log and the result of each
    block of [__call__]. *)

Section Trace.

Variable ws : list (string * list Z).
Variable self : Decoder.
Variables img formula dropout : Tensor.

Let cfg := attn_cell_config (_config self).

Lemma training_post_early E start_token dim out st st' e dim_e nu log :
  st_scopes st' = st_scopes st →
  st_built st' = st_built st ++ log →
  st_store st ⊆ st_store st' →
  dom (st_store st') ⊆
    dom (st_store st)
    ∪ scoped_names (scope_prefix (st_scopes st) +:+ "attn_cell" +:+ "/") ws →
  is_configuration_error e = true →
  early_log self img dim_e nu log →
  training_post ws self img formula dropout E start_token dim out st st' (Raise e).
Proof.
  intros Hsc Hb Hs Hd He Hl. exists 0, dim_e, nu, [], log.
  split_and!; [done..|]. left. by exists e.
Qed.

Lemma training_block_trace E start_token dim out st st' r :
  training_block ws self img formula dropout E start_token dim (Shape0 img) out st
  = (st', r) →
  training_post ws self img formula dropout E start_token dim out st st' r.
Proof.
  unfold training_block. rewrite run_variable_scope.
  match goal with |- context [fst (?m (entered st "attn_cell" false))] =>
    destruct (m (entered st "attn_cell" false)) as [st2 r2] eqn:Hbody end.
  simpl. intros [= <- <-].
  revert Hbody. run_global. unfold get_embeddings. rewrite run_bind. run_global.
  rewrite run_bind.
  destruct (tf_reshape_outcome (TVar start_token) [VInt 1; VInt 1; dim]
              (entered st "attn_cell" false))
    as [(e & He & Hce)|(sh & Hsh & Hre)].
  { rewrite He. intros [= <- <-].
    eapply training_post_early with (dim_e := VNone) (nu := VNone) (log := []); simpl;
      [done|by rewrite app_nil_r|done|set_solver|done|by left]. }
  rewrite Hre, run_ret. simpl in Hsh.
  destruct dim as [|d| |]; try done. injection Hsh as <-.
  run_global. rewrite run_bind, run_lift. unfold dict_getitem.
  fold cfg. destruct (cfg !! "dim_e") as [dim_e|] eqn:Hde; cycle 1.
  { intros [= <- <-].
    eapply training_post_early with (dim_e := VNone) (nu := VNone) (log := []); simpl;
      [done|by rewrite app_nil_r|done|set_solver|done|by left]. }
  rewrite run_bind, run_built. norm. run_global. rewrite run_bind, run_lift.
  destruct (cfg !! "num_units") as [nu|] eqn:Hnu; cycle 1.
  { intros [= <- <-].
    eapply training_post_early with (dim_e := dim_e) (nu := VNone); simpl;
      [done|reflexivity|done|set_solver|done|]. right. split; [done|]. by left. }
  rewrite run_bind, run_built. norm. run_global.
  unfold AttentionCell_new. rewrite !run_bind.
  match goal with |- context [get_variables ws ?s] =>
    destruct (get_variables_outcome ws s)
      as (store & rv & Hrun & Hsub & Hdom & _ & Herr & Hdecl) end.
  rewrite Hrun. norm. norm in Hsub. norm in Hdecl. norm in Hdom.
  change (scope_prefix (("attn_cell", false) :: st_scopes st))
    with (scope_prefix (st_scopes st) +:+ "attn_cell" +:+ "/") in Hdom, Hdecl.
  destruct rv as [params|e]; cycle 1.
  { intros [= <- <-].
    eapply training_post_early with (dim_e := dim_e) (nu := nu); norm;
      [done|by rewrite <- app_assoc|done|done|by apply Herr|].
    right. split; [done|]. right. by split. }
  rewrite run_built. norm. run_global. rewrite run_bind, run_built. norm.
  rewrite run_ret. intros [= <- <-].
  exists d, dim_e, nu, params, (train_log self img formula dropout E start_token d dim_e nu params).
  norm. split_and!; [done|by rewrite <- !app_assoc|done|done|].
  right. split_and!; [done..|]. by apply Hdecl.
Qed.

(** The decoding block, run after a training block that succeeded: it
    cannot stop before the choice of the decoder cell, it obtains the
    variables of the training cell, and it leaves the store as it is. *)
Lemma decoding_block_trace E start_token d dim_e nu params out st :
  cfg !! "dim_e" = Some dim_e →
  cfg !! "num_units" = Some nu →
  Forall2 (declared (st_store st)
             (scope_prefix (st_scopes st) +:+ "attn_cell" +:+ "/")) ws params →
  decoding_block ws self img formula dropout E start_token (Shape0 img)
    (embeddings_node img formula E start_token d) out st
  = ({| st_scopes := st_scopes st; st_store := st_store st;
        st_built := st_built st ++ decode_cell_log self img dropout dim_e nu params
                    ++ fst (decoding_end self img formula dropout E start_token d dim_e nu params out) |},
     snd (decoding_end self img formula dropout E start_token d dim_e nu params out)).
Proof.
  intros Hde Hnu Hdecl. unfold decoding_block. rewrite run_variable_scope.
  match goal with |- context [fst (?m (entered st "attn_cell" true))] =>
    assert (m (entered st "attn_cell" true)
            = ({| st_scopes := ("attn_cell", true) :: st_scopes st;
                  st_store := st_store st;
                  st_built := st_built st ++ decode_cell_log self img dropout dim_e nu params
                    ++ fst (decoding_end self img formula dropout E start_token d dim_e nu params out) |},
               snd (decoding_end self img formula dropout E start_token d dim_e nu params out))) as -> end;
    [|reflexivity].
  unfold dict_getitem. fold cfg. rewrite Hde, Hnu. run.
  unfold AttentionCell_new. run.
  erewrite get_variables_reuse; [|reflexivity|exact Hdecl]. run.
  rewrite <- !app_assoc.
  unfold decoder_cell_block, decoding_end.
  destruct (String.eqb (decoding (_config self)) "greedy").
  { run. rewrite run_load_global_unbound by exact id_end_unbound.
    run. by rewrite app_nil_r. }
  destruct (String.eqb (decoding (_config self)) "beam_search"); cycle 1.
  { run. cbn [load_fast]. run. by rewrite app_nil_r. }
  unfold beam_log.
  destruct (beam_search_optimization (_config self));
    run; cbn [load_fast]; run; by rewrite <- !app_assoc.
Qed.

Lemma call_trace training scopes store :
  call_post ws self img formula dropout scopes store
    (fst (run_call ws self training img formula dropout scopes store))
    (snd (run_call ws self training img formula dropout scopes store)).
Proof.
  set (E0 := {| var_name := ""; var_shape := []; var_initial_value := None |}).
  unfold run_call, __call__. fold cfg.
  assert (∀ store' e,
            store ⊆ store' →
            dom store' ⊆ dom store
              ∪ {[ scope_prefix scopes +:+ "E";
                   scope_prefix scopes +:+ "start_token" ]} →
            is_configuration_error e = true →
            call_post ws self img formula dropout scopes store
              {| st_scopes := scopes; st_store := store'; st_built := [] |}
              (Raise e)) as Hstop.
  { intros store' e Hsub Hdom He.
    split_and!; [done|done|by intros x Hx; apply elem_of_union_l, Hdom|].
    exists E0, E0, 0, VNone, VNone, []. left. exists e.
    split_and!; [done|done|by left]. }
  run.
  match goal with |- context [tf_get_variable "E" ?sh ?init ?st] =>
    destruct (tf_get_variable_outcome "E" sh init st)
      as [(e & He & Hce)|(E & s1 & rq1 & HE & _ & _ & HlE & Hsub1 & Hdom1 & _)]
  end.
  { rewrite He. norm.
    apply (Hstop store e); [done|by apply union_subseteq_l|done]. }
  rewrite HE. run.
  match goal with |- context [tf_get_variable "start_token" ?sh ?init ?st] =>
    destruct (tf_get_variable_outcome "start_token" sh init st)
      as [(e & He & Hce)|(S & s2 & rq2 & HS & _ & _ & HlS & Hsub2 & Hdom2 & _)]
  end.
  { rewrite He. norm. apply (Hstop s1 e); [done| |done].
    intros x Hx. apply Hdom1, elem_of_union in Hx as [Hx|Hx];
      [by apply elem_of_union_l|by apply elem_of_union_r, elem_of_union_l]. }
  rewrite HS. run.
  norm in HlE. norm in HlS. norm in Hsub1. norm in Hsub2.
  norm in Hdom1. norm in Hdom2.
  match goal with |- context [training_block ws self img formula dropout E S
                                ?dim ?bs ?out ?st] =>
    destruct (training_block ws self img formula dropout E S dim bs out st)
      as [st3 r3] eqn:Ht;
    apply training_block_trace in Ht;
    destruct Ht as (d & dim_e & nu & params & log & Hsc & Hb & Hsub3 & Hdom3 & Hr)
  end.
  norm in Hsc. norm in Hb. norm in Hsub3. norm in Hdom3.
  assert (store ⊆ st_store st3) as Hsub by (by etrans; [|etrans]).
  assert (dom (st_store st3) ⊆
            dom store ∪ {[ scope_prefix scopes +:+ "E";
                           scope_prefix scopes +:+ "start_token" ]}
            ∪ scoped_names (scope_prefix scopes +:+ "attn_cell" +:+ "/") ws)
    as Hdom.
  { intros x Hx. apply Hdom3, elem_of_union in Hx as [Hx|Hx];
      [|by apply elem_of_union_r].
    apply elem_of_union_l.
    apply Hdom2, elem_of_union in Hx as [Hx|Hx];
      [|by apply elem_of_union_r, elem_of_union_r].
    apply Hdom1, elem_of_union in Hx as [Hx|Hx];
      [by apply elem_of_union_l|by apply elem_of_union_r, elem_of_union_l]. }
  destruct Hr as [(e & -> & Hce & Hearly)|(-> & -> & Hdim & Hde & Hnu & Hdecl)].
  { norm. split_and!; [done..|].
    exists E, S, d, dim_e, nu, params. left. exists e. by rewrite Hb. }
  norm in Hdecl. norm. rewrite run_bind_mret.
  rewrite (decoding_block_trace E S d dim_e nu params); [|done|done|by rewrite Hsc].
  norm. split_and!; [done..|].
  exists E, S, d, dim_e, nu, params. right. rewrite Hb.
  norm. split_and!; [done|done|done| | |done| |done].
  - eapply lookup_weaken; [|exact Hsub3]. by eapply lookup_weaken.
  - by eapply lookup_weaken.
  - by rewrite app_nil_l.
Qed.

End Trace.

(** * The steps of a call

    A call obtains the table, then the start token, then runs its two
    blocks.  The lemmas below follow it step by step and keep what is known
    of the two variables. *)

Lemma append_assoc (a b c : string) : (a +:+ b) +:+ c = a +:+ (b +:+ c).
Proof.
  induction a as [|x a IH]; [reflexivity|].
  change (String x ((a +:+ b) +:+ c) = String x (a +:+ (b +:+ c))).
  by rewrite IH.
Qed.

Lemma as_shape_ints sh :
  Forall (Z.le 0) sh → as_shape (VInt <$> sh) = Return (Some <$> sh).
Proof.
  induction 1 as [|z sh Hz _ IH]; [done|].
  cbn. apply Z.ltb_ge in Hz. by rewrite Hz, IH.
Qed.

Lemma as_shape_ints_inv sh requested :
  as_shape (VInt <$> sh) = Return requested →
  requested = Some <$> sh ∧ Forall (Z.le 0) sh.
Proof.
  revert requested. induction sh as [|z sh IH]; intros requested; cbn.
  - by intros [= <-].
  - destruct (z <? 0) eqn:Hz; [done|]. apply Z.ltb_ge in Hz.
    destruct (as_shape (VInt <$> sh)) as [rs|] eqn:Hs; [|done].
    intros [= <-]. destruct (IH rs eq_refl) as [-> H].
    split; [done|by constructor].
Qed.

Lemma fully_defined_known sh : fully_defined (Some <$> sh) = Some sh.
Proof. induction sh as [|z sh IH]; [done|]. cbn. by rewrite IH. Qed.

Lemma is_compatible_with_known sh found :
  is_compatible_with (Some <$> sh) found = true ↔ found = sh.
Proof.
  revert found. induction sh as [|z sh IH]; intros [|f found]; cbn; try done.
  rewrite andb_true_iff, Z.eqb_eq, IH. naive_solver.
Qed.

(** A variable obtained under a name the store did not hold was created:
    with the requested shape, of a size that fits, under the scoped name and
    from the value that the initializer builds for its shape. *)
Lemma tf_get_variable_created name shape init st st' v :
  tf_get_variable name shape init st = (st', Return v) →
  st_store st !! (scope_prefix (st_scopes st) +:+ name) = None →
  ∃ requested,
    as_shape shape = Return requested ∧
    fully_defined requested = Some (var_shape v) ∧
    shape_fits (var_shape v) = true ∧
    var_name v = scope_prefix (st_scopes st) +:+ name ∧
    var_initial_value v = (λ f, f (var_shape v)) <$> init.
Proof.
  unfold tf_get_variable. intros H Hn.
  destruct (as_shape shape) as [rq|]; [|done]. rewrite Hn in H.
  destruct (scope_reuse _); [done|].
  destruct (fully_defined rq) as [sh|] eqn:Hfd; [|done].
  destruct (shape_fits sh) eqn:Hf; [|done].
  injection H as <- <-. by exists rq.
Qed.

Lemma get_embeddings_runs formula E S d batch_size st :
  var_shape S = [d] →
  get_embeddings formula (TVar E) (VInt d) (TVar S) batch_size st
  = (st, Return (Concat [ Tile (Reshape (TVar S) [1; 1; d])
                            [batch_size; Const 1; Const 1];
                          GetItem (EmbeddingLookup (TVar E) formula)
                            [SliceAll; SliceAll; SliceAll] ] 1)).
Proof.
  intros Hs. unfold get_embeddings. run. unfold tf_reshape.
  cbn [int_list fmap option_fmap option_map]. rewrite Hs.
  replace (num_elements [d] =? num_elements [1; 1; d])
    with true by (symmetry; apply Z.eqb_eq; unfold num_elements; simpl; lia).
  rewrite andb_false_r. run. reflexivity.
Qed.

(** The shapes with which the two embedding variables can be created. *)
Lemma created_table_shape n dim requested sh :
  as_shape [VInt n; dim] = Return requested →
  fully_defined requested = Some sh →
  ∃ d, dim = VInt d ∧ sh = [n; d].
Proof.
  cbn [as_shape as_dimension]. destruct (n <? 0); [done|].
  destruct dim as [|d|?|?]; cbn [as_dimension]; try done.
  - by intros [= <-].
  - destruct (d <? 0); [done|]. intros [= <-] [= <-]. by exists d.
Qed.

Lemma created_vector_shape dim requested sh :
  as_shape [dim] = Return requested →
  fully_defined requested = Some sh →
  ∃ d, dim = VInt d ∧ sh = [d].
Proof.
  cbn [as_shape as_dimension].
  destruct dim as [|d|?|?]; cbn [as_dimension]; try done.
  - by intros [= <-].
  - destruct (d <? 0); [done|]. intros [= <-] [= <-]. by exists d.
Qed.

Section Steps.

Variable ws : list (string * list Z).
Variable self : Decoder.
Variables img formula dropout : Tensor.

Let cfg := attn_cell_config (_config self).

(** The two blocks: the scopes are left as they were, the store only grows,
    and the log and the result are those of [call_post]. *)
Lemma call_blocks_trace E S dim st :
  let r := call_blocks ws self img formula dropout E S dim st in
  st_scopes (fst r) = st_scopes st ∧
  st_store st ⊆ st_store (fst r) ∧
  ∃ (d : Z) (dim_e nu : PyVal) (params : list TFVariable),
    (∃ e log, snd r = Raise e ∧ is_configuration_error e = true ∧
              st_built (fst r) = st_built st ++ log ∧
              early_log self img dim_e nu log) ∨
    (dim = VInt d ∧
     cfg !! "dim_e" = Some dim_e ∧ cfg !! "num_units" = Some nu ∧
     let out := <["train" := train_outputs_node self img formula dropout
                               E S d dim_e nu params]> ∅ in
     st_built (fst r) =
       st_built st
       ++ train_log self img formula dropout E S d dim_e nu params
       ++ decode_cell_log self img dropout dim_e nu params
       ++ fst (decoding_end self img formula dropout E S d dim_e nu params out) ∧
     snd r = snd (decoding_end self img formula dropout E S d dim_e nu params out)).
Proof.
  intros r. subst r. unfold call_blocks. rewrite run_bind.
  destruct (training_block ws self img formula dropout E S dim (Shape0 img) ∅ st)
    as [st3 r3] eqn:Ht.
  apply training_block_trace in Ht.
  destruct Ht as (d & dim_e & nu & params & log & Hsc & Hb & Hsub3 & Hdom3 & Hr).
  destruct Hr as [(e & -> & Hce & Hearly)|(-> & -> & Hdim & Hde & Hnu & Hdecl)].
  { norm. split_and!; [done|done|].
    exists d, dim_e, nu, params. left. by exists e, log. }
  cbn beta iota. rewrite run_bind_mret. norm.
  rewrite (decoding_block_trace ws self img formula dropout E S d dim_e nu
             params); [|done|done|by rewrite Hsc].
  norm. split_and!; [done|done|].
  exists d, dim_e, nu, params. right. rewrite Hb.
  split_and!; [done|done|done|by rewrite <- !app_assoc|done].
Qed.

(** The call, step by step. *)
Lemma call_steps training scopes store :
  let st0 := {| st_scopes := scopes; st_store := store; st_built := [] |} in
  let dim := dict_get cfg "dim_embeddings" in
  let p := scope_prefix scopes in
  let r := run_call ws self training img formula dropout scopes store in
  (∃ e, r = (st0, Raise e) ∧ is_configuration_error e = true) ∨
  (∃ E s1 rqE,
     tf_get_variable "E" [VInt (_n_tok self); dim] (Some _initializer) st0
     = (with_store st0 s1, Return E) ∧
     as_shape [VInt (_n_tok self); dim] = Return rqE ∧
     is_compatible_with rqE (var_shape E) = true ∧
     s1 !! (p +:+ "E") = Some E ∧
     store ⊆ s1 ∧
     dom s1 ⊆ dom store ∪ {[ p +:+ "E" ]} ∧
     ((∃ e, r = (with_store st0 s1, Raise e) ∧ is_configuration_error e = true) ∨
      (∃ S s2 rqS,
         tf_get_variable "start_token" [dim] (Some _initializer)
           (with_store st0 s1)
         = (with_store st0 s2, Return S) ∧
         as_shape [dim] = Return rqS ∧
         is_compatible_with rqS (var_shape S) = true ∧
         s2 !! (p +:+ "start_token") = Some S ∧
         s1 ⊆ s2 ∧
         r = call_blocks ws self img formula dropout E S dim
               (with_store st0 s2)))).
Proof.
  intros st0 dim p r. subst r. unfold run_call, __call__. fold cfg dim st0. run.
  destruct (tf_get_variable_outcome "E" [VInt (_n_tok self); dim]
              (Some _initializer) st0)
    as [(e & He & Hce)|(E & s1 & rq1 & HE & Has1 & Hc1 & HlE & Hsub1 & Hdom1 & _)].
  { left. exists e. by rewrite He. }
  right. exists E, s1, rq1. rewrite HE. split_and!; [done..|]. run.
  destruct (tf_get_variable_outcome "start_token" [dim] (Some _initializer)
              (with_store st0 s1))
    as [(e & He & Hce)|(S & s2 & rq2 & HS & Has2 & Hc2 & HlS & Hsub2 & _)].
  { left. exists e. by rewrite He. }
  right. exists S, s2, rq2. rewrite HS. split_and!; [done..|]. run.
  unfold call_blocks. rewrite !run_bind.
  by destruct (training_block _ _ _ _ _ _ _ _ _ _ _) as [? [[??]|?]].
Qed.

Lemma scoped_top_names_differ p : p +:+ "start_token" ≠ p +:+ "E".
Proof. intros Heq. by apply (inj (String.app p)) in Heq. Qed.

(** The variables the store holds under the two names after a call, when it
    did not hold them before, were created by the call. *)
Lemma call_variables training scopes store :
  let dim := dict_get cfg "dim_embeddings" in
  let p := scope_prefix scopes in
  let r := run_call ws self training img formula dropout scopes store in
  (∀ E, st_store (fst r) !! (p +:+ "E") = Some E →
        store !! (p +:+ "E") = None →
        ∃ requested,
          as_shape [VInt (_n_tok self); dim] = Return requested ∧
          fully_defined requested = Some (var_shape E) ∧
          shape_fits (var_shape E) = true ∧
          var_name E = p +:+ "E" ∧
          var_initial_value E = Some (_initializer (var_shape E))) ∧
  (∀ S, st_store (fst r) !! (p +:+ "start_token") = Some S →
        store !! (p +:+ "start_token") = None →
        ∃ requested,
          as_shape [dim] = Return requested ∧
          fully_defined requested = Some (var_shape S) ∧
          shape_fits (var_shape S) = true ∧
          var_name S = p +:+ "start_token" ∧
          var_initial_value S = Some (_initializer (var_shape S))).
Proof.
  intros dim p r.
  pose proof (call_steps training scopes store) as Hsteps.
  cbn zeta in Hsteps. fold dim p in Hsteps. fold r in Hsteps.
  destruct Hsteps
    as [(e & Hr & _)|(E' & s1 & rqE & HE & _ & _ & HlE & Hsub1 & Hdom1 & Hrest)].
  { rewrite Hr. cbn [fst st_store]. split; intros v Hv Hn; by rewrite Hv in Hn. }
  assert (s1 !! (p +:+ "start_token") = store !! (p +:+ "start_token")) as Hs1.
  { destruct (store !! (p +:+ "start_token")) as [v|] eqn:Hv.
    - by eapply lookup_weaken.
    - apply not_elem_of_dom. intros Hin.
      apply Hdom1, elem_of_union in Hin as [Hin|Hin].
      + by apply not_elem_of_dom in Hv.
      + apply elem_of_singleton in Hin. by apply scoped_top_names_differ in Hin. }
  assert (∀ final, s1 ⊆ final →
            ∀ E, final !! (p +:+ "E") = Some E →
                 store !! (p +:+ "E") = None →
                 ∃ requested,
                   as_shape [VInt (_n_tok self); dim] = Return requested ∧
                   fully_defined requested = Some (var_shape E) ∧
                   shape_fits (var_shape E) = true ∧
                   var_name E = p +:+ "E" ∧
                   var_initial_value E = Some (_initializer (var_shape E)))
    as HtableE.
  { intros final Hsub E Hl Hn.
    pose proof (lookup_weaken _ _ _ _ HlE Hsub) as Hl'.
    rewrite Hl in Hl'. injection Hl' as ->.
    by apply (tf_get_variable_created _ _ _ _ _ _ HE). }
  destruct Hrest as [(e & Hr & _)|(S' & s2 & rqS & HS & _ & _ & HlS & Hsub2 & Hr)].
  { rewrite Hr. cbn [fst st_store with_store]. split.
    - by apply HtableE.
    - intros v Hv Hn. rewrite Hs1, Hn in Hv. discriminate Hv. }
  destruct (call_blocks_trace E' S' dim
              (with_store {| st_scopes := scopes; st_store := store;
                             st_built := [] |} s2))
    as (_ & Hsub3 & _).
  rewrite <- Hr in Hsub3. cbn [st_store with_store] in Hsub3.
  split.
  - apply HtableE. by etrans.
  - intros S Hl Hn.
    pose proof (lookup_weaken _ _ _ _ HlS Hsub3) as Hl'.
    rewrite Hl in Hl'. injection Hl' as ->.
    apply (tf_get_variable_created _ _ _ _ _ _ HS).
    cbn [st_store st_scopes with_store]. fold p. by rewrite Hs1.
Qed.

(** The training unroll a call has built, and the two variables it runs on. *)
Lemma train_unroll_trace training scopes store cell inputs :
  let p := scope_prefix scopes in
  let r := run_call ws self training img formula dropout scopes store in
  (train_scope, BUnroll (TrainOutputs cell inputs)) ∈ st_built (fst r) →
  ∃ E S d dim_e nu params,
    st_store (fst r) !! (p +:+ "E") = Some E ∧
    st_store (fst r) !! (p +:+ "start_token") = Some S ∧
    var_shape E = [_n_tok self; d] ∧
    var_shape S = [d] ∧
    cell = train_cell self img dropout dim_e nu params ∧
    inputs = GetItem (embeddings_node img formula E S d)
               [SliceAll; SliceTo (-1); SliceAll].
Proof.
  intros p r.
  pose proof (call_steps training scopes store) as Hsteps.
  cbn zeta in Hsteps. fold p in Hsteps. fold r in Hsteps.
  destruct Hsteps
    as [(e & Hr & _)|(E & s1 & rqE & _ & HasE & HcE & HlE & _ & _ & Hrest)].
  { rewrite Hr. cbn [fst st_built]. intros Hin. by apply elem_of_nil in Hin. }
  destruct Hrest as [(e & Hr & _)|(S & s2 & rqS & _ & HasS & HcS & HlS & Hsub2 & Hr)].
  { rewrite Hr. cbn [fst st_built with_store]. intros Hin.
    by apply elem_of_nil in Hin. }
  destruct (call_blocks_trace E S (dict_get cfg "dim_embeddings")
              (with_store {| st_scopes := scopes; st_store := store;
                             st_built := [] |} s2))
    as (_ & Hsub3 & d & dim_e & nu & params & Hend).
  rewrite <- Hr in Hsub3, Hend. cbn [st_store st_built with_store] in Hsub3, Hend.
  destruct Hend as [(e & log & _ & _ & -> & Hlog)|(Hdim & _ & _ & Hlog & _)].
  { rewrite app_nil_l. intros Hin.
    destruct Hlog as [Hl|(_ & [Hl|(_ & Hl)])]; rewrite Hl in Hin; in_log Hin. }
  cbn zeta in Hlog. rewrite Hlog, app_nil_l. intros Hin.
  rewrite Hdim in HasE, HasS.
  change [VInt (_n_tok self); VInt d] with (VInt <$> [_n_tok self; d]) in HasE.
  change [VInt d] with (VInt <$> [d]) in HasS.
  apply as_shape_ints_inv in HasE as [-> _], HasS as [-> _].
  apply is_compatible_with_known in HcE, HcS.
  exists E, S, d, dim_e, nu, params.
  split_and!; [|by eapply lookup_weaken|done|done| |].
  - eapply lookup_weaken; [|exact Hsub3]. by eapply lookup_weaken.
  - unfold decoding_end, beam_log in Hin.
    repeat case_match; simpl in Hin; in_log Hin; by injection Hin as -> ->.
  - unfold decoding_end, beam_log in Hin.
    repeat case_match; simpl in Hin; in_log Hin; by injection Hin as -> ->.
Qed.

End Steps.

(** * The decoder cell and the decoding mode *)

(** The tiling factor computed by the constructor. *)
Lemma tiles_init config n_tok id_end :
  _tiles (__init__ config n_tok id_end) =
  if String.eqb (decoding config) "greedy" then 1 else beam_size config.
Proof. reflexivity. Qed.

(** C6. The attention mechanism of the decode unroll (built under
    [reuse=True]) is given [tiles = 1] when decoding is "greedy" and
    [tiles = beam_size] when it is "beam_search"; the one of the training
    unroll (built under [reuse=False]) is built without a [tiles] argument.
    Both are built in every call that does not stop on a configuration error. *)
Theorem attention_mechanism_tiles
    ws config n_tok id_end training img formula dropout scopes store :
  let r := run_call ws (__init__ config n_tok id_end)
             training img formula dropout scopes store in
  (∀ a, (train_scope, BAttentionMechanism a) ∈ built_log r → am_tiles a = None) ∧
  (∀ a, (decode_scope, BAttentionMechanism a) ∈ built_log r →
        (decoding config = "greedy" → am_tiles a = Some 1) ∧
        (decoding config = "beam_search" → am_tiles a = Some (beam_size config))) ∧
  ((∀ e, snd r = Raise e → is_configuration_error e = false) →
   (∃ a, (train_scope, BAttentionMechanism a) ∈ built_log r) ∧
   (∃ a, (decode_scope, BAttentionMechanism a) ∈ built_log r)).
Proof.
  intros r. subst r. unfold built_log.
  destruct (call_trace ws (__init__ config n_tok id_end) img formula dropout
              training scopes store)
    as (_ & _ & _ & E & S & d & dim_e & nu & params & H).
  destruct (run_call _ _ _ _ _ _ _ _) as [st' r]. simpl in *.
  assert (∀ a, am_tiles a = Some (_tiles (__init__ config n_tok id_end)) →
               (decoding config = "greedy" → am_tiles a = Some 1) ∧
               (decoding config = "beam_search" →
                am_tiles a = Some (beam_size config))) as Ht.
  { intros a ->. rewrite tiles_init. split; by intros ->. }
  destruct H as [(e & -> & He & Hlog)|(_ & _ & _ & _ & _ & _ & Hlog & Hr)].
  - split_and!.
    + intros a Ha.
      destruct Hlog as [Hl|(_ & [Hl|(_ & Hl)])]; rewrite Hl in Ha; in_log Ha;
        by injection Ha as ->.
    + intros a Ha.
      destruct Hlog as [Hl|(_ & [Hl|(_ & Hl)])]; rewrite Hl in Ha; in_log Ha.
    + intros Hne. by rewrite (Hne e eq_refl) in He.
  - rewrite Hlog. split_and!.
    + intros a Ha. unfold decoding_end, beam_log in Ha.
      repeat case_match; simpl in Ha; in_log Ha; by injection Ha as ->.
    + intros a Ha. apply Ht. unfold decoding_end, beam_log in Ha.
      repeat case_match; simpl in Ha; in_log Ha; by injection Ha as ->.
    + intros _. split; eexists; find_in_log.
Qed.

Lemma attention_mechanism_tiles_witness :
  let r := sample_call "beam_search" "lstm" false in
  (∃ a, (train_scope, BAttentionMechanism a) ∈ built_log r ∧ am_tiles a = None) ∧
  (∃ a, (decode_scope, BAttentionMechanism a) ∈ built_log r ∧
        am_tiles a = Some 5).
Proof.
  destruct (attention_mechanism_tiles sample_weights
              (sample_config "beam_search" "lstm" false) 500 499
              (Placeholder "training") (Placeholder "img")
              (Placeholder "formula") (Placeholder "dropout") [] ∅)
    as (H1 & H2 & H3).
  destruct H3 as [(a1 & Ha1) (a2 & Ha2)].
  { intros e He. vm_compute in He. discriminate He. }
  split.
  - exists a1. split; [exact Ha1|exact (H1 a1 Ha1)].
  - exists a2. split; [exact Ha2|]. apply (H2 a2 Ha2). reflexivity.
Defined.

(** Destructing the description of a call. *)
Ltac trace_call ws config n_tok id_end training img formula dropout scopes store :=
  let E := fresh "E" in
  let S := fresh "S" in
  let d := fresh "d" in
  let dim_e := fresh "dim_e" in
  let nu := fresh "nu" in
  let params := fresh "params" in
  let st' := fresh "st'" in
  let r := fresh "r" in
  let H := fresh "Htrace" in
  let Hsc := fresh "Hsc" in
  let Hsub := fresh "Hsub" in
  let Hdom := fresh "Hdom" in
  unfold built_log;
  destruct (call_trace ws (__init__ config n_tok id_end) img formula dropout
              training scopes store)
    as (Hsc & Hsub & Hdom & E & S & d & dim_e & nu & params & H);
  destruct (run_call ws (__init__ config n_tok id_end) training img formula
              dropout scopes store) as [st' r];
  cbn [fst snd] in *.

(** The three shapes of a log that stops in the training block. *)
Ltac early_cases Hlog :=
  let Hl := fresh "Hl" in
  destruct Hlog as [Hl|(? & [Hl|(? & Hl)])]; rewrite Hl in *.

(** C1. With [decoding = "greedy"] the call does not build a
    [GreedyDecoderCell] and produces no "pred" output: it never returns.
    Line 77 passes the name [id_end], which is bound nowhere, where the
    beam-search branch passes [self._id_end]; once both attention cells are
    built the call raises [NameError] for it. *)
Theorem greedy_call_raises
    ws config n_tok id_end training img formula dropout scopes store :
  decoding config = "greedy" →
  let r := run_call ws (__init__ config n_tok id_end)
             training img formula dropout scopes store in
  (∃ e, snd r = Raise e ∧
        (e = NameError "id_end" ∨ is_configuration_error e = true)) ∧
  decoder_cells (built_log r) = [] ∧
  ((∃ c, (decode_scope, BAttentionCell c) ∈ built_log r) →
   snd r = Raise (NameError "id_end")).
Proof.
  intros Hmode r. subst r.
  trace_call ws config n_tok id_end training img formula dropout scopes store.
  destruct Htrace as [(e & -> & He & Hlog)|(_ & _ & _ & _ & _ & _ & Hlog & Hr)].
  - split_and!; [by eauto| |].
    + by early_cases Hlog.
    + intros [c Hc]. early_cases Hlog; in_log Hc.
  - unfold decoding_end in Hlog, Hr. cbn [_config __init__] in Hlog, Hr.
    rewrite Hmode in Hlog, Hr. cbn in Hr. rewrite Hlog, Hr.
    split_and!; [by eauto|reflexivity|done].
Qed.

Lemma greedy_call_raises_witness :
  snd (sample_call "greedy" "lstm" false) = Raise (NameError "id_end") ∧
  decoder_cells (built_log (sample_call "greedy" "lstm" false)) = [].
Proof.
  destruct (greedy_call_raises sample_weights
              (sample_config "greedy" "lstm" false) 500 499
              (Placeholder "training") (Placeholder "img")
              (Placeholder "formula") (Placeholder "dropout") [] ∅ eq_refl)
    as (_ & H2 & H3).
  split; [|exact H2]. apply H3.
  exists (decode_cell (__init__ (sample_config "greedy" "lstm" false) 500 499)
            (Placeholder "img") (Placeholder "dropout") (VInt 512) (VInt 512)
            (declared_variable "attn_cell/" <$> sample_weights)).
  vm_compute. find_in_log.
Defined.

(** C2, as the code has it.  With a decoding mode that is neither "greedy"
    nor "beam_search" the call fails while the graph is constructed: it never
    returns and builds no decoder cell.  No check of the option is made:
    unless the configuration is rejected earlier, the training graph and the
    decode attention cell are built first, and the call then raises
    [UnboundLocalError] for [decoder_cell] at line 89. *)
Theorem unknown_mode_call_raises
    ws config n_tok id_end training img formula dropout scopes store :
  decoding config ≠ "greedy" →
  decoding config ≠ "beam_search" →
  let r := run_call ws (__init__ config n_tok id_end)
             training img formula dropout scopes store in
  (∃ e, snd r = Raise e ∧
        (e = UnboundLocalError "decoder_cell" ∨ is_configuration_error e = true)) ∧
  decoder_cells (built_log r) = [] ∧
  ((∃ c, (decode_scope, BAttentionCell c) ∈ built_log r) →
   snd r = Raise (UnboundLocalError "decoder_cell") ∧
   ∃ o, (train_scope, BUnroll o) ∈ built_log r).
Proof.
  intros Hg Hb r. subst r.
  apply String.eqb_neq in Hg, Hb.
  trace_call ws config n_tok id_end training img formula dropout scopes store.
  destruct Htrace as [(e & -> & He & Hlog)|(_ & _ & _ & _ & _ & _ & Hlog & Hr)].
  - split_and!; [by eauto| |].
    + by early_cases Hlog.
    + intros [c Hc]. early_cases Hlog; in_log Hc.
  - unfold decoding_end in Hlog, Hr. cbn [_config __init__] in Hlog, Hr.
    rewrite Hg, Hb in Hlog, Hr. cbn in Hr. rewrite Hlog, Hr.
    split_and!; [by eauto|reflexivity|].
    intros _. split; [done|]. eexists. find_in_log.
Qed.

Lemma unknown_mode_call_raises_witness :
  snd (sample_call "sampling" "lstm" false)
  = Raise (UnboundLocalError "decoder_cell") ∧
  decoder_cells (built_log (sample_call "sampling" "lstm" false)) = [].
Proof.
  destruct (unknown_mode_call_raises sample_weights
              (sample_config "sampling" "lstm" false) 500 499
              (Placeholder "training") (Placeholder "img")
              (Placeholder "formula") (Placeholder "dropout") [] ∅)
    as (_ & H2 & H3); [discriminate|discriminate|].
  split; [|exact H2]. apply H3.
  exists (decode_cell (__init__ (sample_config "sampling" "lstm" false) 500 499)
            (Placeholder "img") (Placeholder "dropout") (VInt 512) (VInt 512)
            (declared_variable "attn_cell/" <$> sample_weights)).
  vm_compute. find_in_log.
Defined.

(** C2, as stated, fails: on the sample configuration with
    [decoding = "sampling"] the error raised is not an error about the
    configuration but Python's [UnboundLocalError], and it is raised only
    after the training graph has been built. *)
Lemma unknown_mode_no_configuration_error :
  ¬ (∃ e, snd (sample_call "sampling" "lstm" false) = Raise e ∧
          is_configuration_error e = true).
Proof.
  intros (e & He & Hc). vm_compute in He. injection He as <-. discriminate Hc.
Qed.

(** * The base recurrent cell *)

(** C3, as the code has it.  Whatever [attn_cell_config] holds, every base
    recurrent cell a call builds, and the base cell of every attention cell,
    is an [LSTMCell] whose size is the "num_units" entry.  [GRUCell] is
    imported but never instantiated, and no entry selects the cell type. *)
Theorem recurrent_cell_is_lstm
    ws config n_tok id_end training img formula dropout scopes store :
  let r := run_call ws (__init__ config n_tok id_end)
             training img formula dropout scopes store in
  (∀ c, c ∈ recu_cells (built_log r) →
        ∃ nu reuse, c = LSTMCell nu reuse ∧
                    attn_cell_config config !! "num_units" = Some nu) ∧
  (∀ sc c, (sc, BAttentionCell c) ∈ built_log r →
        ∃ nu reuse, ac_cell c = LSTMCell nu reuse ∧
                    attn_cell_config config !! "num_units" = Some nu).
Proof.
  intros r. subst r.
  trace_call ws config n_tok id_end training img formula dropout scopes store.
  destruct Htrace as [(e & -> & He & Hlog)|(_ & _ & Hnu & _ & _ & _ & Hlog & Hr)].
  - split.
    + intros c Hc. early_cases Hlog; cbn in Hc; in_log Hc. subst c. by eauto.
    + intros sc c Hc. early_cases Hlog; in_log Hc.
  - rewrite Hlog. cbn [_config __init__] in Hnu. split.
    + intros c Hc. unfold decoding_end, beam_log in Hc.
      repeat case_match; cbn in Hc; in_log Hc; subst c; by eauto.
    + intros sc c Hc. unfold decoding_end, beam_log in Hc.
      repeat case_match; cbn in Hc; in_log Hc; injection Hc as _ ->;
        by eauto.
Qed.

Lemma recurrent_cell_is_lstm_witness :
  ∃ nu reuse,
    LSTMCell (VInt 512) (Some true) = LSTMCell nu reuse ∧
    sample_attn_cell_config "gru" !! "num_units" = Some nu.
Proof.
  destruct (recurrent_cell_is_lstm sample_weights
              (sample_config "beam_search" "gru" false) 500 499
              (Placeholder "training") (Placeholder "img")
              (Placeholder "formula") (Placeholder "dropout") [] ∅)
    as (H1 & _).
  apply H1. vm_compute. find_in_log.
Defined.

(** C3, as stated, fails: with a cell-type entry that asks for a GRU the
    two base cells built are LSTM cells, and no GRU cell is built. *)
Lemma gru_entry_builds_lstm :
  attn_cell_config (sample_config "beam_search" "gru" false) !! "cell_type"
  = Some (VStr "gru") ∧
  recu_cells (built_log (sample_call "beam_search" "gru" false))
  = [LSTMCell (VInt 512) None; LSTMCell (VInt 512) (Some true)] ∧
  ¬ (∃ nu reuse,
       GRUCell nu reuse ∈ recu_cells (built_log (sample_call "beam_search" "gru" false))).
Proof.
  assert (recu_cells (built_log (sample_call "beam_search" "gru" false))
          = [LSTMCell (VInt 512) None; LSTMCell (VInt 512) (Some true)]) as Hc
    by (vm_compute; reflexivity).
  split_and!; [by vm_compute|exact Hc|].
  intros (nu & reuse & H). rewrite Hc in H. in_log H.
Qed.

(** * The entries of [decoder_output] *)

(** What a call returns, when it returns: the mode is "beam_search" and the
    mapping is the one described by [beam_output]. *)
Lemma call_returns ws config n_tok id_end training img formula dropout scopes store out :
  snd (run_call ws (__init__ config n_tok id_end)
         training img formula dropout scopes store) = Return out →
  decoding config = "beam_search" ∧
  ∃ E S d dim_e nu params,
    out = beam_output (__init__ config n_tok id_end) img formula dropout
            E S d dim_e nu params.
Proof.
  trace_call ws config n_tok id_end training img formula dropout scopes store.
  destruct Htrace as [(e & -> & He & Hlog)|(_ & _ & _ & _ & _ & _ & Hlog & Hr)];
    [done|].
  intros ->. unfold decoding_end in Hr. cbn [_config __init__] in Hr.
  destruct (String.eqb (decoding config) "greedy"); [done|].
  destruct (String.eqb (decoding config) "beam_search") eqn:Hb; [|done].
  apply String.eqb_eq in Hb. split; [done|].
  exists E, S, d, dim_e, nu, params. cbn in Hr. by injection Hr as ->.
Qed.

(** C9. A returned [decoder_output] has a "bso" entry exactly when decoding
    is "beam_search" and [beam_search_optimization] is set.  With "greedy"
    the flag is not read: the call does the same for both values of the flag
    and builds neither a BSO cell nor a BSO output. *)
Theorem bso_entry_iff
    ws config n_tok id_end training img formula dropout scopes store :
  let r := run_call ws (__init__ config n_tok id_end)
             training img formula dropout scopes store in
  (∀ out, snd r = Return out →
     (is_Some (out !! "bso") ↔
      decoding config = "beam_search" ∧ beam_search_optimization config = true)) ∧
  (decoding config = "greedy" →
     (∀ b, run_call ws (__init__ (set_bso b config) n_tok id_end)
             training img formula dropout scopes store = r) ∧
     (∀ sc b, (sc, BBSOCell b) ∉ built_log r) ∧
     (∀ sc o, (sc, BUnroll o) ∈ built_log r → is_bso_output o = false)).
Proof.
  intros r. subst r. split.
  - intros out Hout. apply call_returns in Hout
      as (Hmode & E & S & d & dim_e & nu & params & ->).
    unfold beam_output. cbn [_config __init__].
    destruct (beam_search_optimization config).
    + rewrite lookup_insert_ne, lookup_insert_eq by done. by eauto.
    + rewrite !lookup_insert_ne, lookup_empty by done.
      split; [by intros [? ?]|by intros [_ ?]].
  - intros Hmode. split_and!.
    + intros b. destruct config as [mode bs dg dp mlf bso acc].
      cbn in Hmode. subst mode. reflexivity.
    + intros sc b Hb. revert Hb.
      trace_call ws config n_tok id_end training img formula dropout scopes store.
      destruct Htrace as [(e & -> & He & Hlog)|(_ & _ & _ & _ & _ & _ & Hlog & Hr)].
      * intros Hb. early_cases Hlog; in_log Hb.
      * unfold decoding_end in Hlog. cbn [_config __init__] in Hlog.
        rewrite Hmode in Hlog. cbn in Hlog. rewrite Hlog. intros Hb. in_log Hb.
    + intros sc o. 
      trace_call ws config n_tok id_end training img formula dropout scopes store.
      destruct Htrace as [(e & -> & He & Hlog)|(_ & _ & _ & _ & _ & _ & Hlog & Hr)].
      * intros Hb. early_cases Hlog; in_log Hb.
      * unfold decoding_end in Hlog. cbn [_config __init__] in Hlog.
        rewrite Hmode in Hlog. cbn in Hlog. rewrite Hlog. intros Hb. in_log Hb.
        by injection Hb as _ ->.
Qed.

Lemma bso_entry_iff_witness :
  (∃ out, snd (sample_call "beam_search" "lstm" true) = Return out ∧
          is_Some (out !! "bso")) ∧
  sample_call "greedy" "lstm" true = sample_call "greedy" "lstm" false.
Proof.
  split.
  - destruct (bso_entry_iff sample_weights
                (sample_config "beam_search" "lstm" true) 500 499
                (Placeholder "training") (Placeholder "img")
                (Placeholder "formula") (Placeholder "dropout") [] ∅)
      as (H1 & _).
    unfold sample_call.
    destruct (snd (run_call _ _ _ _ _ _ _ _)) as [out|e] eqn:Hr;
      [|vm_compute in Hr; discriminate Hr].
    exists out. split; [reflexivity|]. apply (H1 out eq_refl).
    split; reflexivity.
  - destruct (bso_entry_iff sample_weights
                (sample_config "greedy" "lstm" false) 500 499
                (Placeholder "training") (Placeholder "img")
                (Placeholder "formula") (Placeholder "dropout") [] ∅)
      as (_ & H2).
    destruct (H2 eq_refl) as (H & _). exact (H true).
Defined.




(** * Parameter sharing between the two attention cells *)

(** C4. The attention cell built for the training unroll and the one built
    for the decode unroll read their weights from the same variables: the
    decode cell obtains, under [reuse=True], the variables the training cell
    created, the store holds one variable per declared weight, and the
    decoding block adds none.  The two cells have the same configuration, so
    they have the same step function.  The embedding table and the start
    token given to the decoder cell are the variables the training inputs are
    computed from. *)
Theorem attention_cells_share_parameters
    ws config n_tok id_end training img formula dropout scopes store :
  let r := run_call ws (__init__ config n_tok id_end)
             training img formula dropout scopes store in
  let p := scope_prefix scopes in
  ∀ c1 c2,
    (train_scope, BAttentionCell c1) ∈ built_log r →
    (decode_scope, BAttentionCell c2) ∈ built_log r →
    ac_params c1 = ac_params c2 ∧
    Forall2 (declared (st_store (fst r)) (p +:+ "attn_cell" +:+ "/")) ws
      (ac_params c2) ∧
    dom (st_store (fst r)) ⊆
      dom store ∪ {[ p +:+ "E"; p +:+ "start_token" ]}
      ∪ scoped_names (p +:+ "attn_cell" +:+ "/") ws ∧
    (∀ sem, step_function sem c1 = step_function sem c2) ∧
    ∃ E start_token d,
      st_store (fst r) !! (p +:+ "E") = Some E ∧
      st_store (fst r) !! (p +:+ "start_token") = Some start_token ∧
      (train_scope,
       BUnroll (TrainOutputs c1
                  (GetItem (embeddings_node img formula E start_token d)
                     [SliceAll; SliceTo (-1); SliceAll]))) ∈ built_log r ∧
      (∀ dc, dc ∈ decoder_cells (built_log r) →
             decoder_cell_embeddings dc = (TVar E, TVar start_token) ∧
             decoder_cell_attn dc = c2).
Proof.
  intros r p c1 c2. subst r p.
  trace_call ws config n_tok id_end training img formula dropout scopes store.
  destruct Htrace
    as [(e & -> & He & Hlog)|(_ & _ & _ & HE & HS & Hdecl & Hlog & Hr)].
  { intros H1 H2. early_cases Hlog; in_log H2. }
  rewrite Hlog. intros H1 H2.
  assert (c1 = train_cell (__init__ config n_tok id_end) img dropout dim_e nu params
          ∧ c2 = decode_cell (__init__ config n_tok id_end) img dropout dim_e nu params)
    as [-> ->].
  { unfold decoding_end, beam_log in H1, H2.
    repeat case_match; cbn in H1, H2; in_log H1; in_log H2;
      injection H1 as ->; injection H2 as ->; done. }
  split_and!; [reflexivity|exact Hdecl|exact Hdom|reflexivity|].
  exists E, S, d. split_and!; [exact HE|exact HS|find_in_log|].
  intros dc Hdc. unfold decoding_end, beam_log in Hdc.
  repeat case_match; cbn in Hdc; in_log Hdc; by subst dc.
Qed.

Lemma attention_cells_share_parameters_witness :
  ∃ c1 c2,
    (train_scope, BAttentionCell c1) ∈ built_log (sample_call "beam_search" "lstm" true) ∧
    (decode_scope, BAttentionCell c2) ∈ built_log (sample_call "beam_search" "lstm" true) ∧
    ac_params c1 = ac_params c2 ∧
    length (ac_params c2) = 7%nat ∧
    ∀ sem, step_function sem c1 = step_function sem c2.
Proof.
  set (self := __init__ (sample_config "beam_search" "lstm" true) 500 499).
  set (params := declared_variable "attn_cell/" <$> sample_weights).
  exists (train_cell self (Placeholder "img") (Placeholder "dropout")
            (VInt 512) (VInt 512) params),
         (decode_cell self (Placeholder "img") (Placeholder "dropout")
            (VInt 512) (VInt 512) params).
  assert ((train_scope,
           BAttentionCell (train_cell self (Placeholder "img")
              (Placeholder "dropout") (VInt 512) (VInt 512) params))
          ∈ built_log (sample_call "beam_search" "lstm" true)) as H1
    by (vm_compute; find_in_log).
  assert ((decode_scope,
           BAttentionCell (decode_cell self (Placeholder "img")
              (Placeholder "dropout") (VInt 512) (VInt 512) params))
          ∈ built_log (sample_call "beam_search" "lstm" true)) as H2
    by (vm_compute; find_in_log).
  destruct (attention_cells_share_parameters sample_weights
              (sample_config "beam_search" "lstm" true) 500 499
              (Placeholder "training") (Placeholder "img")
              (Placeholder "formula") (Placeholder "dropout") [] ∅ _ _ H1 H2)
    as (Hp & _ & _ & Hs & _).
  split_and!; [exact H1|exact H2|exact Hp|reflexivity|exact Hs].
Defined.

(** * The decode unroll *)

Lemma decode_loop_length cell remaining time state inputs finished :
  (length (decode_loop cell remaining time state inputs finished) ≤ remaining)%nat.
Proof.
  revert time state inputs finished.
  induction remaining as [|k IH]; intros time state inputs finished; simpl.
  - lia.
  - destruct (forallb (λ done, done) finished); simpl; [lia|].
    destruct (d_step cell time state inputs finished) as [[[o s] i] f].
    simpl. specialize (IH (S time) s i f). lia.
Qed.

(** A cell that never sets every done flag is stopped by the cap alone. *)
Lemma decode_loop_runs_to_cap cell remaining time state inputs finished :
  forallb (λ done, done) finished = false →
  (∀ t s i f, forallb (λ done, done) (snd (d_step cell t s i f)) = false) →
  length (decode_loop cell remaining time state inputs finished) = remaining.
Proof.
  intros Hf Hstep. revert time state inputs finished Hf.
  induction remaining as [|k IH]; intros time state inputs finished Hf; simpl.
  - reflexivity.
  - rewrite Hf. pose proof (Hstep time state inputs finished) as Hn.
    destruct (d_step cell time state inputs finished) as [[[o s] i] f].
    simpl in *. by rewrite IH.
Qed.

(** C5. The decode output of a call is the unroll of its decoder cell by
    [dynamic_decode] with the cap [max_length_formula + 1]; whatever the
    cell does, and also when no sample ever finishes, the unroll applies the
    cell at most that many times and so yields at most that many outputs. *)
Theorem decode_length_bounded
    ws config n_tok id_end training img formula dropout scopes store out :
  snd (run_call ws (__init__ config n_tok id_end)
         training img formula dropout scopes store) = Return out →
  ∃ cell,
    out !! "pred" = Some (PredOutputs cell (max_length_formula config + 1)) ∧
    ∀ sem : DecoderCell → DecoderStep,
      let outputs := dynamic_decode (sem cell) (max_length_formula config + 1) in
      (length outputs ≤ Z.to_nat (max_length_formula config + 1))%nat ∧
      (0 ≤ max_length_formula config + 1 →
       Z.of_nat (length outputs) ≤ max_length_formula config + 1).
Proof.
  intros Hout.
  apply call_returns in Hout as (_ & E & S & d & dim_e & nu & params & ->).
  eexists. split.
  - unfold beam_output. by rewrite lookup_insert_eq.
  - intros sem outputs. cbn [_config __init__] in outputs.
    assert (length outputs ≤ Z.to_nat (max_length_formula config + 1))%nat as H.
    { subst outputs. unfold dynamic_decode.
      destruct (d_initialize _) as [[s i] f]. apply decode_loop_length. }
    split; [exact H|]. lia.
Qed.

Lemma decode_length_bounded_witness :
  ∃ out cell,
    snd (sample_call "beam_search" "lstm" false) = Return out ∧
    out !! "pred" = Some (PredOutputs cell 151) ∧
    (length (dynamic_decode endless_cell 151) ≤ 151)%nat.
Proof.
  unfold sample_call.
  destruct (snd (run_call _ _ _ _ _ _ _ _)) as [out|e] eqn:Hr;
    [|vm_compute in Hr; discriminate Hr].
  destruct (decode_length_bounded sample_weights
              (sample_config "beam_search" "lstm" false) 500 499
              (Placeholder "training") (Placeholder "img")
              (Placeholder "formula") (Placeholder "dropout") [] ∅ out Hr)
    as (cell & Hpred & Hlen).
  exists out, cell. split_and!; [reflexivity|exact Hpred|].
  exact (proj1 (Hlen (λ _, endless_cell))).
Defined.

(** * The training inputs *)

(** One step of the evaluator on each kind of node. *)
Section EvalEquations.

Context {F : Type} (feed : Feed F).

Lemma eval_Shape0 t :
  eval feed (Shape0 t) =
  v ← eval feed t;
  match value_shape v with n :: _ => Some (Scalar n) | [] => None end.
Proof. reflexivity. Qed.

Lemma eval_EmbeddingLookup params ids p i :
  eval feed params = Some p → eval feed ids = Some i →
  eval feed (EmbeddingLookup params ids) = embedding_lookup p i.
Proof. intros Hp Hi. cbn [eval]. by rewrite Hp, Hi. Qed.

Lemma eval_Reshape t shape v :
  eval feed t = Some v → eval feed (Reshape t shape) = reshape v shape.
Proof. intros Ht. cbn [eval]. by rewrite Ht. Qed.

Lemma eval_Tile t m0 m1 m2 v :
  eval feed t = Some v →
  eval feed (Tile t [m0; m1; m2])
  = tile v [eval feed m0; eval feed m1; eval feed m2].
Proof. intros Ht. cbn [eval List.map]. by rewrite Ht. Qed.

Lemma eval_Concat a b axis :
  eval feed (Concat [a; b] axis) = concat [eval feed a; eval feed b] axis.
Proof. reflexivity. Qed.

Lemma eval_GetItem t idx v :
  eval feed t = Some v → eval feed (GetItem t idx) = getitem v idx.
Proof. intros Ht. cbn [eval]. by rewrite Ht. Qed.

End EvalEquations.

Section TrainingInputs.

Context {F : Type} (zero : F).

Variables (n t n_tok dim h w c : nat).
Variable ids : nat → nat → Z.                 (* the formula, n x t *)
Variable e : nat → nat → F.                   (* the table, n_tok x dim *)
Variable s : nat → F.                         (* the start token, dim *)
Variable pixels : nat → nat → nat → nat → F.  (* the image, n x h x w x c *)
Variables E start_token : TFVariable.

Hypothesis E_shape : var_shape E = [Z.of_nat n_tok; Z.of_nat dim].
Hypothesis start_token_shape : var_shape start_token = [Z.of_nat dim].
Hypothesis distinct : var_name E ≠ var_name start_token.
Hypothesis ids_valid :
  ∀ b i, (b < n)%nat → (i < t)%nat → 0 ≤ ids b i < Z.of_nat n_tok.

Local Abbreviation feed :=
  (training_feed n t n_tok dim h w c ids e s pixels E start_token).
Local Abbreviation emb := (embeddings dim E start_token).

Lemma get_embeddings_node st :
  get_embeddings (Placeholder "formula") (TVar E) (VInt (Z.of_nat dim))
    (TVar start_token) (Shape0 (Placeholder "img")) st
  = (st, Return emb).
Proof.
  unfold get_embeddings. run. unfold tf_reshape. cbn [int_list fmap option_fmap option_map].
  rewrite start_token_shape.
  replace (num_elements [Z.of_nat dim] =? num_elements [1; 1; Z.of_nat dim])
    with true by (symmetry; apply Z.eqb_eq; unfold num_elements; simpl; lia).
  rewrite andb_false_r. run. reflexivity.
Qed.

Lemma ids_in_range_valid : ids_in_range n_tok n t ids = true.
Proof.
  unfold ids_in_range. apply forallb_forall. intros b Hb.
  apply forallb_forall. intros i Hi.
  apply in_seq in Hb, Hi. specialize (ids_valid b i).
  apply andb_true_intro. split; [apply Z.leb_le|apply Z.ltb_lt]; lia.
Qed.

Lemma eval_E : eval feed (TVar E) = Some (Rank2 n_tok dim e).
Proof.
  cbn [eval training_feed var_values]. rewrite lookup_insert_eq.
  cbn [value_shape]. by rewrite E_shape, bool_decide_eq_true_2.
Qed.

Lemma eval_start_token :
  eval feed (TVar start_token) = Some (Rank1 dim s).
Proof.
  cbn [eval training_feed var_values].
  rewrite lookup_insert_ne, lookup_insert_eq by done.
  cbn [value_shape]. by rewrite start_token_shape, bool_decide_eq_true_2.
Qed.

Lemma eval_formula :
  eval feed (Placeholder "formula") = Some (Ids n t ids).
Proof.
  cbn [eval training_feed feed_dict].
  by rewrite lookup_insert_ne, lookup_insert_eq.
Qed.

Lemma eval_batch_size :
  eval feed (Shape0 (Placeholder "img")) = Some (Scalar (Z.of_nat n)).
Proof.
  rewrite eval_Shape0. cbn [eval training_feed feed_dict].
  by rewrite lookup_insert_eq.
Qed.

Lemma eval_embeddings :
  ∃ x, eval feed emb = Some (Rank3 n (t + 1) dim x) ∧
       (∀ b k, (b < n)%nat → (k < dim)%nat → x b 0%nat k = s k) ∧
       (∀ b i k, (b < n)%nat → (i < t)%nat → (k < dim)%nat →
                 x b (S i) k = e (Z.to_nat (ids b i)) k).
Proof.
  unfold embeddings, embeddings_node. rewrite eval_Concat.
  erewrite eval_Tile; cycle 1.
  { erewrite eval_Reshape; [|apply eval_start_token].
    unfold reshape.
    replace ((0 <=? 1) && (0 <=? 1) && (0 <=? Z.of_nat dim)
             && (1 * 1 * Z.of_nat dim =? Z.of_nat dim)) with true; [reflexivity|].
    symmetry. rewrite !andb_true_iff, !Z.leb_le, Z.eqb_eq. lia. }
  erewrite eval_GetItem; cycle 1.
  { erewrite eval_EmbeddingLookup; [|apply eval_E|apply eval_formula].
    unfold embedding_lookup. by rewrite ids_in_range_valid. }
  rewrite eval_batch_size. cbn [eval tile getitem slice_bounds concat].
  replace ((0 <=? Z.of_nat n) && (0 <=? 1) && (0 <=? 1)) with true
    by (symmetry; rewrite !andb_true_iff, !Z.leb_le; lia).
  rewrite !Nat2Z.id. change (Z.to_nat 1) with 1%nat.
  rewrite Nat.mul_1_r, !Nat.mul_1_l, !Nat.eqb_refl. cbn [andb].
  replace (1 + t)%nat with (t + 1)%nat by lia.
  eexists. split; [reflexivity|]. cbn beta. split.
  - intros b k Hb Hk. cbn [Nat.ltb Nat.leb].
    rewrite !Nat.mod_1_r, Nat.mod_small by done. f_equal; lia.
  - intros b i k Hb Hi Hk. cbn [Nat.ltb Nat.leb Nat.sub Nat.add].
    by rewrite Nat.sub_0_r.
Qed.

Lemma slice_to_last len : slice_bounds (len + 1) (SliceTo (-1)) = (0%nat, len).
Proof. unfold slice_bounds. cbn [Z.ltb Z.compare]. f_equal. lia. Qed.

Lemma rnn_unroll_length {S} (step : (nat → nat → F) → S → (nat → nat → F) * S)
    inputs state :
  length (fst (rnn_unroll step inputs state)) = length inputs.
Proof.
  revert state. induction inputs as [|u us IH]; intros state; simpl; [done|].
  destruct (step u state) as [v state']. specialize (IH state').
  destruct (rnn_unroll step us state') as [rest final]. simpl in *. by rewrite IH.
Qed.

Lemma rnn_unroll_lookup {S} (step : (nat → nat → F) → S → (nat → nat → F) * S)
    inputs state i u :
  inputs !! i = Some u →
  ∃ v, fst (rnn_unroll step inputs state) !! i = Some (u, v).
Proof.
  revert state i. induction inputs as [|u' us IH]; intros state i Hi; [done|].
  simpl. destruct (step u' state) as [v' state'].
  specialize (IH state').
  destruct (rnn_unroll step us state') as [rest final]. simpl in *.
  destruct i as [|i]; simpl in *.
  - injection Hi as ->. by eauto.
  - by apply IH.
Qed.

Lemma time_steps_lookup len (x : nat → nat → nat → F) i :
  (i < len)%nat → time_steps len x !! i = Some (λ b k, x b i k).
Proof.
  intros Hi. unfold time_steps.
  change (List.map ?f ?l) with (f <$> l).
  by rewrite list_lookup_fmap, lookup_seq_lt.
Qed.

Lemma time_steps_length len (x : nat → nat → nat → F) :
  length (time_steps len x) = len.
Proof. unfold time_steps. by rewrite length_map, length_seq. Qed.

End TrainingInputs.

(** ** The training unroll of a call *)

Lemma eval_TVar_shape {F : Type} (feed : Feed F) v val :
  eval feed (TVar v) = Some val → value_shape val = var_shape v.
Proof.
  cbn [eval]. destruct (var_values feed !! var_name v) as [val'|]; [|done].
  case_bool_decide; [|done]. by intros [= <-].
Qed.

(** The embeddings on a feed that gives values to the image, the formula
    and the two variables. *)
Section EmbeddingsValue.

Context {F : Type} (feed : Feed F).

Variables img formula : Tensor.
Variables E start_token : TFVariable.
Variables (n t n_tok dim h w c : nat).
Variable ids : nat → nat → Z.
Variable e : nat → nat → F.
Variable s : nat → F.
Variable pixels : nat → nat → nat → nat → F.

Hypothesis img_value : eval feed img = Some (Rank4 n h w c pixels).
Hypothesis formula_value : eval feed formula = Some (Ids n t ids).
Hypothesis E_value : eval feed (TVar E) = Some (Rank2 n_tok dim e).
Hypothesis start_token_value :
  eval feed (TVar start_token) = Some (Rank1 dim s).
Hypothesis ids_valid :
  ∀ b i, (b < n)%nat → (i < t)%nat → 0 ≤ ids b i < Z.of_nat n_tok.

Lemma eval_embeddings_node :
  ∃ x, eval feed (embeddings_node img formula E start_token (Z.of_nat dim))
       = Some (Rank3 n (t + 1) dim x) ∧
       (∀ b k, (b < n)%nat → (k < dim)%nat → x b 0%nat k = s k) ∧
       (∀ b i k, (b < n)%nat → (i < t)%nat → (k < dim)%nat →
                 x b (S i) k = e (Z.to_nat (ids b i)) k).
Proof.
  unfold embeddings_node. rewrite eval_Concat.
  erewrite eval_Tile; cycle 1.
  { erewrite eval_Reshape; [|exact start_token_value].
    unfold reshape.
    replace ((0 <=? 1) && (0 <=? 1) && (0 <=? Z.of_nat dim)
             && (1 * 1 * Z.of_nat dim =? Z.of_nat dim)) with true; [reflexivity|].
    symmetry. rewrite !andb_true_iff, !Z.leb_le, Z.eqb_eq. lia. }
  erewrite eval_GetItem; cycle 1.
  { erewrite eval_EmbeddingLookup; [|exact E_value|exact formula_value].
    unfold embedding_lookup.
    by rewrite (ids_in_range_valid n t n_tok ids ids_valid). }
  rewrite eval_Shape0, img_value.
  cbn [mbind option_bind value_shape eval tile getitem slice_bounds concat].
  replace ((0 <=? Z.of_nat n) && (0 <=? 1) && (0 <=? 1)) with true
    by (symmetry; rewrite !andb_true_iff, !Z.leb_le; lia).
  rewrite !Nat2Z.id. change (Z.to_nat 1) with 1%nat.
  rewrite Nat.mul_1_r, !Nat.mul_1_l, !Nat.eqb_refl. cbn [andb].
  replace (1 + t)%nat with (t + 1)%nat by lia.
  eexists. split; [reflexivity|]. cbn beta. split.
  - intros b k Hb Hk. cbn [Nat.ltb Nat.leb].
    rewrite !Nat.mod_1_r, Nat.mod_small by done. f_equal; lia.
  - intros b i k Hb Hi Hk. cbn [Nat.ltb Nat.leb Nat.sub Nat.add].
    by rewrite Nat.sub_0_r.
Qed.

End EmbeddingsValue.

(** [tf.nn.dynamic_rnn] over at least one time step: one application of
    the cell per step, in order, and the outputs stacked. *)
Lemma dynamic_rnn_steps {F : Type} (zero : F) (sem : CellSemantics F)
    (cell : AttentionCell) n t d (x : nat → nat → nat → F) :
  (0 < t)%nat →
  ∃ calls y,
    tf_nn_dynamic_rnn zero sem cell (Rank3 n t d x)
    = Some (calls, Rank3 n t (output_size cell) y) ∧
    length calls = t ∧
    (∀ i, (i < t)%nat →
       ∃ u v, calls !! i = Some (u, v) ∧
              (∀ b k, u b k = x b i k) ∧
              (∀ b k, y b i k = v b k)).
Proof.
  intros Ht. unfold tf_nn_dynamic_rnn.
  replace (t =? 0)%nat with false by (symmetry; apply Nat.eqb_neq; lia).
  set (inputs := time_steps t x).
  pose proof (rnn_unroll_length (c_call sem cell n d) inputs
                (c_initial_state sem cell)) as Hlen.
  assert (∀ i, (i < t)%nat →
            ∃ v, fst (rnn_unroll (c_call sem cell n d) inputs
                        (c_initial_state sem cell)) !! i
                 = Some (λ b k, x b i k, v)) as Hcalls.
  { intros i Hi. apply rnn_unroll_lookup. subst inputs.
    by rewrite time_steps_lookup. }
  destruct (rnn_unroll _ inputs _) as [calls final]. cbn [fst] in *.
  eexists calls, _. split; [reflexivity|].
  split; [by rewrite Hlen; apply time_steps_length|].
  intros i Hi. destruct (Hcalls i Hi) as [v Hv].
  exists (λ b k, x b i k), v. split_and!; [done|done|].
  intros b k. cbn beta. by rewrite (nth_lookup_Some _ _ _ _ Hv).
Qed.


Lemma sample_ids_valid n_tok b i :
  (3 ≤ n_tok)%nat → 0 ≤ sample_ids b i < Z.of_nat n_tok.
Proof. intros Hn. unfold sample_ids. destruct i; lia. Qed.

Lemma sample_call_feed_values t :
  eval (sample_call_feed t) (Placeholder "img")
  = Some (Rank4 1 1 1 1 (λ _ _ _ _, 0)) ∧
  eval (sample_call_feed t) (Placeholder "formula") = Some (Ids 1 t sample_ids) ∧
  eval (sample_call_feed t) (TVar sample_call_E)
  = Some (Rank2 500 80 sample_table) ∧
  eval (sample_call_feed t) (TVar sample_call_start_token)
  = Some (Rank1 80 sample_start).
Proof.
  assert (var_name sample_call_E ≠ var_name sample_call_start_token) as Hne
    by discriminate.
  unfold sample_call_feed. split_and!.
  - cbn [eval training_feed feed_dict]. by rewrite lookup_insert_eq.
  - by apply eval_formula.
  - by apply eval_E.
  - by apply eval_start_token.
Qed.

Lemma sample_call_variables :
  st_store (fst (sample_call "beam_search" "lstm" false)) !! "E"
  = Some sample_call_E ∧
  st_store (fst (sample_call "beam_search" "lstm" false)) !! "start_token"
  = Some sample_call_start_token.
Proof. split; vm_compute; reflexivity. Qed.



(** * The initial embeddings *)

Section UnitNorm.

Local Open Scope R_scope.

Lemma sum_squares_nonneg x : 0 <= sum_squares x.
Proof. induction x as [|xi x IH]; simpl; nra. Qed.

Lemma sum_squares_scaled k x :
  sum_squares (List.map (λ xi, xi * k) x) = k * k * sum_squares x.
Proof. induction x as [|xi x IH]; simpl; [lra|]. rewrite IH. ring. Qed.

Lemma l2_epsilon_pos : 0 < l2_epsilon.
Proof. unfold l2_epsilon. apply Rinv_0_lt_compat. apply pow_lt. lra. Qed.

Lemma last_axis_initializer E :
  last_axis (embedding_initializer E) = List.map l2_normalize (last_axis E).
Proof. by destruct E. Qed.

(** In the arithmetic of the real numbers the nodes of [_initializer]
    compute [embedding_initializer] of the draw. *)
Lemma initial_value_initializer shape draw :
  initial_value (_initializer shape) draw = Some (embedding_initializer draw).
Proof. reflexivity. Qed.

Lemma square_le_sum_squares xi x : xi ∈ x → xi * xi <= sum_squares x.
Proof.
  induction x as [|y x IH]; intros Hin; [by apply elem_of_nil in Hin|].
  cbn [sum_squares fold_right]. fold (sum_squares x).
  pose proof (sum_squares_nonneg x).
  apply elem_of_cons in Hin as [->|Hin]; [nra|].
  specialize (IH Hin). nra.
Qed.

End UnitNorm.

(** ** Arithmetic that rounds *)

Lemma terms_not_nil t : terms t ≠ [].
Proof.
  induction t as [x|l IHl r IHr]; cbn [terms]; [done|].
  intros H. apply app_eq_nil in H as [H _]. by apply IHl.
Qed.

Lemma terms_sequential x : x ≠ [] → terms (sequential x) = x.
Proof.
  induction x as [|a x IH]; [done|]. intros _.
  destruct x as [|b x]; [reflexivity|].
  change (terms (sequential (a :: b :: x)))
    with (a :: terms (sequential (b :: x))).
  by rewrite IH.
Qed.

Section RoundedNorm.

Local Open Scope R_scope.

Variable rnd : R → R.
Variable u : R.
Variable rsqrt32 : R → R.
Variable ur : R.
Variable epsilon32 : R.
Variable order : list R → Reduction.

Hypothesis u_range : 0 <= u < 1.
Hypothesis rnd_error : ∀ x, Rabs (rnd x - x) <= u * Rabs x.
Hypothesis ur_range : 0 <= ur < 1.
Hypothesis rsqrt_error :
  ∀ m, 0 < m → Rabs (rsqrt32 m - / sqrt m) <= ur * / sqrt m.
Hypothesis epsilon_pos : 0 < epsilon32.
Hypothesis order_terms : ∀ x, x ≠ [] → Permutation (terms (order x)) x.

Local Abbreviation total l := (fold_right Rplus 0 l).

Lemma rnd_zero : rnd 0 = 0.
Proof.
  pose proof (rnd_error 0) as H. rewrite Rabs_R0, Rmult_0_r, Rminus_0_r in H.
  unfold Rabs in H. destruct (Rcase_abs (rnd 0)); lra.
Qed.

Lemma rnd_nonneg x : 0 <= x → (1 - u) * x <= rnd x <= (1 + u) * x.
Proof.
  intros Hx. pose proof (rnd_error x) as H.
  rewrite (Rabs_right x) in H by lra.
  unfold Rabs in H. destruct (Rcase_abs (rnd x - x)); lra.
Qed.

Lemma rnd_square z :
  (1 - u) ^ 2 * (z * z) <= rnd z * rnd z <= (1 + u) ^ 2 * (z * z).
Proof.
  pose proof (rnd_error z) as H.
  destruct (Rle_or_lt 0 z) as [Hz|Hz].
  - rewrite (Rabs_right z) in H by lra.
    assert ((1 - u) * z <= rnd z <= (1 + u) * z) as [Hlo Hhi]
      by (unfold Rabs in H; destruct (Rcase_abs (rnd z - z)); lra).
    assert (0 <= (1 - u) * z) as H0 by nra.
    split; nra.
  - rewrite (Rabs_left z) in H by lra.
    assert ((1 + u) * z <= rnd z <= (1 - u) * z) as [Hlo Hhi]
      by (unfold Rabs in H; destruct (Rcase_abs (rnd z - z)); lra).
    assert ((1 - u) * z <= 0) as H0 by nra.
    split; nra.
Qed.

Lemma pow_antitone x m n :
  0 <= x <= 1 → (m ≤ n)%nat → x ^ n <= x ^ m.
Proof.
  intros Hx Hmn. replace n with (m + (n - m))%nat by lia.
  rewrite pow_add.
  assert (0 <= x ^ m) by (apply pow_le; lra).
  assert (x ^ (n - m) <= 1) as H1.
  { rewrite <- (pow1 (n - m)). apply pow_incr. lra. }
  nra.
Qed.

Lemma total_app l1 l2 : total (l1 ++ l2) = total l1 + total l2.
Proof. induction l1 as [|a l1 IH]; simpl; [lra|]. rewrite IH. lra. Qed.

Lemma total_nonneg l : Forall (Rle 0) l → 0 <= total l.
Proof. induction 1 as [|a l Ha _ IH]; simpl; lra. Qed.

Lemma total_permutation l l' : Permutation l l' → total l = total l'.
Proof. induction 1; simpl; lra. Qed.

(** Sums of non-negative terms, formed in any order: each term passes
    through fewer additions than there are terms. *)
Lemma reduce32_bounds t :
  Forall (Rle 0) (terms t) →
  (1 - u) ^ length (terms t) * total (terms t) <= reduce32 rnd t
  ∧ reduce32 rnd t <= (1 + u) ^ length (terms t) * total (terms t).
Proof.
  induction t as [x|l IHl r IHr]; cbn [terms reduce32]; intros Hpos.
  - apply Forall_cons in Hpos as [Hx _]. simpl. split; nra.
  - apply Forall_app in Hpos as [Hl Hr].
    destruct (IHl Hl) as [Hl1 Hl2]. destruct (IHr Hr) as [Hr1 Hr2].
    pose proof (total_nonneg _ Hl) as HSl.
    pose proof (total_nonneg _ Hr) as HSr.
    assert (0 < length (terms l))%nat as Hnl
      by (pose proof (terms_not_nil l); destruct (terms l); [done|simpl; lia]).
    assert (0 < length (terms r))%nat as Hnr
      by (pose proof (terms_not_nil r); destruct (terms r); [done|simpl; lia]).
    rewrite length_app, total_app.
    set (nl := length (terms l)) in *. set (nr := length (terms r)) in *.
    set (Sl := total (terms l)) in *. set (Sr := total (terms r)) in *.
    set (a := reduce32 rnd l) in *. set (b := reduce32 rnd r) in *.
    assert (0 <= (1 - u) ^ nl) by (apply pow_le; lra).
    assert (0 <= (1 - u) ^ nr) by (apply pow_le; lra).
    assert (0 <= a) by nra. assert (0 <= b) by nra.
    destruct (rnd_nonneg (a + b)) as [Hlo Hhi]; [lra|].
    assert ((1 - u) ^ (nl + nr) <= (1 - u) * (1 - u) ^ nl) as Hpl.
    { change ((1 - u) * (1 - u) ^ nl) with ((1 - u) ^ S nl).
      apply pow_antitone; [lra|lia]. }
    assert ((1 - u) ^ (nl + nr) <= (1 - u) * (1 - u) ^ nr) as Hpr.
    { change ((1 - u) * (1 - u) ^ nr) with ((1 - u) ^ S nr).
      apply pow_antitone; [lra|lia]. }
    assert ((1 + u) * (1 + u) ^ nl <= (1 + u) ^ (nl + nr)) as Hql.
    { change ((1 + u) * (1 + u) ^ nl) with ((1 + u) ^ S nl).
      apply Rle_pow; [lra|lia]. }
    assert ((1 + u) * (1 + u) ^ nr <= (1 + u) ^ (nl + nr)) as Hqr.
    { change ((1 + u) * (1 + u) ^ nr) with ((1 + u) ^ S nr).
      apply Rle_pow; [lra|lia]. }
    split.
    + apply Rle_trans with ((1 - u) * (a + b)); [|exact Hlo].
      assert ((1 - u) ^ (nl + nr) * Sl <= (1 - u) * a) by nra.
      assert ((1 - u) ^ (nl + nr) * Sr <= (1 - u) * b) by nra.
      lra.
    + apply Rle_trans with ((1 + u) * (a + b)); [exact Hhi|].
      assert ((1 + u) * a <= (1 + u) ^ (nl + nr) * Sl) by nra.
      assert ((1 + u) * b <= (1 + u) ^ (nl + nr) * Sr) by nra.
      lra.
Qed.

Lemma squares_rounded x :
  Forall (Rle 0) (List.map (λ xi, rnd (xi * xi)) x) ∧
  (1 - u) * sum_squares x <= total (List.map (λ xi, rnd (xi * xi)) x)
  ∧ total (List.map (λ xi, rnd (xi * xi)) x) <= (1 + u) * sum_squares x.
Proof.
  induction x as [|xi x (IH1 & IH2 & IH3)]; simpl.
  - split; [constructor|lra].
  - destruct (rnd_nonneg (xi * xi)) as [Hlo Hhi]; [nra|].
    split; [constructor; [nra|done]|]. lra.
Qed.

(** The computed sum of squares of a vector of [n] entries is the exact one
    up to [n + 1] roundings. *)
Lemma sum_squares32_bounds x :
  (1 - u) ^ (length x + 1) * sum_squares x <= sum_squares32 rnd order x
  ∧ sum_squares32 rnd order x <= (1 + u) ^ (length x + 1) * sum_squares x.
Proof.
  unfold sum_squares32, reduce_sum32.
  destruct (squares_rounded x) as (Hpos & Hlo & Hhi).
  pose proof (sum_squares_nonneg x) as HS.
  destruct x as [|x0 x]; [simpl; lra|].
  set (q := List.map (λ xi, rnd (xi * xi)) (x0 :: x)) in *.
  assert (q ≠ []) as Hq by done.
  pose proof (order_terms q Hq) as Hperm.
  destruct (reduce32_bounds (order q)) as [H1 H2].
  { eapply Permutation_Forall; [|exact Hpos]. by symmetry. }
  rewrite (total_permutation _ _ Hperm) in H1, H2.
  rewrite (Permutation_length Hperm) in H1, H2.
  replace (length q) with (length (x0 :: x)) in H1, H2
    by (subst q; by rewrite length_map).
  set (n := length (x0 :: x)) in *.
  change (match q with [] => 0 | _ :: _ => reduce32 rnd (order q) end)
    with (reduce32 rnd (order q)).
  rewrite Nat.add_1_r. cbn [pow].
  assert (0 <= (1 - u) ^ n) by (apply pow_le; lra).
  assert (0 <= (1 + u) ^ n) by (apply pow_le; lra).
  split; nra.
Qed.

Lemma rsqrt32_bounds m :
  0 < m →
  0 < rsqrt32 m ∧
  (1 - ur) ^ 2 <= rsqrt32 m * rsqrt32 m * m <= (1 + ur) ^ 2.
Proof.
  intros Hm. pose proof (rsqrt_error m Hm) as H.
  assert (0 < sqrt m) as Hs by (by apply sqrt_lt_R0).
  assert (0 < / sqrt m) as Hi by (by apply Rinv_0_lt_compat).
  assert ((1 - ur) * / sqrt m <= rsqrt32 m <= (1 + ur) * / sqrt m) as [Hlo Hhi]
    by (unfold Rabs in H; destruct (Rcase_abs (rsqrt32 m - / sqrt m)); lra).
  set (k := rsqrt32 m) in *.
  assert (/ sqrt m * sqrt m = 1) as Hinv by (apply Rinv_l; lra).
  assert (1 - ur <= k * sqrt m <= 1 + ur) as [Hc1 Hc2] by (split; nra).
  assert (k * k * m = (k * sqrt m) * (k * sqrt m)) as ->.
  { rewrite <- (sqrt_sqrt m) at 1 by lra. ring. }
  split; [nra|]. split; nra.
Qed.

Lemma sum_squares_of_rounded k x :
  (1 - u) ^ 2 * (k * k * sum_squares x)
  <= sum_squares (List.map (λ xi, rnd (xi * k)) x)
  ∧ sum_squares (List.map (λ xi, rnd (xi * k)) x)
    <= (1 + u) ^ 2 * (k * k * sum_squares x).
Proof.
  induction x as [|xi x [IH1 IH2]]; simpl; [lra|].
  fold (sum_squares x).
  fold (sum_squares (List.map (λ xi, rnd (xi * k)) x)).
  destruct (rnd_square (xi * k)) as [Hlo Hhi]. simpl in *. split; nra.
Qed.

Lemma norm_bounds_pos n :
  0 < (1 - u) ^ (n + 1) ∧ 0 < (1 + u) ^ (n + 1).
Proof. split; apply pow_lt; lra. Qed.

(** The squared norm of a normalized vector. *)
Lemma l2_normalize32_norm x :
  0 < l2_scale32 rnd rsqrt32 epsilon32 order x ∧
  sum_squares (l2_normalize32 rnd rsqrt32 epsilon32 order x)
  <= norm_high u ur (length x) ∧
  (epsilon32 <= sum_squares32 rnd order x →
   norm_low u ur (length x)
   <= sum_squares (l2_normalize32 rnd rsqrt32 epsilon32 order x)).
Proof.
  unfold l2_normalize32, l2_scale32, norm_high, norm_low.
  destruct (sum_squares32_bounds x) as [Hs1 Hs2].
  destruct (norm_bounds_pos (length x)) as [HP HQ].
  pose proof (sum_squares_nonneg x) as HS.
  set (s := sum_squares32 rnd order x) in *.
  set (S := sum_squares x) in *.
  set (P := (1 - u) ^ (length x + 1)) in *.
  set (Q := (1 + u) ^ (length x + 1)) in *.
  assert (0 < Rmax s epsilon32) as Hm
    by (pose proof (Rmax_r s epsilon32); lra).
  destruct (rsqrt32_bounds _ Hm) as (Hk & Hk1 & Hk2).
  set (k := rsqrt32 (Rmax s epsilon32)) in *.
  destruct (sum_squares_of_rounded k x) as [Hy1 Hy2]. fold S in Hy1, Hy2.
  set (Y := sum_squares (List.map (λ xi, rnd (xi * k)) x)) in *.
  assert (0 <= k * k) as Hkk by nra.
  split; [exact Hk|]. split.
  - apply Rmult_le_reg_r with P; [exact HP|].
    unfold Rdiv. rewrite Rmult_assoc, Rinv_l, Rmult_1_r by lra.
    pose proof (Rmax_l s epsilon32) as Hmax.
    assert (k * k * (S * P) <= (1 + ur) ^ 2) as HkS.
    { apply Rle_trans with (k * k * Rmax s epsilon32); [|exact Hk2].
      apply Rmult_le_compat_l; [exact Hkk|]. lra. }
    assert (0 <= (1 + u) ^ 2) by nra.
    replace (((1 + u) * (1 + ur)) ^ 2) with ((1 + u) ^ 2 * (1 + ur) ^ 2) by ring.
    apply Rle_trans with ((1 + u) ^ 2 * (k * k * S) * P);
      [apply Rmult_le_compat_r; lra|].
    replace ((1 + u) ^ 2 * (k * k * S) * P)
      with ((1 + u) ^ 2 * (k * k * (S * P))) by ring.
    by apply Rmult_le_compat_l.
  - intros Heps. rewrite Rmax_left in Hk1 by exact Heps.
    apply Rmult_le_reg_r with Q; [exact HQ|].
    unfold Rdiv. rewrite Rmult_assoc, Rinv_l, Rmult_1_r by lra.
    assert ((1 - ur) ^ 2 <= k * k * (S * Q)) as HkS.
    { apply Rle_trans with (k * k * s); [exact Hk1|].
      apply Rmult_le_compat_l; [exact Hkk|]. lra. }
    assert (0 <= (1 - u) ^ 2) by nra.
    replace (((1 - u) * (1 - ur)) ^ 2) with ((1 - u) ^ 2 * (1 - ur) ^ 2) by ring.
    apply Rle_trans with ((1 - u) ^ 2 * (k * k * S) * Q);
      [|apply Rmult_le_compat_r; lra].
    replace ((1 - u) ^ 2 * (k * k * S) * Q)
      with ((1 - u) ^ 2 * (k * k * (S * Q))) by ring.
    by apply Rmult_le_compat_l.
Qed.

Lemma last_axis_normalize32 E :
  last_axis (tf_nn_l2_normalize32 rnd rsqrt32 epsilon32 order E)
  = List.map (l2_normalize32 rnd rsqrt32 epsilon32 order) (last_axis E).
Proof. by destruct E. Qed.

(** C8, as the code has it.  The table [E] and the start token that a call
    creates start from the value of [_initializer] for their shape: a
    uniform draw from [-1, 1) normalized along its last axis in float32.
    Every vector along the last axis of the draw is multiplied, entry by
    entry and with rounding, by one positive factor.  Its L2 norm is then 1
    up to the rounding errors, not exactly 1: the squared norm is never above
    [norm_high], and not below [norm_low] when the computed sum of squares of
    the drawn vector reaches [epsilon].  A vector below [epsilon], the zero
    vector for one, is not rescaled to norm 1. *)
Theorem initial_embeddings_unit_norm
    ws self training img formula dropout scopes store :
  let r := run_call ws self training img formula dropout scopes store in
  let p := scope_prefix scopes in
  let dim := dict_get (attn_cell_config (_config self)) "dim_embeddings" in
  (∀ E, store !! (p +:+ "E") = None →
        st_store (fst r) !! (p +:+ "E") = Some E →
        ∃ d, dim = VInt d ∧ var_shape E = [_n_tok self; d] ∧
             var_initial_value E = Some (_initializer [_n_tok self; d])) ∧
  (∀ start_token,
        store !! (p +:+ "start_token") = None →
        st_store (fst r) !! (p +:+ "start_token") = Some start_token →
        ∃ d, dim = VInt d ∧ var_shape start_token = [d] ∧
             var_initial_value start_token = Some (_initializer [d])) ∧
  ∀ shape draw,
    ∃ value,
      initial_value32 rnd rsqrt32 epsilon32 order (_initializer shape) draw
      = Some value ∧
      Forall2
        (λ row row',
           ∃ scale,
             0 < scale ∧
             row' = List.map (λ xi, rnd (xi * scale)) row ∧
             l2_norm row' <= sqrt (norm_high u ur (length row)) ∧
             (epsilon32 <= sum_squares32 rnd order row →
              sqrt (norm_low u ur (length row)) <= l2_norm row'))
        (last_axis draw) (last_axis value).
Proof.
  intros r p dim.
  destruct (call_variables ws self img formula dropout training scopes store)
    as [HE HS].
  fold p dim in HE, HS. fold r in HE, HS.
  split_and!.
  - intros E Hn Hl.
    destruct (HE E Hl Hn) as (rq & Has & Hfd & _ & _ & Hinit).
    destruct (created_table_shape _ _ _ _ Has Hfd) as (d & Hd & Hsh).
    exists d. by rewrite <- Hsh.
  - intros S Hn Hl.
    destruct (HS S Hl Hn) as (rq & Has & Hfd & _ & _ & Hinit).
    destruct (created_vector_shape _ _ _ Has Hfd) as (d & Hd & Hsh).
    exists d. by rewrite <- Hsh.
  - intros shape draw. eexists. split; [reflexivity|].
    rewrite last_axis_normalize32.
    change (List.map ?f ?l) with (f <$> l).
    apply Forall2_fmap_r, Forall_Forall2_diag, Forall_forall.
    intros row _.
    destruct (l2_normalize32_norm row) as (Hscale & Hhigh & Hlow).
    exists (l2_scale32 rnd rsqrt32 epsilon32 order row).
    split_and!; [exact Hscale|reflexivity| |].
    + unfold l2_norm. by apply sqrt_le_1_alt.
    + intros Heps. unfold l2_norm. by apply sqrt_le_1_alt, Hlow.
Qed.

End RoundedNorm.

Lemma round_up_error x :
  (Rabs (round_up x - x) <= unit_roundoff * Rabs x)%R.
Proof.
  unfold round_up.
  replace (x * (1 + unit_roundoff) - x)%R with (unit_roundoff * x)%R by ring.
  rewrite Rabs_mult, (Rabs_right unit_roundoff); [lra|].
  unfold unit_roundoff. apply Rle_ge, Rlt_le, Rinv_0_lt_compat, pow_lt. lra.
Qed.

Lemma unit_roundoff_range : (0 <= unit_roundoff < 1)%R.
Proof.
  unfold unit_roundoff. split.
  - apply Rlt_le, Rinv_0_lt_compat, pow_lt. lra.
  - rewrite <- Rinv_1. apply Rinv_lt_contravar; [|simpl]; lra.
Qed.

Lemma exact_rsqrt_error m :
  (0 < m → Rabs (exact_rsqrt m - / sqrt m) <= 0 * / sqrt m)%R.
Proof.
  intros _. unfold exact_rsqrt.
  rewrite Rminus_diag, Rabs_R0. lra.
Qed.

Lemma sequential_terms x : x ≠ [] → Permutation (terms (sequential x)) x.
Proof. intros Hx. by rewrite terms_sequential. Qed.

Lemma l2_epsilon_small : (l2_epsilon <= 1 / 2)%R.
Proof.
  unfold l2_epsilon. apply Rle_trans with (/ 2)%R; [|lra].
  apply Rinv_le_contravar; [lra|]. simpl. lra.
Qed.

Lemma initial_embeddings_unit_norm_witness :
  ∃ E value row',
    st_store (fst (sample_call "beam_search" "lstm" false)) !! "E" = Some E ∧
    var_initial_value E = Some (_initializer [500; 80]) ∧
    initial_value32 round_up exact_rsqrt l2_epsilon sequential
      (_initializer [2; 2]) (RMatrix [[3 / 5; 0]; [1 / 2; - (1 / 2)]])%R
    = Some value ∧
    last_axis value !! 1%nat = Some row' ∧
    (sqrt (norm_low unit_roundoff 0 2) <= l2_norm row'
     <= sqrt (norm_high unit_roundoff 0 2))%R.
Proof.
  destruct (initial_embeddings_unit_norm round_up unit_roundoff exact_rsqrt 0
              l2_epsilon sequential unit_roundoff_range round_up_error
              ltac:(lra) exact_rsqrt_error l2_epsilon_pos sequential_terms
              sample_weights
              (__init__ (sample_config "beam_search" "lstm" false) 500 499)
              (Placeholder "training") (Placeholder "img")
              (Placeholder "formula") (Placeholder "dropout") [] ∅)
    as (HE & _ & Hvalue).
  destruct sample_call_variables as [HlE _].
  destruct (HE sample_call_E) as (d & Hd & _ & Hinit);
    [apply lookup_empty|exact HlE|].
  injection Hd as <-.
  destruct (Hvalue [2; 2] (RMatrix [[3 / 5; 0]; [1 / 2; - (1 / 2)]])%R)
    as (value & Hv & Hrows).
  destruct (Forall2_lookup_l _ _ _ 1%nat [1 / 2; - (1 / 2)]%R Hrows eq_refl)
    as (row' & Hrow' & scale & _ & _ & Hhigh & Hlow).
  exists sample_call_E, value, row'.
  split_and!; [exact HlE|exact Hinit|exact Hv|exact Hrow'| |exact Hhigh].
  apply Hlow.
  pose proof unit_roundoff_range as [Hu _]. pose proof l2_epsilon_small.
  unfold sum_squares32, reduce_sum32, round_up.
  cbn [List.map sequential reduce32].
  unfold round_up. nra.
Defined.

(** C8, as stated, fails: a row of the draw that is zero stays zero, in the
    arithmetic of the real numbers and in the sample arithmetic that
    rounds, and so has norm 0 and not 1. *)
Lemma zero_row_is_not_normalized :
  initial_value (_initializer [1; 2]) (RMatrix [[0; 0]])%R
  = Some (RMatrix [[0; 0]])%R ∧
  initial_value32 round_up exact_rsqrt l2_epsilon sequential
    (_initializer [1; 2]) (RMatrix [[0; 0]])%R
  = Some (RMatrix [[0; 0]])%R ∧
  l2_norm [0; 0]%R ≠ 1%R.
Proof.
  split_and!.
  - cbn. unfold l2_normalize. cbn [List.map]. by rewrite !Rmult_0_l.
  - cbn. unfold l2_normalize32, round_up. cbn [List.map].
    by rewrite !Rmult_0_l.
  - unfold l2_norm, sum_squares. cbn [fold_right].
    replace (0 * 0 + (0 * 0 + 0))%R with 0%R by ring.
    rewrite sqrt_0. lra.
Qed.

(** * Further properties of [model/decoder.py] *)

(** ** Creating variables *)

(** In a scope that does not reuse, a name the store does not hold is
    created with the requested shape, when its size fits, from the value the
    initializer builds for that shape. *)
Lemma tf_get_variable_creates name sh init st :
  scope_reuse (st_scopes st) = false →
  st_store st !! (scope_prefix (st_scopes st) +:+ name) = None →
  Forall (Z.le 0) sh →
  shape_fits sh = true →
  let v := {| var_name := scope_prefix (st_scopes st) +:+ name;
              var_shape := sh;
              var_initial_value := (λ f, f sh) <$> init |} in
  tf_get_variable name (VInt <$> sh) init st
  = (with_store st (<[scope_prefix (st_scopes st) +:+ name := v]> (st_store st)),
     Return v).
Proof.
  intros Hr Hn Hsh Hf v. unfold tf_get_variable.
  by rewrite as_shape_ints, Hn, Hr, fully_defined_known, Hf.
Qed.

Lemma table_fits_vector n d : shape_fits [n; d] = true → shape_fits [d] = true.
Proof.
  unfold shape_fits, num_elements. cbn [forallb fold_right].
  rewrite !andb_true_iff, !Z.leb_le. lia.
Qed.

Lemma declared_created store p d :
  Forall (Z.le 0) (snd d) →
  store !! (p +:+ fst d) = Some (declared_variable p d) →
  declared store p d (declared_variable p d).
Proof.
  intros Hsh Hl. exists (Some <$> snd d). split_and!; [|  |done].
  - by apply as_shape_ints.
  - apply is_compatible_with_fully_defined, fully_defined_known.
Qed.

(** Declarations with distinct names, none of them in the store, are all
    created, in order. *)
Lemma get_variables_creates ds st :
  scope_reuse (st_scopes st) = false →
  (∀ d, d ∈ ds →
        st_store st !! (scope_prefix (st_scopes st) +:+ fst d) = None) →
  NoDup (fst <$> ds) →
  Forall (λ d, Forall (Z.le 0) (snd d)) ds →
  Forall (λ d, shape_fits (snd d) = true) ds →
  ∃ store,
    get_variables ds st
    = (with_store st store,
       Return (declared_variable (scope_prefix (st_scopes st)) <$> ds)) ∧
    st_store st ⊆ store ∧
    Forall2 (declared store (scope_prefix (st_scopes st))) ds
      (declared_variable (scope_prefix (st_scopes st)) <$> ds).
Proof.
  revert st. induction ds as [|d ds IH]; intros st Hr Hnew Hnd Hsh Hfit.
  - exists (st_store st). rewrite with_store_id. split_and!; [done|done|].
    constructor.
  - rewrite fmap_cons in Hnd. apply NoDup_cons in Hnd as [Hd Hnd].
    apply Forall_cons in Hsh as [Hshd Hsh].
    apply Forall_cons in Hfit as [Hfitd Hfit].
    set (p := scope_prefix (st_scopes st)) in *.
    set (v := declared_variable p d).
    assert (tf_get_variable (fst d) (VInt <$> snd d) None st
            = (with_store st (<[p +:+ fst d := v]> (st_store st)), Return v))
      as Hget.
    { apply (tf_get_variable_creates (fst d) (snd d) None st Hr);
        [|done|done]. apply Hnew. by left. }
    destruct (IH (with_store st (<[p +:+ fst d := v]> (st_store st))))
      as (store & Hrun & Hsub & Hdecl); [done| |done|done|done|].
    { intros d' Hd'. cbn [with_store st_store st_scopes]. fold p.
      rewrite lookup_insert_ne.
      - apply Hnew. by right.
      - intros Heq. apply (inj (String.app p)) in Heq.
        apply Hd. rewrite Heq. by apply list_elem_of_fmap_2. }
    cbn [with_store st_store st_scopes] in Hrun, Hsub, Hdecl. fold p in Hrun, Hdecl.
    exists store. cbn [get_variables]. rewrite run_bind, Hget, run_bind, Hrun.
    rewrite run_ret. split_and!.
    + reflexivity.
    + etrans; [|exact Hsub]. apply insert_subseteq. apply Hnew. by left.
    + rewrite fmap_cons. constructor; [|exact Hdecl].
      apply declared_created; [done|].
      eapply lookup_weaken; [|exact Hsub]. by rewrite lookup_insert_eq.
Qed.

(** ** A call in a graph where it can create its variables *)

Lemma scoped_name_not_top p n top :
  (∀ s, "attn_cell" +:+ "/" +:+ s ≠ top) →
  (p +:+ "attn_cell" +:+ "/") +:+ n ≠ p +:+ top.
Proof.
  intros Hne Heq. rewrite !append_assoc in Heq.
  apply (inj (String.app p)) in Heq. by eapply Hne.
Qed.

(** With a well-formed configuration, in a graph where the variables can be
    created, a call builds both attention cells and reaches the choice of the
    decoder cell: how it ends is decided by the decoding mode alone. *)
Lemma call_runs ws self training img formula dropout scopes store d dim_e nu :
  can_create ws scopes store →
  well_formed self d dim_e nu →
  let p := scope_prefix scopes in
  let E := embedding_variable p ("E", [_n_tok self; d]) in
  let S := embedding_variable p ("start_token", [d]) in
  let params := declared_variable (p +:+ "attn_cell" +:+ "/") <$> ws in
  let out := <["train" := train_outputs_node self img formula dropout
                            E S d dim_e nu params]> ∅ in
  ∃ store',
    run_call ws self training img formula dropout scopes store
    = ({| st_scopes := scopes; st_store := store';
          st_built := train_log self img formula dropout E S d dim_e nu params
                      ++ decode_cell_log self img dropout dim_e nu params
                      ++ fst (decoding_end self img formula dropout
                                E S d dim_e nu params out) |},
       snd (decoding_end self img formula dropout E S d dim_e nu params out)) ∧
    store' !! (p +:+ "E") = Some E ∧
    store' !! (p +:+ "start_token") = Some S ∧
    Forall2 (declared store' (p +:+ "attn_cell" +:+ "/")) ws params.
Proof.
  intros (Hr & HnE & HnS & Hnw & Hnd & Hsh & Hfits)
         (Hn & Hd & Hfit & _ & Hdim & Hde & _ & Hnu & _).
  intros p E S params out.
  unfold run_call, __call__. unfold dict_get. rewrite Hdim.
  cbn [default from_option Datatypes.id]. run.
  rewrite (tf_get_variable_creates "E" [_n_tok self; d]);
    [|done|done|by repeat constructor|done].
  unfold with_store. norm. fold p. fold (embedding_variable p ("E", [_n_tok self; d])).
  fold E. run.
  rewrite (tf_get_variable_creates "start_token" [d]);
    [|done| |by repeat constructor|by eapply table_fits_vector]; cycle 1.
  { norm. fold p. rewrite lookup_insert_ne; [done|].
    intros Heq. by apply (inj (String.app p)) in Heq. }
  unfold with_store. norm. fold p. fold (embedding_variable p ("start_token", [d])).
  fold S. run.
  set (store2 := <[p +:+ "start_token" := S]> (<[p +:+ "E" := E]> store)).
  (* the training block *)
  unfold training_block. rewrite run_variable_scope.
  match goal with |- context [fst (?m ?s)] =>
    destruct (m s) as [stb rb] eqn:Hbody end.
  revert Hbody. unfold entered. norm. run.
  rewrite get_embeddings_runs by done. run.
  unfold dict_getitem. rewrite Hde, Hnu. run.
  unfold AttentionCell_new. run.
  match goal with |- context [get_variables ws ?s] =>
    destruct (get_variables_creates ws s) as (store3 & Hws & Hsub3 & Hdecl)
  end; [exact Hr| |done|done|done|].
  { intros w Hw. cbn [st_scopes st_store].
    change (scope_prefix (("attn_cell", false) :: scopes))
      with (p +:+ "attn_cell" +:+ "/").
    unfold store2. rewrite !lookup_insert_ne; [by apply Hnw| |].
    - apply not_eq_sym, scoped_name_not_top. discriminate.
    - apply not_eq_sym, scoped_name_not_top. discriminate. }
  cbn [st_scopes st_store with_store] in Hws, Hsub3, Hdecl.
  change (scope_prefix (("attn_cell", false) :: scopes))
    with (p +:+ "attn_cell" +:+ "/") in Hws, Hdecl.
  fold params in Hws, Hdecl.
  rewrite Hws. run. intros [= <- <-]. norm.
  exists store3. split_and!; [| | |exact Hdecl].
  - rewrite run_bind_mret.
    rewrite (decoding_block_trace ws self img formula dropout E S d dim_e nu
               params); [|done|done|exact Hdecl].
    reflexivity.
  - eapply lookup_weaken; [|exact Hsub3]. unfold store2.
    rewrite lookup_insert_ne; [by rewrite lookup_insert_eq|].
    intros Heq. by apply (inj (String.app p)) in Heq.
  - eapply lookup_weaken; [|exact Hsub3]. unfold store2.
    by rewrite lookup_insert_eq.
Qed.

Lemma sample_can_create : can_create sample_weights [] ∅.
Proof.
  split_and!; [reflexivity|reflexivity|reflexivity| | | |].
  - intros w _. apply lookup_empty.
  - apply (bool_decide_unpack _). vm_compute. exact I.
  - repeat constructor; lia.
  - repeat constructor.
Qed.

Lemma sample_well_formed mode cell_type bso :
  well_formed (__init__ (sample_config mode cell_type bso) 500 499)
    80 (VInt 512) (VInt 512).
Proof.
  split_and!; try reflexivity.
  - cbn [_n_tok __init__]. lia.
  - lia.
  - intros _. cbn. lia.
  - exists 512. split; [reflexivity|lia].
  - exists 512. split; [reflexivity|lia].
Qed.

(** ** The returned mapping *)

(** X3. A returned [decoder_output] has the keys "train" and "pred", the
    key "bso" when [beam_search_optimization] is set, and no other key. *)
Theorem decoder_output_keys
    ws config n_tok id_end training img formula dropout scopes store out :
  snd (run_call ws (__init__ config n_tok id_end)
         training img formula dropout scopes store) = Return out →
  ∀ k, is_Some (out !! k) ↔
       k = "train" ∨ k = "pred" ∨
       (k = "bso" ∧ beam_search_optimization config = true).
Proof.
  intros Hout k.
  apply call_returns in Hout as (_ & E & S & d & dim_e & nu & params & ->).
  unfold beam_output. cbn [_config __init__].
  destruct (beam_search_optimization config).
  - rewrite !lookup_insert_is_Some, lookup_empty, is_Some_alt.
    destruct (decide (k = "pred")), (decide (k = "bso")),
      (decide (k = "train")); naive_solver.
  - rewrite !lookup_insert_is_Some, lookup_empty, is_Some_alt.
    destruct (decide (k = "pred")), (decide (k = "train")); naive_solver.
Qed.

Lemma decoder_output_keys_witness :
  ∃ out, snd (sample_call "beam_search" "lstm" false) = Return out ∧
         is_Some (out !! "train") ∧ ¬ is_Some (out !! "bso") ∧
         ¬ is_Some (out !! "logits").
Proof.
  unfold sample_call.
  destruct (snd (run_call _ _ _ _ _ _ _ _)) as [out|e] eqn:Hr;
    [|vm_compute in Hr; discriminate Hr].
  pose proof (decoder_output_keys sample_weights
                (sample_config "beam_search" "lstm" false) 500 499
                (Placeholder "training") (Placeholder "img")
                (Placeholder "formula") (Placeholder "dropout") [] ∅ out Hr)
    as Hk.
  exists out. split_and!; [reflexivity| | |].
  - apply Hk. by left.
  - intros H. apply Hk in H as [H|[H|[_ H]]]; discriminate H.
  - intros H. apply Hk in H as [H|[H|[H _]]]; discriminate H.
Defined.

(** X4. In a returned [decoder_output], "pred" is the unroll of a
    [BeamSearchDecoderCell] built on the table [E], the decode attention
    cell, the batch size of the image and the start token, with the
    decoder's [id_end] and the configured [beam_size], [div_gamma] and
    [div_prob]; the attention cell it wraps attends to the image tiled
    [beam_size] times. *)
Theorem pred_is_beam_search_unroll
    ws config n_tok id_end training img formula dropout scopes store out :
  snd (run_call ws (__init__ config n_tok id_end)
         training img formula dropout scopes store) = Return out →
  ∃ E start_token attn_cell,
    out !! "pred"
    = Some (PredOutputs
              (BeamSearchDecoderCell (TVar E) attn_cell (Shape0 img)
                 (TVar start_token) (VInt id_end) (beam_size config)
                 (div_gamma config) (div_prob config))
              (max_length_formula config + 1)) ∧
    am_img (ac_attn attn_cell) = img ∧
    am_tiles (ac_attn attn_cell) = Some (beam_size config) ∧
    ac_n_tok attn_cell = n_tok ∧
    ac_dropout attn_cell = dropout.
Proof.
  intros Hout.
  apply call_returns in Hout as (Hmode & E & S & d & dim_e & nu & params & ->).
  exists E, S,
    (decode_cell (__init__ config n_tok id_end) img dropout dim_e nu params).
  unfold beam_output. rewrite lookup_insert_eq.
  split_and!; [reflexivity|reflexivity| |reflexivity|reflexivity].
  cbn. by rewrite Hmode.
Qed.

Lemma pred_is_beam_search_unroll_witness :
  ∃ out E start_token attn_cell,
    snd (sample_call "beam_search" "lstm" false) = Return out ∧
    out !! "pred"
    = Some (PredOutputs
              (BeamSearchDecoderCell (TVar E) attn_cell
                 (Shape0 (Placeholder "img")) (TVar start_token) (VInt 499) 5
                 (1 # 10) 0) 151).
Proof.
  unfold sample_call.
  destruct (snd (run_call _ _ _ _ _ _ _ _)) as [out|e] eqn:Hr;
    [|vm_compute in Hr; discriminate Hr].
  destruct (pred_is_beam_search_unroll sample_weights
              (sample_config "beam_search" "lstm" false) 500 499
              (Placeholder "training") (Placeholder "img")
              (Placeholder "formula") (Placeholder "dropout") [] ∅ out Hr)
    as (E & S & c & Hp & _).
  exists out, E, S, c. split; [reflexivity|exact Hp].
Defined.

(** X5. When "bso" is returned, it is the unroll of a [BSOCell] that wraps
    the very decoder cell of "pred", with [bso_cross_entropy] as loss; its
    inputs are the formula and the training embeddings without their first
    element, where "train" runs on the same embeddings without their last. *)
Theorem bso_shares_decoder_cell_and_embeddings
    ws config n_tok id_end training img formula dropout scopes store out bso :
  snd (run_call ws (__init__ config n_tok id_end)
         training img formula dropout scopes store) = Return out →
  out !! "bso" = Some bso →
  ∃ decoder_cell embeddings attn_cell,
    bso = BsoOutputs {| bso_decoder_cell := decoder_cell;
                        bso_loss := VGlobal "bso_cross_entropy" |}
            formula (GetItem embeddings [SliceAll; SliceFrom 1; SliceAll]) ∧
    out !! "pred"
    = Some (PredOutputs decoder_cell (max_length_formula config + 1)) ∧
    out !! "train"
    = Some (TrainOutputs attn_cell
              (GetItem embeddings [SliceAll; SliceTo (-1); SliceAll])).
Proof.
  intros Hout.
  apply call_returns in Hout as (_ & E & S & d & dim_e & nu & params & ->).
  unfold beam_output. cbn [_config __init__].
  destruct (beam_search_optimization config).
  - rewrite lookup_insert_ne, lookup_insert_eq by done. intros [= <-].
    eexists _, _, _. split_and!; [reflexivity| |].
    + by rewrite lookup_insert_eq.
    + rewrite !lookup_insert_ne by done. by rewrite lookup_insert_eq.
  - rewrite !lookup_insert_ne by done. by rewrite lookup_empty.
Qed.

Lemma bso_shares_decoder_cell_and_embeddings_witness :
  ∃ out decoder_cell embeddings,
    snd (sample_call "beam_search" "lstm" true) = Return out ∧
    out !! "bso"
    = Some (BsoOutputs {| bso_decoder_cell := decoder_cell;
                          bso_loss := VGlobal "bso_cross_entropy" |}
              (Placeholder "formula")
              (GetItem embeddings [SliceAll; SliceFrom 1; SliceAll])) ∧
    out !! "pred" = Some (PredOutputs decoder_cell 151).
Proof.
  unfold sample_call.
  destruct (snd (run_call _ _ _ _ _ _ _ _)) as [out|e] eqn:Hr;
    [|vm_compute in Hr; discriminate Hr].
  destruct (out !! "bso") as [bso|] eqn:Hb; cycle 1.
  { apply (f_equal (λ r, match r with
                         | Return m => is_Some (m !! "bso")
                         | Raise _ => True end)) in Hr.
    cbn beta iota in Hr. rewrite Hb in Hr.
    assert (is_Some (@None Output)) as [? ?]; [|discriminate].
    rewrite <- Hr. vm_compute. by eauto. }
  destruct (bso_shares_decoder_cell_and_embeddings sample_weights
              (sample_config "beam_search" "lstm" true) 500 499
              (Placeholder "training") (Placeholder "img")
              (Placeholder "formula") (Placeholder "dropout") [] ∅ out bso
              Hr Hb) as (dc & emb & c & -> & Hp & _).
  exists out, dc, emb. split_and!; [reflexivity|exact Hb|exact Hp].
Defined.

(** ** Calls that fail, and what they leave behind *)

(** X6. On every path, also when it raises, a call leaves the stack of
    variable scopes as it found it and keeps every variable the store held,
    under the same name and unchanged. *)
Theorem call_keeps_scopes_and_variables
    ws self training img formula dropout scopes store :
  let st' := fst (run_call ws self training img formula dropout scopes store) in
  st_scopes st' = scopes ∧
  ∀ name v, store !! name = Some v → st_store st' !! name = Some v.
Proof.
  intros st'. subst st'.
  destruct (call_trace ws self img formula dropout training scopes store)
    as (Hsc & Hsub & _).
  split; [exact Hsc|]. intros name v Hv. by eapply lookup_weaken.
Qed.

Lemma call_keeps_scopes_and_variables_witness :
  let kept := {| var_name := "encoder/kernel"; var_shape := [3; 3];
                 var_initial_value := None |} in
  let r := run_call sample_weights
             (__init__ (sample_config "greedy" "lstm" false) 500 499)
             (Placeholder "training") (Placeholder "img")
             (Placeholder "formula") (Placeholder "dropout")
             [("model", false)] {[ "encoder/kernel" := kept ]} in
  st_scopes (fst r) = [("model", false)] ∧
  st_store (fst r) !! "encoder/kernel" = Some kept.
Proof.
  intros kept r.
  destruct (call_keeps_scopes_and_variables sample_weights
              (__init__ (sample_config "greedy" "lstm" false) 500 499)
              (Placeholder "training") (Placeholder "img")
              (Placeholder "formula") (Placeholder "dropout")
              [("model", false)] {[ "encoder/kernel" := kept ]})
    as [Hscopes Hkept].
  split; [exact Hscopes|]. apply Hkept. apply lookup_singleton_eq.
Defined.

Lemma call_on_existing_table ws self training img formula dropout scopes store d :
  scope_reuse scopes = false →
  is_Some (store !! (scope_prefix scopes +:+ "E")) →
  0 ≤ _n_tok self → 0 ≤ d →
  attn_cell_config (_config self) !! "dim_embeddings" = Some (VInt d) →
  run_call ws self training img formula dropout scopes store
  = ({| st_scopes := scopes; st_store := store; st_built := [] |},
     Raise (ValueError "Variable already exists, disallowed")).
Proof.
  intros Hr [E HE] Hn Hd Hdim.
  unfold run_call, __call__. unfold dict_get. rewrite Hdim.
  cbn [default from_option Datatypes.id]. run.
  unfold tf_get_variable.
  change [VInt (_n_tok self); VInt d] with (VInt <$> [_n_tok self; d]).
  rewrite as_shape_ints by (by repeat constructor).
  norm. by rewrite HE, Hr.
Qed.

(** X7. A decoder cannot be built twice in the same scope without reuse:
    after a call that created its variables, a second call in the same
    scopes, on whatever tensors, raises [ValueError] at the table [E],
    builds nothing and leaves the store as it is. *)
Theorem second_call_raises
    ws self training img formula dropout training' img' formula' dropout'
    scopes store d dim_e nu :
  can_create ws scopes store →
  well_formed self d dim_e nu →
  let store' := st_store (fst (run_call ws self training img formula dropout
                                 scopes store)) in
  run_call ws self training' img' formula' dropout' scopes store'
  = ({| st_scopes := scopes; st_store := store'; st_built := [] |},
     Raise (ValueError "Variable already exists, disallowed")).
Proof.
  intros Hc Hw store'. subst store'.
  destruct (call_runs ws self training img formula dropout scopes store
              d dim_e nu Hc Hw) as (store' & Hrun & HE & _).
  rewrite Hrun. cbn [fst st_store].
  destruct Hc as (Hr & _), Hw as (Hn & Hd & _ & _ & Hdim & _).
  by eapply call_on_existing_table.
Qed.

Lemma second_call_raises_witness :
  snd (run_call sample_weights
         (__init__ (sample_config "beam_search" "lstm" true) 500 499)
         (Placeholder "training") (Placeholder "img2") (Placeholder "formula2")
         (Placeholder "dropout") []
         (st_store (fst (sample_call "beam_search" "lstm" true))))
  = Raise (ValueError "Variable already exists, disallowed").
Proof.
  unfold sample_call.
  by rewrite (second_call_raises sample_weights
                (__init__ (sample_config "beam_search" "lstm" true) 500 499)
                (Placeholder "training") (Placeholder "img")
                (Placeholder "formula") (Placeholder "dropout")
                (Placeholder "training") (Placeholder "img2")
                (Placeholder "formula2") (Placeholder "dropout") [] ∅
                80 (VInt 512) (VInt 512) sample_can_create
                (sample_well_formed "beam_search" "lstm" true)).
Defined.

(** The state in which the two blocks run when the call has created the
    table and the start token. *)
Lemma call_reaches_training ws self training img formula dropout scopes store d :
  scope_reuse scopes = false →
  store !! (scope_prefix scopes +:+ "E") = None →
  store !! (scope_prefix scopes +:+ "start_token") = None →
  0 ≤ _n_tok self → 0 ≤ d →
  shape_fits [_n_tok self; d] = true →
  attn_cell_config (_config self) !! "dim_embeddings" = Some (VInt d) →
  let p := scope_prefix scopes in
  let E := embedding_variable p ("E", [_n_tok self; d]) in
  let S := embedding_variable p ("start_token", [d]) in
  run_call ws self training img formula dropout scopes store
  = call_blocks ws self img formula dropout E S (VInt d)
      {| st_scopes := scopes;
         st_store := <[p +:+ "start_token" := S]> (<[p +:+ "E" := E]> store);
         st_built := [] |}.
Proof.
  intros Hr HnE HnS Hn Hd Hfit Hdim p E S.
  unfold run_call, __call__. unfold dict_get. rewrite Hdim.
  cbn [default from_option Datatypes.id]. run.
  rewrite (tf_get_variable_creates "E" [_n_tok self; d]);
    [|done|done|by repeat constructor|done].
  unfold with_store. norm. fold p. fold (embedding_variable p ("E", [_n_tok self; d])).
  fold E. run.
  rewrite (tf_get_variable_creates "start_token" [d]);
    [|done| |by repeat constructor|by eapply table_fits_vector]; cycle 1.
  { norm. fold p. rewrite lookup_insert_ne; [done|].
    intros Heq. by apply (inj (String.app p)) in Heq. }
  unfold with_store. norm. fold p. fold (embedding_variable p ("start_token", [d])).
  fold S. run.
  unfold call_blocks. rewrite !run_bind.
  by destruct (training_block _ _ _ _ _ _ _ _ _ _ _) as [? [[??]|?]].
Qed.

(** X2. The table and the start token are created first and stay.  When the
    scopes do not reuse, the store holds neither name, [n_tok] is not
    negative, "dim_embeddings" is an integer [d] that is not negative and a
    table of [n_tok] x [d] entries fits, then after the call the store holds
    [E] with shape [n_tok, d] and the start token with shape [d], each with
    the initial value that the function of [embedding_initializer] builds for
    its shape: a uniform draw in [-1, 1) normalized along the last axis.
    This holds in every decoding mode and however the call ends, also when
    it raises after the two variables. *)
Theorem call_creates_variables
    ws self training img formula dropout scopes store d :
  scope_reuse scopes = false →
  store !! (scope_prefix scopes +:+ "E") = None →
  store !! (scope_prefix scopes +:+ "start_token") = None →
  0 ≤ _n_tok self → 0 ≤ d →
  shape_fits [_n_tok self; d] = true →
  attn_cell_config (_config self) !! "dim_embeddings" = Some (VInt d) →
  let p := scope_prefix scopes in
  let store' := st_store (fst (run_call ws self training img formula dropout
                                 scopes store)) in
  store' !! (p +:+ "E")
  = Some {| var_name := p +:+ "E"; var_shape := [_n_tok self; d];
            var_initial_value :=
              Some (L2Normalize (RandomUniform [_n_tok self; d] (-1) 1) (-1)) |} ∧
  store' !! (p +:+ "start_token")
  = Some {| var_name := p +:+ "start_token"; var_shape := [d];
            var_initial_value :=
              Some (L2Normalize (RandomUniform [d] (-1) 1) (-1)) |}.
Proof.
  intros Hr HnE HnS Hn Hd Hfit Hdim p store'. subst store'.
  rewrite (call_reaches_training ws self training img formula dropout scopes
             store d) by done.
  fold p.
  match goal with |- context [call_blocks _ _ _ _ _ ?E ?S ?dim ?st] =>
    destruct (call_blocks_trace ws self img formula dropout E S dim st)
      as (_ & Hsub & _)
  end.
  cbn [st_store] in Hsub. split.
  - eapply lookup_weaken; [|exact Hsub].
    rewrite lookup_insert_ne; [by rewrite lookup_insert_eq|].
    intros Heq. by apply (inj (String.app p)) in Heq.
  - eapply lookup_weaken; [|exact Hsub]. by rewrite lookup_insert_eq.
Qed.

Lemma call_creates_variables_witness :
  st_store (fst (run_call sample_weights
                   (__init__ (sample_config_without "num_units") 500 499)
                   (Placeholder "training") (Placeholder "img")
                   (Placeholder "formula") (Placeholder "dropout") [] ∅))
    !! "E"
  = Some {| var_name := "E"; var_shape := [500; 80];
            var_initial_value :=
              Some (L2Normalize (RandomUniform [500; 80] (-1) 1) (-1)) |}.
Proof.
  apply (call_creates_variables sample_weights
           (__init__ (sample_config_without "num_units") 500 499)
           (Placeholder "training") (Placeholder "img")
           (Placeholder "formula") (Placeholder "dropout") [] ∅ 80);
    [reflexivity|apply lookup_empty|apply lookup_empty
    |cbn [_n_tok __init__]; lia|lia|reflexivity|reflexivity].
Defined.

(** X8. When the configuration of the attention cell has no "dim_e", the
    call raises [KeyError] for it before anything is built; the table and
    the start token, created before the configuration is read, stay in the
    store. *)
Theorem missing_dim_e_raises
    ws self training img formula dropout scopes store d :
  scope_reuse scopes = false →
  store !! (scope_prefix scopes +:+ "E") = None →
  store !! (scope_prefix scopes +:+ "start_token") = None →
  0 ≤ _n_tok self → 0 ≤ d →
  shape_fits [_n_tok self; d] = true →
  attn_cell_config (_config self) !! "dim_embeddings" = Some (VInt d) →
  attn_cell_config (_config self) !! "dim_e" = None →
  let p := scope_prefix scopes in
  run_call ws self training img formula dropout scopes store
  = ({| st_scopes := scopes;
        st_store :=
          <[p +:+ "start_token" :=
              {| var_name := p +:+ "start_token"; var_shape := [d];
                 var_initial_value := Some (_initializer [d]) |}]>
            (<[p +:+ "E" :=
                 {| var_name := p +:+ "E"; var_shape := [_n_tok self; d];
                    var_initial_value :=
                      Some (_initializer [_n_tok self; d]) |}]>
               store);
        st_built := [] |},
     Raise (KeyError "dim_e")).
Proof.
  intros Hr HnE HnS Hn Hd Hfit Hdim Hde p.
  rewrite (call_reaches_training ws self training img formula dropout scopes
             store d) by done.
  unfold call_blocks. rewrite run_bind. unfold training_block. rewrite run_variable_scope.
  unfold entered. norm. run.
  rewrite get_embeddings_runs by done. run.
  unfold dict_getitem. rewrite Hde. run. reflexivity.
Qed.

(** X9. When "dim_e" is there and "num_units" is not, the call raises
    [KeyError] for "num_units" after it has built the attention mechanism of
    the training cell, and nothing else. *)
Theorem missing_num_units_raises
    ws self training img formula dropout scopes store d dim_e :
  scope_reuse scopes = false →
  store !! (scope_prefix scopes +:+ "E") = None →
  store !! (scope_prefix scopes +:+ "start_token") = None →
  0 ≤ _n_tok self → 0 ≤ d →
  shape_fits [_n_tok self; d] = true →
  attn_cell_config (_config self) !! "dim_embeddings" = Some (VInt d) →
  attn_cell_config (_config self) !! "dim_e" = Some dim_e →
  attn_cell_config (_config self) !! "num_units" = None →
  let r := run_call ws self training img formula dropout scopes store in
  snd r = Raise (KeyError "num_units") ∧
  st_built (fst r)
  = [ (Some ("attn_cell", false),
       BAttentionMechanism
         {| am_img := img; am_dim_e := dim_e; am_tiles := None |}) ].
Proof.
  intros Hr HnE HnS Hn Hd Hfit Hdim Hde Hnu r. subst r.
  rewrite (call_reaches_training ws self training img formula dropout scopes
             store d) by done.
  unfold call_blocks. rewrite run_bind. unfold training_block. rewrite run_variable_scope.
  unfold entered. norm. run.
  rewrite get_embeddings_runs by done. run.
  unfold dict_getitem. rewrite Hde, Hnu. run. split; reflexivity.
Qed.

(** X10. A configuration without "dim_embeddings" does not give a
    [KeyError]: the key is read with [.get], the table is requested with
    shape [n_tok, None], and [tf.get_variable] refuses to create it with
    [ValueError]; nothing is built or declared. *)
Theorem missing_dim_embeddings_raises
    ws self training img formula dropout scopes store :
  scope_reuse scopes = false →
  store !! (scope_prefix scopes +:+ "E") = None →
  0 ≤ _n_tok self →
  attn_cell_config (_config self) !! "dim_embeddings" = None →
  run_call ws self training img formula dropout scopes store
  = ({| st_scopes := scopes; st_store := store; st_built := [] |},
     Raise (ValueError "Shape of a new variable must be fully defined")).
Proof.
  intros Hr HnE Hn Hdim.
  unfold run_call, __call__. unfold dict_get. rewrite Hdim.
  cbn [default from_option Datatypes.id]. run.
  unfold tf_get_variable. cbn [as_shape as_dimension].
  apply Z.ltb_ge in Hn. rewrite Hn. norm. by rewrite HnE, Hr.
Qed.

(** X11. A decoder made with a negative [n_tok] fails at the first line of
    the call, in every graph: [ValueError] for the shape of the table, with
    nothing built or declared. *)
Theorem negative_n_tok_raises
    ws config n_tok id_end training img formula dropout scopes store :
  n_tok < 0 →
  run_call ws (__init__ config n_tok id_end) training img formula dropout
    scopes store
  = ({| st_scopes := scopes; st_store := store; st_built := [] |},
     Raise (ValueError "Dimension must be >= 0")).
Proof.
  intros Hn. unfold run_call, __call__. run.
  unfold tf_get_variable. cbn [as_shape as_dimension _n_tok __init__].
  apply Z.ltb_lt in Hn. by rewrite Hn.
Qed.

Lemma missing_dim_e_raises_witness :
  snd (run_call sample_weights (__init__ (sample_config_without "dim_e") 500 499)
         (Placeholder "training") (Placeholder "img") (Placeholder "formula")
         (Placeholder "dropout") [] ∅)
  = Raise (KeyError "dim_e").
Proof.
  rewrite (missing_dim_e_raises sample_weights
             (__init__ (sample_config_without "dim_e") 500 499)
             (Placeholder "training") (Placeholder "img")
             (Placeholder "formula") (Placeholder "dropout") [] ∅ 80);
    [reflexivity|reflexivity|apply lookup_empty|apply lookup_empty
    |cbn [_n_tok __init__]; lia|lia|reflexivity|reflexivity|reflexivity].
Defined.

Lemma missing_num_units_raises_witness :
  snd (run_call sample_weights
         (__init__ (sample_config_without "num_units") 500 499)
         (Placeholder "training") (Placeholder "img") (Placeholder "formula")
         (Placeholder "dropout") [] ∅)
  = Raise (KeyError "num_units").
Proof.
  apply (missing_num_units_raises sample_weights
           (__init__ (sample_config_without "num_units") 500 499)
           (Placeholder "training") (Placeholder "img")
           (Placeholder "formula") (Placeholder "dropout") [] ∅ 80 (VInt 512));
    [reflexivity|apply lookup_empty|apply lookup_empty
    |cbn [_n_tok __init__]; lia|lia|reflexivity|reflexivity|reflexivity
    |reflexivity].
Defined.

Lemma missing_dim_embeddings_raises_witness :
  snd (run_call sample_weights
         (__init__ (sample_config_without "dim_embeddings") 500 499)
         (Placeholder "training") (Placeholder "img") (Placeholder "formula")
         (Placeholder "dropout") [] ∅)
  = Raise (ValueError "Shape of a new variable must be fully defined").
Proof.
  rewrite (missing_dim_embeddings_raises sample_weights
             (__init__ (sample_config_without "dim_embeddings") 500 499)
             (Placeholder "training") (Placeholder "img")
             (Placeholder "formula") (Placeholder "dropout") [] ∅);
    [reflexivity|reflexivity|apply lookup_empty
    |cbn [_n_tok __init__]; lia|reflexivity].
Defined.

Lemma negative_n_tok_raises_witness :
  snd (run_call sample_weights
         (__init__ (sample_config "beam_search" "lstm" false) (-1) 499)
         (Placeholder "training") (Placeholder "img") (Placeholder "formula")
         (Placeholder "dropout") [] ∅)
  = Raise (ValueError "Dimension must be >= 0").
Proof.
  by rewrite (negative_n_tok_raises sample_weights
                (sample_config "beam_search" "lstm" false) (-1) 499
                (Placeholder "training") (Placeholder "img")
                (Placeholder "formula") (Placeholder "dropout") [] ∅
                ltac:(lia)).
Defined.

(** ** Calls in scopes that reuse variables *)

Lemma reads_only_ret {A} (a : A) : reads_only (mret a : Py A).
Proof. by intros st _. Qed.

Lemma reads_only_raise {A} e : reads_only (raise e : Py A).
Proof. by intros st _. Qed.

Lemma reads_only_lift {A} (r : Result A) : reads_only (lift r).
Proof. by intros st _. Qed.

Lemma reads_only_built {A} (tag : A → Built) a : reads_only (built tag a).
Proof. by intros st _. Qed.

Lemma reads_only_load_global name : reads_only (load_global name).
Proof. intros st _. unfold load_global. by destruct (bool_decide _). Qed.

Lemma reads_only_load_fast {A} name (v : option A) : reads_only (load_fast name v).
Proof. intros st _. by destruct v. Qed.

Lemma reads_only_bind {A B} (m : Py A) (f : A → Py B) :
  reads_only m → (∀ a, reads_only (f a)) → reads_only (m ≫= f).
Proof.
  intros Hm Hf st Hr. rewrite run_bind.
  destruct (Hm st Hr) as [Hs Hc].
  destruct (m st) as [st1 [a|e]]; cbn [fst] in *; [|done].
  destruct (Hf a st1) as [Hs' Hc']; [by rewrite Hc|].
  by rewrite Hs', Hc', Hs, Hc.
Qed.

Lemma reads_only_variable_scope {A} name reuse (body : Py A) :
  reads_only body → reads_only (variable_scope name reuse body).
Proof.
  intros Hb st Hr. rewrite run_variable_scope. norm.
  destruct (Hb (entered st name reuse)) as [Hs _]; [|by rewrite Hs].
  unfold entered, scope_reuse. cbn [st_scopes existsb].
  apply orb_true_iff. by right.
Qed.

Lemma reads_only_tf_get_variable name shape init :
  reads_only (tf_get_variable name shape init).
Proof.
  intros st Hr. unfold tf_get_variable.
  destruct (as_shape shape); [|done]. rewrite Hr.
  destruct (st_store st !! _); [|done].
  by destruct (is_compatible_with _ _).
Qed.

Lemma reads_only_get_variables ds : reads_only (get_variables ds).
Proof.
  induction ds as [|d ds IH]; [apply reads_only_ret|].
  cbn [get_variables].
  apply reads_only_bind; [apply reads_only_tf_get_variable|intros v].
  apply reads_only_bind; [exact IH|intros vs]. apply reads_only_ret.
Qed.

Lemma reads_only_tf_reshape t shape : reads_only (tf_reshape t shape).
Proof.
  intros st _. unfold tf_reshape.
  destruct (int_list shape); [|done].
  destruct t; try done. by destruct (_ && _).
Qed.

(** Decomposing a construction program into its steps. *)
Ltac reads_only :=
  repeat first
    [ apply reads_only_ret
    | apply reads_only_raise
    | apply reads_only_lift
    | apply reads_only_built
    | apply reads_only_load_global
    | apply reads_only_load_fast
    | apply reads_only_tf_get_variable
    | apply reads_only_get_variables
    | apply reads_only_tf_reshape
    | apply reads_only_variable_scope
    | apply reads_only_bind; [|intros ?]
    | match goal with
      | |- reads_only (let '(_, _) := ?x in _) => destruct x
      | |- reads_only (if ?b then _ else _) => destruct b
      end ].

Lemma reads_only_get_embeddings formula E dim start_token batch_size :
  reads_only (get_embeddings formula E dim start_token batch_size).
Proof. unfold get_embeddings. reads_only. Qed.

Lemma reads_only_call ws self training img formula dropout :
  reads_only (__call__ ws self training img formula dropout).
Proof.
  unfold __call__, training_block, decoding_block, decoder_cell_block,
    AttentionCell_new.
  reads_only; apply reads_only_get_embeddings.
Qed.

(** X12. In scopes that reuse variables a call declares nothing: whatever
    the configuration and the store, and whether it returns or raises, the
    store after the call is the store before it. *)
Theorem reusing_call_declares_nothing
    ws self training img formula dropout scopes store :
  scope_reuse scopes = true →
  st_store (fst (run_call ws self training img formula dropout scopes store))
  = store.
Proof.
  intros Hr. unfold run_call.
  by destruct (reads_only_call ws self training img formula dropout
                 {| st_scopes := scopes; st_store := store; st_built := [] |} Hr).
Qed.

Lemma reusing_call_declares_nothing_witness :
  st_store (fst (run_call sample_weights
                   (__init__ (sample_config "beam_search" "lstm" true) 500 499)
                   (Placeholder "training") (Placeholder "img")
                   (Placeholder "formula") (Placeholder "dropout")
                   [("model", true)] ∅))
  = ∅.
Proof.
  apply (reusing_call_declares_nothing sample_weights
           (__init__ (sample_config "beam_search" "lstm" true) 500 499)
           (Placeholder "training") (Placeholder "img")
           (Placeholder "formula") (Placeholder "dropout")
           [("model", true)] ∅).
  reflexivity.
Defined.

Lemma tf_get_variable_shared name sh init st v :
  scope_reuse (st_scopes st) = true →
  st_store st !! (scope_prefix (st_scopes st) +:+ name) = Some v →
  Forall (Z.le 0) sh →
  var_shape v = sh →
  tf_get_variable name (VInt <$> sh) init st = (st, Return v).
Proof.
  intros Hr Hl Hsh Hv. unfold tf_get_variable.
  rewrite as_shape_ints, Hl, Hr, Hv by done.
  by rewrite is_compatible_with_fully_defined by apply fully_defined_known.
Qed.

(** In scopes that reuse, on a store that holds the table, the start token
    and the weights, a call obtains them and reaches the choice of the
    decoder cell. *)
Lemma call_shares ws self training img formula dropout scopes store
    d dim_e nu E S params :
  scope_reuse scopes = true →
  well_formed self d dim_e nu →
  store !! (scope_prefix scopes +:+ "E") = Some E →
  var_shape E = [_n_tok self; d] →
  store !! (scope_prefix scopes +:+ "start_token") = Some S →
  var_shape S = [d] →
  Forall2 (declared store (scope_prefix scopes +:+ "attn_cell" +:+ "/")) ws params →
  let out := <["train" := train_outputs_node self img formula dropout
                            E S d dim_e nu params]> ∅ in
  run_call ws self training img formula dropout scopes store
  = ({| st_scopes := scopes; st_store := store;
        st_built := train_log self img formula dropout E S d dim_e nu params
                    ++ decode_cell_log self img dropout dim_e nu params
                    ++ fst (decoding_end self img formula dropout
                              E S d dim_e nu params out) |},
     snd (decoding_end self img formula dropout E S d dim_e nu params out)).
Proof.
  intros Hr (Hn & Hd & _ & _ & Hdim & Hde & _ & Hnu & _) HE HEs HS HSs Hdecl out.
  unfold run_call, __call__. unfold dict_get. rewrite Hdim.
  cbn [default from_option Datatypes.id]. run.
  rewrite (tf_get_variable_shared "E" [_n_tok self; d] _ _ E);
    [|done|done|by repeat constructor|done].
  run.
  rewrite (tf_get_variable_shared "start_token" [d] _ _ S);
    [|done|done|by repeat constructor|done].
  run.
  unfold training_block. rewrite run_variable_scope.
  match goal with |- context [fst (?m ?s)] =>
    destruct (m s) as [stb rb] eqn:Hbody end.
  revert Hbody. unfold entered. norm. run.
  rewrite get_embeddings_runs by done. run.
  unfold dict_getitem. rewrite Hde, Hnu. run.
  unfold AttentionCell_new. run.
  rewrite (get_variables_reuse ws params); [| |exact Hdecl]; cycle 1.
  { cbn [st_scopes scope_reuse existsb]. apply orb_true_iff. by right. }
  run. intros [= <- <-]. norm.
  rewrite run_bind_mret.
  rewrite (decoding_block_trace ws self img formula dropout E S d dim_e nu
             params); [|done|done|exact Hdecl].
  reflexivity.
Qed.

(** X13. A decoder built once can be built again under reuse: after a call
    that created its variables, a call in scopes with the same names that
    reuse, on the same or on other tensors, obtains the same table, start
    token and weights, declares nothing, and ends as the decoding mode
    decides; on the same tensors it has the result of the first call. *)
Theorem reusing_call_shares_variables
    ws self training img formula dropout training' img' formula' dropout'
    scopes scopes' store d dim_e nu :
  can_create ws scopes store →
  well_formed self d dim_e nu →
  scope_prefix scopes' = scope_prefix scopes →
  scope_reuse scopes' = true →
  let first := run_call ws self training img formula dropout scopes store in
  let second := run_call ws self training' img' formula' dropout' scopes'
                  (st_store (fst first)) in
  st_store (fst second) = st_store (fst first) ∧
  (∃ E S params,
     let ends img formula dropout :=
       snd (decoding_end self img formula dropout E S d dim_e nu params
              (<["train" := train_outputs_node self img formula dropout
                              E S d dim_e nu params]> ∅)) in
     snd first = ends img formula dropout ∧
     snd second = ends img' formula' dropout') ∧
  (img' = img → formula' = formula → dropout' = dropout →
   snd second = snd first ∧ st_built (fst second) = st_built (fst first)).
Proof.
  intros Hc Hw Hp Hr first second. subst first second.
  destruct (call_runs ws self training img formula dropout scopes store
              d dim_e nu Hc Hw) as (store' & Hrun & HE & HS & Hdecl).
  rewrite Hrun. cbn [fst snd st_store st_built].
  rewrite <- Hp in HE, HS, Hdecl.
  pose proof (λ training' img' formula' dropout',
              call_shares ws self training' img' formula' dropout' scopes'
                store' d dim_e nu _ _ _ Hr Hw HE eq_refl HS eq_refl Hdecl)
    as Hsecond.
  cbn zeta in Hsecond. rewrite Hp in Hsecond.
  split_and!.
  - by rewrite Hsecond.
  - eexists _, _, _. cbn zeta. split; [reflexivity|]. by rewrite Hsecond.
  - intros -> -> ->. by rewrite Hsecond.
Qed.

Lemma sample_can_create_in_scope name :
  can_create sample_weights [(name, false)] ∅.
Proof.
  split_and!; [reflexivity|apply lookup_empty|apply lookup_empty| | | |].
  - intros w _. apply lookup_empty.
  - apply (bool_decide_unpack _). vm_compute. exact I.
  - repeat constructor; lia.
  - repeat constructor.
Qed.

Lemma reusing_call_shares_variables_witness :
  let self := __init__ (sample_config "beam_search" "lstm" true) 500 499 in
  let first := run_call sample_weights self (Placeholder "training")
                 (Placeholder "img") (Placeholder "formula")
                 (Placeholder "dropout") [("model", false)] ∅ in
  let second := run_call sample_weights self (Placeholder "training")
                  (Placeholder "img") (Placeholder "formula")
                  (Placeholder "dropout") [("model", true)]
                  (st_store (fst first)) in
  st_store (fst second) = st_store (fst first) ∧ snd second = snd first.
Proof.
  intros self first second.
  destruct (reusing_call_shares_variables sample_weights self
              (Placeholder "training") (Placeholder "img")
              (Placeholder "formula") (Placeholder "dropout")
              (Placeholder "training") (Placeholder "img")
              (Placeholder "formula") (Placeholder "dropout")
              [("model", false)] [("model", true)] ∅ 80 (VInt 512) (VInt 512)
              (sample_can_create_in_scope "model")
              (sample_well_formed "beam_search" "lstm" true)
              eq_refl eq_refl)
    as (Hstore & _ & Hsame).
  split; [exact Hstore|]. by apply Hsame.
Defined.

(** X14. In scopes that reuse, a call needs the table it is configured
    for: when the store does not hold [E] under the prefix of the scopes, or
    holds it with a shape other than [n_tok, dim_embeddings], the call
    raises [ValueError] at its first variable and builds nothing. *)
Theorem reusing_call_needs_table
    ws self training img formula dropout scopes store d :
  scope_reuse scopes = true →
  0 ≤ _n_tok self → 0 ≤ d →
  attn_cell_config (_config self) !! "dim_embeddings" = Some (VInt d) →
  let r := run_call ws self training img formula dropout scopes store in
  let failed msg :=
    r = ({| st_scopes := scopes; st_store := store; st_built := [] |},
         Raise (ValueError msg)) in
  match store !! (scope_prefix scopes +:+ "E") with
  | None => failed "Variable does not exist"
  | Some E =>
      var_shape E ≠ [_n_tok self; d] →
      failed "Trying to share variable, but specified shape differs"
  end.
Proof.
  intros Hr Hn Hd Hdim r failed. subst r failed. cbn beta.
  unfold run_call, __call__. unfold dict_get. rewrite Hdim.
  cbn [default from_option Datatypes.id]. run.
  unfold tf_get_variable.
  change [VInt (_n_tok self); VInt d] with (VInt <$> [_n_tok self; d]).
  rewrite as_shape_ints by (by repeat constructor). norm. rewrite Hr.
  destruct (store !! _) as [E|]; [|reflexivity].
  intros Hshape.
  destruct (is_compatible_with _ _) eqn:Hc; [|reflexivity].
  by apply is_compatible_with_known in Hc.
Qed.

Lemma reusing_call_needs_table_witness :
  snd (run_call sample_weights
         (__init__ (sample_config "beam_search" "lstm" true) 500 499)
         (Placeholder "training") (Placeholder "img") (Placeholder "formula")
         (Placeholder "dropout") [("model", true)]
         {[ "model/E" := {| var_name := "model/E"; var_shape := [400; 80];
                            var_initial_value := None |} ]})
  = Raise (ValueError "Trying to share variable, but specified shape differs").
Proof.
  pose proof (reusing_call_needs_table sample_weights
                (__init__ (sample_config "beam_search" "lstm" true) 500 499)
                (Placeholder "training") (Placeholder "img")
                (Placeholder "formula") (Placeholder "dropout")
                [("model", true)]
                {[ "model/E" := {| var_name := "model/E";
                                   var_shape := [400; 80];
                                   var_initial_value := None |} ]} 80
                eq_refl ltac:(cbn [_n_tok __init__]; lia) ltac:(lia) eq_refl)
    as H.
  cbn zeta in H.
  change (scope_prefix [("model", true)] +:+ "E") with "model/E" in H.
  rewrite lookup_singleton_eq in H. by rewrite H.
Defined.

(** ** The inputs of the unrolls at run time *)

Section DecoderInputs.

Context {F : Type}.

Variables (n t n_tok dim h w c : nat).
Variable ids : nat → nat → Z.                 (* the formula, n x t *)
Variable e : nat → nat → F.                   (* the table, n_tok x dim *)
Variable s : nat → F.                         (* the start token, dim *)
Variable pixels : nat → nat → nat → nat → F.  (* the image, n x h x w x c *)
Variables E start_token : TFVariable.

Hypothesis E_shape : var_shape E = [Z.of_nat n_tok; Z.of_nat dim].
Hypothesis start_token_shape : var_shape start_token = [Z.of_nat dim].
Hypothesis distinct : var_name E ≠ var_name start_token.
Hypothesis ids_valid :
  ∀ b i, (b < n)%nat → (i < t)%nat → 0 ≤ ids b i < Z.of_nat n_tok.

Local Abbreviation feed :=
  (training_feed n t n_tok dim h w c ids e s pixels E start_token).
Local Abbreviation emb := (embeddings dim E start_token).

Lemma slice_from_first len : slice_bounds (len + 1) (SliceFrom 1) = (1%nat, len).
Proof.
  unfold slice_bounds. cbn [Z.ltb Z.compare].
  replace (Z.to_nat (Z.min (Z.max 1 0) (Z.of_nat (len + 1)))) with 1%nat by lia.
  f_equal. lia.
Qed.

(** X15. The two slices of the embeddings are aligned for teacher forcing.
    [embeddings[:, 1:, :]], the embeddings given to the BSO unroll, holds for
    a formula of length [t] the [t] rows of the table for its tokens; and
    [embeddings[:, :-1, :]], the training inputs, is the same sequence
    delayed by one step: its element [i + 1] is the embedding of token [i]. *)
Theorem shifted_embeddings_are_formula_tokens :
  ∃ x_train x_bso,
    eval feed (GetItem emb [SliceAll; SliceTo (-1); SliceAll])
    = Some (Rank3 n t dim x_train) ∧
    eval feed (GetItem emb [SliceAll; SliceFrom 1; SliceAll])
    = Some (Rank3 n t dim x_bso) ∧
    (∀ b i k, (b < n)%nat → (i < t)%nat → (k < dim)%nat →
              x_bso b i k = e (Z.to_nat (ids b i)) k) ∧
    (∀ b i k, x_train b (S i) k = x_bso b i k).
Proof.
  destruct (eval_embeddings n t n_tok dim h w c ids e s pixels E start_token
              E_shape start_token_shape distinct ids_valid)
    as (x & Hx & _ & Hrows).
  eexists _, _. split_and!.
  - erewrite eval_GetItem; [|exact Hx].
    cbn [getitem]. rewrite slice_to_last. cbn [slice_bounds]. reflexivity.
  - erewrite eval_GetItem; [|exact Hx].
    cbn [getitem]. rewrite slice_from_first. cbn [slice_bounds]. reflexivity.
  - intros b i k Hb Hi Hk. cbn beta. by apply Hrows.
  - reflexivity.
Qed.

(** X16. The start token is tiled to the batch size of the image while the
    looked-up rows have the batch size of the formula: the embeddings have
    a value exactly when the two batch sizes agree. *)
Theorem embeddings_need_equal_batches (m : nat) :
  is_Some (eval (batch_feed m n t n_tok dim h w c ids e s pixels E start_token)
             emb)
  ↔ m = n.
Proof.
  split; [|intros ->].
  - unfold embeddings, embeddings_node. rewrite eval_Concat.
    erewrite eval_Tile; cycle 1.
    { erewrite eval_Reshape; cycle 1.
      { cbn [eval batch_feed var_values].
        rewrite lookup_insert_ne, lookup_insert_eq by done.
        cbn [value_shape]. by rewrite start_token_shape, bool_decide_eq_true_2. }
      unfold reshape.
      replace ((0 <=? 1) && (0 <=? 1) && (0 <=? Z.of_nat dim)
               && (1 * 1 * Z.of_nat dim =? Z.of_nat dim)) with true; [reflexivity|].
      symmetry. rewrite !andb_true_iff, !Z.leb_le, Z.eqb_eq. lia. }
    erewrite eval_GetItem; cycle 1.
    { erewrite eval_EmbeddingLookup; cycle 1.
      - cbn [eval batch_feed var_values]. rewrite lookup_insert_eq.
        cbn [value_shape]. by rewrite E_shape, bool_decide_eq_true_2.
      - cbn [eval batch_feed feed_dict].
        by rewrite lookup_insert_ne, lookup_insert_eq.
      - unfold embedding_lookup.
        by rewrite (ids_in_range_valid n t n_tok ids ids_valid). }
    rewrite eval_Shape0. cbn [eval batch_feed feed_dict].
    rewrite lookup_insert_eq.
    cbn [mbind option_bind value_shape eval tile getitem slice_bounds concat].
    replace ((0 <=? Z.of_nat m) && (0 <=? 1) && (0 <=? 1)) with true
      by (symmetry; rewrite !andb_true_iff, !Z.leb_le; lia).
    rewrite !Nat2Z.id. change (Z.to_nat 1) with 1%nat.
    rewrite !Nat.mul_1_r.
    destruct (m =? n)%nat eqn:Hmn; [by apply Nat.eqb_eq in Hmn|].
    cbn [andb]. by intros [? ?].
  - destruct (eval_embeddings n t n_tok dim h w c ids e s pixels E start_token
                E_shape start_token_shape distinct ids_valid)
      as (x & Hx & _).
    change (batch_feed n n t n_tok dim h w c ids e s pixels E start_token)
      with feed.
    by rewrite Hx.
Qed.

End DecoderInputs.

Lemma shifted_embeddings_are_formula_tokens_witness :
  ∃ x_bso,
    eval (training_feed 1 2 3 2 1 1 1 sample_ids sample_table sample_start
            (λ _ _ _ _, 0) sample_E sample_start_token)
      (GetItem (embeddings 2 sample_E sample_start_token)
         [SliceAll; SliceFrom 1; SliceAll])
    = Some (Rank3 1 2 2 x_bso) ∧
    x_bso 0%nat 0%nat 0%nat = 20 ∧
    x_bso 0%nat 1%nat 1%nat = 11.
Proof.
  assert (var_name sample_E ≠ var_name sample_start_token) as Hne
    by discriminate.
  destruct (shifted_embeddings_are_formula_tokens 1 2 3 2 1 1 1 sample_ids
              sample_table sample_start (λ _ _ _ _, 0) sample_E
              sample_start_token eq_refl eq_refl Hne
              (λ b i _ _, sample_ids_valid 3 b i (le_n 3)))
    as (x_train & x_bso & _ & Hx & Hrows & _).
  exists x_bso. split_and!.
  - exact Hx.
  - rewrite Hrows by lia. reflexivity.
  - rewrite Hrows by lia. reflexivity.
Defined.

Lemma embeddings_need_equal_batches_witness :
  ¬ is_Some (eval (batch_feed 4 1 2 3 2 1 1 1 sample_ids sample_table
                     sample_start (λ _ _ _ _, 0) sample_E sample_start_token)
               (embeddings 2 sample_E sample_start_token)).
Proof.
  assert (var_name sample_E ≠ var_name sample_start_token) as Hne
    by discriminate.
  intros H.
  apply (embeddings_need_equal_batches 1 2 3 2 1 1 1 sample_ids
           sample_table sample_start (λ _ _ _ _, 0) sample_E
           sample_start_token eq_refl eq_refl Hne
           (λ b i _ _, sample_ids_valid 3 b i (le_n 3)) 4%nat) in H.
  discriminate H.
Defined.

(** ** The initializer on every draw *)

Section InitializerBounds.

Local Open Scope R_scope.

Variable rnd : R → R.
Variable u : R.
Variable rsqrt32 : R → R.
Variable ur : R.
Variable epsilon32 : R.
Variable order : list R → Reduction.

Hypothesis u_range : 0 <= u < 1.
Hypothesis rnd_error : ∀ x, Rabs (rnd x - x) <= u * Rabs x.
Hypothesis ur_range : 0 <= ur < 1.
Hypothesis rsqrt_error :
  ∀ m, 0 < m → Rabs (rsqrt32 m - / sqrt m) <= ur * / sqrt m.
Hypothesis epsilon_pos : 0 < epsilon32.
Hypothesis order_terms : ∀ x, x ≠ [] → Permutation (terms (order x)) x.

Lemma l2_normalize32_bounded x :
  let bound := sqrt (norm_high u ur (length x)) in
  let y := l2_normalize32 rnd rsqrt32 epsilon32 order x in
  length y = length x ∧
  l2_norm y <= bound ∧
  Forall (λ yi, Rabs yi <= bound) y.
Proof.
  intros bound y.
  destruct (l2_normalize32_norm rnd u rsqrt32 ur epsilon32 order u_range
              rnd_error ur_range rsqrt_error epsilon_pos order_terms x)
    as (_ & Hhigh & _).
  fold y in Hhigh.
  split_and!.
  - unfold y, l2_normalize32. apply length_map.
  - unfold l2_norm, bound. by apply sqrt_le_1_alt.
  - apply Forall_forall. intros yi Hyi.
    apply square_le_sum_squares in Hyi.
    rewrite <- sqrt_Rsqr_abs. unfold bound, Rsqr.
    apply sqrt_le_1_alt. lra.
Qed.

(** X18. Whatever tensor is drawn, the initializer returns a tensor of the
    same shape, and no draw makes it divide by zero.  In float32 a vector
    along the last axis can leave the unit ball, but only by the rounding
    errors: its L2 norm and the absolute value of each of its entries are at
    most the square root of [norm_high], also for the vectors below
    [epsilon]. *)
Theorem initial_embeddings_bounded shape (draw : RTensor) :
  ∃ value,
    initial_value32 rnd rsqrt32 epsilon32 order (_initializer shape) draw
    = Some value ∧
    Forall2 (λ row row',
               length row' = length row ∧
               l2_norm row' <= sqrt (norm_high u ur (length row)) ∧
               Forall (λ y, Rabs y <= sqrt (norm_high u ur (length row))) row')
      (last_axis draw) (last_axis value).
Proof.
  eexists. split; [reflexivity|].
  assert (∀ E, last_axis (tf_nn_l2_normalize32 rnd rsqrt32 epsilon32 order E)
               = l2_normalize32 rnd rsqrt32 epsilon32 order <$> last_axis E)
    as -> by (by intros []).
  apply Forall2_fmap_r, Forall_Forall2_diag, Forall_forall.
  intros row _. apply l2_normalize32_bounded.
Qed.

End InitializerBounds.

Lemma initial_embeddings_bounded_witness :
  ∃ value,
    initial_value32 round_up exact_rsqrt l2_epsilon sequential
      (_initializer [2; 2]) (RMatrix [[3 / 5; 4 / 5]; [0; 0]])%R
    = Some value ∧
    Forall2 (λ row row',
               length row' = length row ∧
               (l2_norm row' <= sqrt (norm_high unit_roundoff 0 (length row)))%R ∧
               Forall (λ y, (Rabs y
                             <= sqrt (norm_high unit_roundoff 0 (length row)))%R)
                 row')
      (last_axis (RMatrix [[3 / 5; 4 / 5]; [0; 0]])%R) (last_axis value).
Proof.
  apply (initial_embeddings_bounded round_up unit_roundoff exact_rsqrt 0
           l2_epsilon sequential unit_roundoff_range round_up_error
           ltac:(lra) exact_rsqrt_error l2_epsilon_pos sequential_terms).
Defined.

Section SmallRows.

Local Open Scope R_scope.

Lemma sqrt_l2_epsilon : sqrt l2_epsilon = / 10 ^ 6.
Proof.
  unfold l2_epsilon.
  replace (/ 10 ^ 12) with (/ 10 ^ 6 * / 10 ^ 6) by (field; lra).
  apply sqrt_square. apply Rlt_le, Rinv_0_lt_compat, pow_lt. lra.
Qed.

Lemma l2_scale_small x : sum_squares x <= l2_epsilon → l2_scale x = 10 ^ 6.
Proof.
  intros Hx. unfold l2_scale. rewrite Rmax_right by exact Hx.
  rewrite sqrt_l2_epsilon. apply Rinv_inv.
Qed.

(** X19. A drawn vector whose sum of squares does not exceed the [epsilon]
    of [l2_normalize] is multiplied by exactly 10^6: its norm grows by that
    factor and stays below 1 when the sum of squares is below [epsilon]; the
    zero vector stays the zero vector. *)
Theorem small_rows_are_scaled (E : RTensor) (i : nat) (row : list R) :
  last_axis E !! i = Some row →
  sum_squares row <= l2_epsilon →
  let row' := List.map (λ xi, xi * 10 ^ 6) row in
  last_axis (embedding_initializer E) !! i = Some row' ∧
  l2_norm row' = 10 ^ 6 * l2_norm row ∧
  (sum_squares row < l2_epsilon → l2_norm row' < 1) ∧
  (sum_squares row = 0 → l2_norm row' = 0).
Proof.
  intros Hrow Hsmall row'. subst row'.
  assert (0 < 10 ^ 6) as Hk by (apply pow_lt; lra).
  pose proof (sum_squares_nonneg row) as Hnn.
  assert (l2_norm (List.map (λ xi, xi * 10 ^ 6) row) = 10 ^ 6 * l2_norm row)
    as Hnorm.
  { unfold l2_norm. rewrite sum_squares_scaled.
    rewrite sqrt_mult by nra. rewrite sqrt_square by lra. reflexivity. }
  split_and!.
  - rewrite last_axis_initializer.
    change (List.map l2_normalize (last_axis E))
      with (l2_normalize <$> last_axis E).
    rewrite list_lookup_fmap, Hrow. cbn [fmap option_fmap option_map].
    unfold l2_normalize. by rewrite l2_scale_small.
  - exact Hnorm.
  - intros Hlt. rewrite Hnorm. unfold l2_norm.
    assert (sqrt (sum_squares row) < / 10 ^ 6) as Hs.
    { rewrite <- sqrt_l2_epsilon. by apply sqrt_lt_1_alt. }
    apply (Rmult_lt_compat_l (10 ^ 6)) in Hs; [|exact Hk].
    rewrite Rinv_r in Hs by lra. exact Hs.
  - intros Hz. rewrite Hnorm. unfold l2_norm. rewrite Hz, sqrt_0. lra.
Qed.

Lemma small_rows_are_scaled_witness :
  last_axis (embedding_initializer (RMatrix [[3 / 5; 0]; [0; 0]])) !! 1%nat
  = Some (List.map (λ xi, xi * 10 ^ 6) [0; 0]) ∧
  l2_norm (List.map (λ xi, xi * 10 ^ 6) [0; 0]) = 0.
Proof.
  assert (sum_squares [0; 0] = 0) as Hz by (unfold sum_squares; simpl; lra).
  destruct (small_rows_are_scaled (RMatrix [[3 / 5; 0]; [0; 0]]) 1 [0; 0])
    as (Hrow & _ & _ & Hzero).
  - reflexivity.
  - rewrite Hz. apply Rlt_le, l2_epsilon_pos.
  - split; [exact Hrow|by apply Hzero].
Defined.

End SmallRows.
